(** * picamera.js capture core: a shallow embedding and its specification

    The development follows the C++ sources of the capture core:
    - [common.hpp]          : stream types, sparse control record, frames;
    - [control_manager.cpp] : the control merge/apply step;
    - [stream_manager.cpp]  : stream configuration, buffers and mapping;
    - [jpeg_encoder.cpp]    : the bounded encode queue and its worker;
    - [camera_manager.cpp]  : the orchestrator and its completion handler.

    Fixed-width integers are integers of [Z] with the wrap-around written
    out, [float] values are IEEE-754 values of [spec_float] (they are only
    stored and copied), pointers are handles with [0] for [nullptr], and
    [std::map] is a finite map.  Behaviour the C++ standard leaves
    undefined (null dereference, division by zero, out-of-bounds read) is an
    explicit [Fault] outcome. *)

From Stdlib Require Import ZArith List Bool Lia.
From Stdlib Require Import Floats.SpecFloat.
From stdpp Require Import base option list sorting gmap.

Local Open Scope Z_scope.

(** ** Outcomes: a value, or undefined behaviour

    Sequencing uses stdpp's monad notation [x ← r; k]. *)

Inductive fault : Type :=
  | NullDeref        (* dereference of an empty unique_ptr / shared_ptr *)
  | DivByZero        (* integer division by zero *)
  | OutOfBounds      (* access past the end of a region or vector *)
  | Thrown.          (* a C++ exception leaves the function *)

Inductive result (A : Type) : Type :=
  | Ok (a : A)
  | Fault (f : fault).
Arguments Ok {A} a.
Arguments Fault {A} f.

#[global] Instance result_ret : MRet result := fun _ a => Ok a.
#[global] Instance result_bind : MBind result := fun _ _ k r =>
  match r with
  | Ok a => k a
  | Fault f => Fault f
  end.

Definition deref {A} (p : option A) : result A :=
  match p with
  | Some a => Ok a
  | None => Fault NullDeref
  end.

(** Calling a [std::function] ([None] is an empty one, which throws). *)
Definition call (f : option Z) : result Z :=
  match f with
  | Some id => Ok id
  | None => Fault Thrown
  end.

(** ** Machine integers *)

Definition wrap32 (z : Z) : Z := z mod 2 ^ 32.

(** [a * b] on two [uint32_t] operands. *)
Definition mul32 (a b : Z) : Z := wrap32 (a * b).

(** A [uint32_t] converted to [int] (an argument passed to an [int]
    parameter, or [static_cast<int>]): values from 2^31 on wrap to the
    negative numbers. *)
Definition int32 (z : Z) : Z :=
  let w := wrap32 z in
  if w <? 2 ^ 31 then w else w - 2 ^ 32.

(** A signed 64-bit value converted to [uint64_t]. *)
Definition wrap64 (z : Z) : Z := z mod 2 ^ 64.

(** ** common.hpp *)

Module Common.

(** [enum class StreamType { JPEG, RGB, RAW }]: JPEG is the
    value-initialised member. *)
Inductive StreamType : Type := JPEG | RGB | RAW.

#[global] Instance StreamType_eq_dec : EqDecision StreamType.
Proof. solve_decision. Defined.

Definition StreamType_default : StreamType := JPEG.

Record StreamConfig : Type := {
  type : StreamType;
  width : Z;     (* uint32_t, 0 means use camera default *)
  height : Z     (* uint32_t, 0 means use camera default *)
}.

Definition float : Type := spec_float.

(** [std::array<float, 2>] *)
Record array2 : Type := { at0 : float; at1 : float }.

(** [std::array<float, 2>::size()] *)
Definition array2_size (a : array2) : Z := 2.

Record Controls : Type := {
  exposureMode : option Z;
  exposureTime : option Z;
  analogueGain : option float;
  afMode : option Z;
  afTrigger : option Z;
  lensPosition : option float;
  awbMode : option Z;
  colourGains : option array2;
  brightness : option float;
  contrast : option float;
  saturation : option float;
  sharpness : option float;
  targetFps : option Z;
  jpegQuality : option Z
}.

(** A default-constructed [Controls]: every optional empty. *)
Definition Controls_empty : Controls :=
  {| exposureMode := None; exposureTime := None; analogueGain := None;
     afMode := None; afTrigger := None; lensPosition := None;
     awbMode := None; colourGains := None; brightness := None;
     contrast := None; saturation := None; sharpness := None;
     targetFps := None; jpegQuality := None |}.

(** [assignIfSet(target, source)]: [if (source) target = source;] *)
Definition assignIfSet {T} (target source : option T) : option T :=
  match source with
  | Some _ => source
  | None => target
  end.

(** Field assignments [c.f = v]. *)
Definition set_exposureMode (v : option Z) (c : Controls) : Controls :=
  {| exposureMode := v; exposureTime := exposureTime c;
     analogueGain := analogueGain c; afMode := afMode c;
     afTrigger := afTrigger c; lensPosition := lensPosition c;
     awbMode := awbMode c; colourGains := colourGains c;
     brightness := brightness c; contrast := contrast c;
     saturation := saturation c; sharpness := sharpness c;
     targetFps := targetFps c; jpegQuality := jpegQuality c |}.
Definition set_exposureTime (v : option Z) (c : Controls) : Controls :=
  {| exposureMode := exposureMode c; exposureTime := v;
     analogueGain := analogueGain c; afMode := afMode c;
     afTrigger := afTrigger c; lensPosition := lensPosition c;
     awbMode := awbMode c; colourGains := colourGains c;
     brightness := brightness c; contrast := contrast c;
     saturation := saturation c; sharpness := sharpness c;
     targetFps := targetFps c; jpegQuality := jpegQuality c |}.
Definition set_analogueGain (v : option float) (c : Controls) : Controls :=
  {| exposureMode := exposureMode c; exposureTime := exposureTime c;
     analogueGain := v; afMode := afMode c;
     afTrigger := afTrigger c; lensPosition := lensPosition c;
     awbMode := awbMode c; colourGains := colourGains c;
     brightness := brightness c; contrast := contrast c;
     saturation := saturation c; sharpness := sharpness c;
     targetFps := targetFps c; jpegQuality := jpegQuality c |}.
Definition set_afMode (v : option Z) (c : Controls) : Controls :=
  {| exposureMode := exposureMode c; exposureTime := exposureTime c;
     analogueGain := analogueGain c; afMode := v;
     afTrigger := afTrigger c; lensPosition := lensPosition c;
     awbMode := awbMode c; colourGains := colourGains c;
     brightness := brightness c; contrast := contrast c;
     saturation := saturation c; sharpness := sharpness c;
     targetFps := targetFps c; jpegQuality := jpegQuality c |}.
Definition set_afTrigger (v : option Z) (c : Controls) : Controls :=
  {| exposureMode := exposureMode c; exposureTime := exposureTime c;
     analogueGain := analogueGain c; afMode := afMode c;
     afTrigger := v; lensPosition := lensPosition c;
     awbMode := awbMode c; colourGains := colourGains c;
     brightness := brightness c; contrast := contrast c;
     saturation := saturation c; sharpness := sharpness c;
     targetFps := targetFps c; jpegQuality := jpegQuality c |}.
Definition set_lensPosition (v : option float) (c : Controls) : Controls :=
  {| exposureMode := exposureMode c; exposureTime := exposureTime c;
     analogueGain := analogueGain c; afMode := afMode c;
     afTrigger := afTrigger c; lensPosition := v;
     awbMode := awbMode c; colourGains := colourGains c;
     brightness := brightness c; contrast := contrast c;
     saturation := saturation c; sharpness := sharpness c;
     targetFps := targetFps c; jpegQuality := jpegQuality c |}.
Definition set_awbMode (v : option Z) (c : Controls) : Controls :=
  {| exposureMode := exposureMode c; exposureTime := exposureTime c;
     analogueGain := analogueGain c; afMode := afMode c;
     afTrigger := afTrigger c; lensPosition := lensPosition c;
     awbMode := v; colourGains := colourGains c;
     brightness := brightness c; contrast := contrast c;
     saturation := saturation c; sharpness := sharpness c;
     targetFps := targetFps c; jpegQuality := jpegQuality c |}.
Definition set_colourGains (v : option array2) (c : Controls) : Controls :=
  {| exposureMode := exposureMode c; exposureTime := exposureTime c;
     analogueGain := analogueGain c; afMode := afMode c;
     afTrigger := afTrigger c; lensPosition := lensPosition c;
     awbMode := awbMode c; colourGains := v;
     brightness := brightness c; contrast := contrast c;
     saturation := saturation c; sharpness := sharpness c;
     targetFps := targetFps c; jpegQuality := jpegQuality c |}.
Definition set_brightness (v : option float) (c : Controls) : Controls :=
  {| exposureMode := exposureMode c; exposureTime := exposureTime c;
     analogueGain := analogueGain c; afMode := afMode c;
     afTrigger := afTrigger c; lensPosition := lensPosition c;
     awbMode := awbMode c; colourGains := colourGains c;
     brightness := v; contrast := contrast c;
     saturation := saturation c; sharpness := sharpness c;
     targetFps := targetFps c; jpegQuality := jpegQuality c |}.
Definition set_contrast (v : option float) (c : Controls) : Controls :=
  {| exposureMode := exposureMode c; exposureTime := exposureTime c;
     analogueGain := analogueGain c; afMode := afMode c;
     afTrigger := afTrigger c; lensPosition := lensPosition c;
     awbMode := awbMode c; colourGains := colourGains c;
     brightness := brightness c; contrast := v;
     saturation := saturation c; sharpness := sharpness c;
     targetFps := targetFps c; jpegQuality := jpegQuality c |}.
Definition set_saturation (v : option float) (c : Controls) : Controls :=
  {| exposureMode := exposureMode c; exposureTime := exposureTime c;
     analogueGain := analogueGain c; afMode := afMode c;
     afTrigger := afTrigger c; lensPosition := lensPosition c;
     awbMode := awbMode c; colourGains := colourGains c;
     brightness := brightness c; contrast := contrast c;
     saturation := v; sharpness := sharpness c;
     targetFps := targetFps c; jpegQuality := jpegQuality c |}.
Definition set_sharpness (v : option float) (c : Controls) : Controls :=
  {| exposureMode := exposureMode c; exposureTime := exposureTime c;
     analogueGain := analogueGain c; afMode := afMode c;
     afTrigger := afTrigger c; lensPosition := lensPosition c;
     awbMode := awbMode c; colourGains := colourGains c;
     brightness := brightness c; contrast := contrast c;
     saturation := saturation c; sharpness := v;
     targetFps := targetFps c; jpegQuality := jpegQuality c |}.
Definition set_targetFps (v : option Z) (c : Controls) : Controls :=
  {| exposureMode := exposureMode c; exposureTime := exposureTime c;
     analogueGain := analogueGain c; afMode := afMode c;
     afTrigger := afTrigger c; lensPosition := lensPosition c;
     awbMode := awbMode c; colourGains := colourGains c;
     brightness := brightness c; contrast := contrast c;
     saturation := saturation c; sharpness := sharpness c;
     targetFps := v; jpegQuality := jpegQuality c |}.
Definition set_jpegQuality (v : option Z) (c : Controls) : Controls :=
  {| exposureMode := exposureMode c; exposureTime := exposureTime c;
     analogueGain := analogueGain c; afMode := afMode c;
     afTrigger := afTrigger c; lensPosition := lensPosition c;
     awbMode := awbMode c; colourGains := colourGains c;
     brightness := brightness c; contrast := contrast c;
     saturation := saturation c; sharpness := sharpness c;
     targetFps := targetFps c; jpegQuality := v |}.

(** [struct Frame]: [data] is a view (pointer and length), [owner] the
    shared pointer that keeps a heap block alive ([None] is [nullptr]). *)
Inductive pointer : Type :=
  | MappedAddr (addr : Z)      (* an address inside an mmap'ed region *)
  | HeapBlock (block : nat).   (* the bytes of a make_shared vector *)

Record Frame : Type := {
  data_ptr : pointer;
  data_len : Z;
  timestamp : Z;   (* uint64_t *)
  sequence : Z;    (* uint32_t *)
  owner : option nat
}.

End Common.
Export Common.

(** ** The device control list ([lc::ControlList])

    The list records the [set] calls made on a request, in order; a lookup
    returns the value of the last [set] for the identifier. *)

Inductive ControlId : Type :=
  | AeExposureMode | ExposureTime | AnalogueGain | AfMode | AfTrigger
  | LensPosition | AwbMode | ColourGains | Brightness | Contrast
  | Saturation | Sharpness | FrameDurationLimits.

#[global] Instance ControlId_eq_dec : EqDecision ControlId.
Proof. solve_decision. Defined.

Inductive ControlValue : Type :=
  | VInt32 (v : Z)
  | VFloat (v : float)
  | VFloatSpan2 (a b : float)       (* Span<const float, 2> *)
  | VInt64Span2 (a b : Z).          (* Span<const int64_t, 2> *)

Abbreviation ControlList := (list (ControlId * ControlValue)).

Definition cl_set (id : ControlId) (v : ControlValue) (cl : ControlList)
  : ControlList := cl ++ [(id, v)].

(** The values written for [id], oldest first. *)
Definition cl_writes (id : ControlId) (cl : ControlList) : list ControlValue :=
  map snd (filter (fun e => fst e = id) cl).

Definition cl_get (id : ControlId) (cl : ControlList) : option ControlValue :=
  last (cl_writes id cl).

(** ** control_manager.cpp *)

Module ControlManager.

(** The two control sets guarded by [mutex_]. *)
Record t : Type := {
  currentControls_ : Controls;   (* last applied values *)
  pendingControls_ : Controls    (* merged pending changes *)
}.

(** A freshly constructed manager. *)
Definition init : t :=
  {| currentControls_ := Controls_empty;
     pendingControls_ := Controls_empty |}.

(** The fourteen [assignIfSet(pendingControls_.f, controls.f)] lines. *)
Definition mergePending (pending controls : Controls) : Controls :=
  {| exposureMode := assignIfSet (exposureMode pending) (exposureMode controls);
     exposureTime := assignIfSet (exposureTime pending) (exposureTime controls);
     analogueGain := assignIfSet (analogueGain pending) (analogueGain controls);
     afMode := assignIfSet (afMode pending) (afMode controls);
     afTrigger := assignIfSet (afTrigger pending) (afTrigger controls);
     lensPosition := assignIfSet (lensPosition pending) (lensPosition controls);
     awbMode := assignIfSet (awbMode pending) (awbMode controls);
     colourGains := assignIfSet (colourGains pending) (colourGains controls);
     brightness := assignIfSet (brightness pending) (brightness controls);
     contrast := assignIfSet (contrast pending) (contrast controls);
     saturation := assignIfSet (saturation pending) (saturation controls);
     sharpness := assignIfSet (sharpness pending) (sharpness controls);
     targetFps := assignIfSet (targetFps pending) (targetFps controls);
     jpegQuality := assignIfSet (jpegQuality pending) (jpegQuality controls) |}.

(** What the body of [applyControls] works on while it holds the lock:
    the request's control list and the two control sets. *)
Record work : Type := {
  req : ControlList;
  cur : Controls;
  pend : Controls
}.

(** The common shape
    [if (pendingControls_.f) { reqControls.set(id, *pendingControls_.f);
                               currentControls_.f = pendingControls_.f; }] *)
Definition applyField {T} (get : Controls -> option T) (id : ControlId)
    (inj : T -> ControlValue) (assign : option T -> Controls -> Controls)
    (w : work) : work :=
  match get (pend w) with
  | Some v => {| req := cl_set id (inj v) (req w);
                 cur := assign (get (pend w)) (cur w);
                 pend := pend w |}
  | None => w
  end.

(** Lines 51-54: written, then reset; never promoted to current. *)
Definition applyAfTrigger (w : work) : work :=
  match afTrigger (pend w) with
  | Some v => {| req := cl_set AfTrigger (VInt32 v) (req w);
                 cur := cur w;
                 pend := set_afTrigger None (pend w) |}
  | None => w
  end.

(** Lines 66-70. *)
Definition applyColourGains (w : work) : work :=
  match colourGains (pend w) with
  | Some gains =>
      if 2 <=? array2_size gains then
        {| req := cl_set ColourGains (VFloatSpan2 (at0 gains) (at1 gains)) (req w);
           cur := set_colourGains (colourGains (pend w)) (cur w);
           pend := pend w |}
      else w
  | None => w
  end.

(** [1000000 / fps] on [int]: truncating division, undefined for 0. *)
Definition frameDuration (fps : Z) : result Z :=
  if fps =? 0 then Fault DivByZero else Ok (Z.quot 1000000 fps).

(** Lines 92-99. *)
Definition applyTargetFps (w : work) : result work :=
  match targetFps (pend w) with
  | Some fps =>
      duration ← frameDuration fps;
      mret {| req := cl_set FrameDurationLimits
                       (VInt64Span2 duration duration) (req w);
              cur := set_targetFps (targetFps (pend w)) (cur w);
              pend := pend w |}
  | None => mret w
  end.

(** Lines 101-104: current only, no [reqControls.set]. *)
Definition applyJpegQuality (w : work) : work :=
  match jpegQuality (pend w) with
  | Some _ => {| req := req w;
                 cur := set_jpegQuality (jpegQuality (pend w)) (cur w);
                 pend := pend w |}
  | None => w
  end.

(** The straight-line part before the frame-rate conversion. *)
Definition applyDeviceFields (w : work) : work :=
  let w := applyField exposureMode AeExposureMode VInt32 set_exposureMode w in
  let w := applyField exposureTime ExposureTime VInt32 set_exposureTime w in
  let w := applyField analogueGain AnalogueGain VFloat set_analogueGain w in
  let w := applyField afMode AfMode VInt32 set_afMode w in
  let w := applyAfTrigger w in
  let w := applyField lensPosition LensPosition VFloat set_lensPosition w in
  let w := applyField awbMode AwbMode VInt32 set_awbMode w in
  let w := applyColourGains w in
  let w := applyField brightness Brightness VFloat set_brightness w in
  let w := applyField contrast Contrast VFloat set_contrast w in
  let w := applyField saturation Saturation VFloat set_saturation w in
  let w := applyField sharpness Sharpness VFloat set_sharpness w in
  w.

(** [ControlManager::applyControls(controls, request)]. *)
Definition applyControls (controls : Controls) (request : ControlList)
    (st : t) : result (t * ControlList) :=
  let w := {| req := request;
              cur := currentControls_ st;
              pend := mergePending (pendingControls_ st) controls |} in
  let w := applyDeviceFields w in
  w ← applyTargetFps w;
  let w := applyJpegQuality w in
  mret ({| currentControls_ := cur w; pendingControls_ := pend w |}, req w).

(** [ControlManager::getCurrentControls()]. *)
Definition getCurrentControls (st : t) : Controls := currentControls_ st.

End ControlManager.

(** ** The camera/hardware abstraction layer (libcamera)

    What the core asks of the device is taken as a record of answers, one
    per call the sources make; every statement below holds for all devices. *)

Inductive StreamRole : Type := Raw | StillCapture.

Inductive PixelFormat : Type :=
  | BGR888 | YUV420 | SBGGR10 | DeviceFormat (fourcc : Z).

(** [lc::StreamConfiguration]: [stream()] is a [Stream*] ([0] is [nullptr]). *)
Record StreamConfiguration : Type := {
  sc_stream : Z;
  sc_width : Z;          (* size.width, unsigned int *)
  sc_height : Z;         (* size.height *)
  sc_bufferCount : Z;
  sc_pixelFormat : PixelFormat
}.

Inductive ConfigStatus : Type := Valid | Adjusted | Invalid.

(** [lc::FrameBuffer::Plane] *)
Record Plane : Type := { plane_fd : Z; plane_offset : Z; plane_length : Z }.

Inductive RequestStatus : Type :=
  | RequestPending | RequestComplete | RequestCancelled.

#[global] Instance RequestStatus_eq_dec : EqDecision RequestStatus.
Proof. solve_decision. Defined.

(** [lc::Request]: [rq_buffers] is the [std::map<const Stream*, FrameBuffer*>]
    filled by [addBuffer]; [rq_timestamp] is the [SensorTimestamp] metadata. *)
Record Request : Type := {
  rq_cookie : Z;
  rq_status : RequestStatus;
  rq_sequence : Z;
  rq_timestamp : option Z;
  rq_buffers : gmap Z Z;
  rq_controls : ControlList
}.

Record Device : Type := {
  dev_generateConfiguration : list StreamRole -> option (list StreamConfiguration);
  dev_validate : list StreamConfiguration -> ConfigStatus * list StreamConfiguration;
  dev_configure : list StreamConfiguration -> Z * list StreamConfiguration;
  dev_allocate : Z -> Z;                     (* FrameBufferAllocator::allocate *)
  dev_buffers : Z -> list Z;                 (* FrameBufferAllocator::buffers *)
  dev_planes : Z -> list Plane;              (* FrameBuffer::planes *)
  dev_mmap : Z -> Z -> Z -> option Z;        (* length, fd, offset; None is MAP_FAILED *)
  dev_createRequest : nat -> option Z;       (* Camera::createRequest, by call number *)
  dev_start : Z;                             (* Camera::start *)
  dev_managerStart : Z;                      (* lc::CameraManager::start *)
  dev_cameras : nat;                         (* number of enumerated cameras *)
  dev_acquire : Z                            (* Camera::acquire *)
}.

(** [Request::addBuffer]: a stream that already has a buffer keeps it. *)
Definition addBuffer (stream buffer : Z) (r : Request) : Request :=
  match rq_buffers r !! stream with
  | Some _ => r
  | None =>
      {| rq_cookie := rq_cookie r; rq_status := rq_status r;
         rq_sequence := rq_sequence r; rq_timestamp := rq_timestamp r;
         rq_buffers := <[stream := buffer]> (rq_buffers r);
         rq_controls := rq_controls r |}
  end.

Definition newRequest (cookie : Z) : Request :=
  {| rq_cookie := cookie; rq_status := RequestPending; rq_sequence := 0;
     rq_timestamp := None; rq_buffers := ∅; rq_controls := [] |}.

Definition set_rq_controls (cl : ControlList) (r : Request) : Request :=
  {| rq_cookie := rq_cookie r; rq_status := rq_status r;
     rq_sequence := rq_sequence r; rq_timestamp := rq_timestamp r;
     rq_buffers := rq_buffers r; rq_controls := cl |}.

(** ** stream_manager.cpp *)

Module StreamManager.

(** [struct MappedBuffer { void* data; size_t size; }] *)
Record MappedBuffer : Type := { data : Z; size : Z }.

Record t : Type := {
  config_ : option (list StreamConfiguration);  (* unique_ptr, None is null *)
  streamTypes_ : gmap Z StreamType;
  streamBuffers_ : gmap Z (list Z);
  mappedBuffers_ : gmap Z MappedBuffer;
  requests_ : list Request;
  jpegWidth_ : Z;
  jpegHeight_ : Z;
  allocator_ : gset Z   (* the streams [allocator_] holds buffers for *)
}.

(** The constructor: no configuration, empty maps, nothing allocated. *)
Definition init : t :=
  {| config_ := None; streamTypes_ := ∅; streamBuffers_ := ∅;
     mappedBuffers_ := ∅; requests_ := []; jpegWidth_ := 0; jpegHeight_ := 0;
     allocator_ := ∅ |}.

Definition set_config (v : option (list StreamConfiguration)) (st : t) : t :=
  {| config_ := v; streamTypes_ := streamTypes_ st;
     streamBuffers_ := streamBuffers_ st; mappedBuffers_ := mappedBuffers_ st;
     requests_ := requests_ st; jpegWidth_ := jpegWidth_ st;
     jpegHeight_ := jpegHeight_ st; allocator_ := allocator_ st |}.
Definition set_streamTypes (v : gmap Z StreamType) (st : t) : t :=
  {| config_ := config_ st; streamTypes_ := v;
     streamBuffers_ := streamBuffers_ st; mappedBuffers_ := mappedBuffers_ st;
     requests_ := requests_ st; jpegWidth_ := jpegWidth_ st;
     jpegHeight_ := jpegHeight_ st; allocator_ := allocator_ st |}.
Definition set_streamBuffers (v : gmap Z (list Z)) (st : t) : t :=
  {| config_ := config_ st; streamTypes_ := streamTypes_ st;
     streamBuffers_ := v; mappedBuffers_ := mappedBuffers_ st;
     requests_ := requests_ st; jpegWidth_ := jpegWidth_ st;
     jpegHeight_ := jpegHeight_ st; allocator_ := allocator_ st |}.
Definition set_mappedBuffers (v : gmap Z MappedBuffer) (st : t) : t :=
  {| config_ := config_ st; streamTypes_ := streamTypes_ st;
     streamBuffers_ := streamBuffers_ st; mappedBuffers_ := v;
     requests_ := requests_ st; jpegWidth_ := jpegWidth_ st;
     jpegHeight_ := jpegHeight_ st; allocator_ := allocator_ st |}.
Definition set_requests (v : list Request) (st : t) : t :=
  {| config_ := config_ st; streamTypes_ := streamTypes_ st;
     streamBuffers_ := streamBuffers_ st; mappedBuffers_ := mappedBuffers_ st;
     requests_ := v; jpegWidth_ := jpegWidth_ st;
     jpegHeight_ := jpegHeight_ st; allocator_ := allocator_ st |}.
Definition set_jpegDims (w h : Z) (st : t) : t :=
  {| config_ := config_ st; streamTypes_ := streamTypes_ st;
     streamBuffers_ := streamBuffers_ st; mappedBuffers_ := mappedBuffers_ st;
     requests_ := requests_ st; jpegWidth_ := w; jpegHeight_ := h;
     allocator_ := allocator_ st |}.

(** Lines 17-48: the role list and the matching application configs. *)
Definition rawEntry (rawStream : option StreamConfig) : StreamConfig :=
  match rawStream with
  | Some cfg => cfg
  | None => {| type := RAW; width := 2304; height := 1296 |}
  end.

Fixpoint userStreams (configs : list StreamConfig)
  : list StreamRole * list StreamConfig :=
  match configs with
  | [] => ([], [])
  | cfg :: rest =>
      let '(roles, all) := userStreams rest in
      match type cfg with
      | JPEG => (StillCapture :: roles, cfg :: all)
      | RGB => (StillCapture :: roles, cfg :: all)
      | RAW => (roles, all)            (* skip duplicate RAW *)
      end
  end.

Definition buildRoles (rawStream : option StreamConfig)
    (configs : list StreamConfig) : list StreamRole * list StreamConfig :=
  let '(roles, all) := userStreams configs in
  (Raw :: roles, rawEntry rawStream :: all).

(** The body of the loop at lines 59-84 for one index. *)
Definition configureStream (appCfg : StreamConfig)
    (streamCfg : StreamConfiguration) : StreamConfiguration :=
  let w := if 0 <? width appCfg then width appCfg else sc_width streamCfg in
  let h := if 0 <? height appCfg then height appCfg else sc_height streamCfg in
  {| sc_stream := sc_stream streamCfg; sc_width := w; sc_height := h;
     sc_bufferCount := 6;
     sc_pixelFormat := match type appCfg with
                       | RGB => BGR888
                       | JPEG => YUV420
                       | RAW => SBGGR10
                       end |}.

(** Lines 59-84; [config_->at(i)] past the end is undefined. *)
Fixpoint configureStreams (allConfigs : list StreamConfig) (i : nat)
    (cfg : list StreamConfiguration) (st : t)
  : result (list StreamConfiguration * t) :=
  match allConfigs with
  | [] => mret (cfg, st)
  | appCfg :: rest =>
      match cfg !! i with
      | None => Fault OutOfBounds
      | Some streamCfg =>
          let streamCfg' := configureStream appCfg streamCfg in
          let st' := match type appCfg with
                     | JPEG => set_jpegDims (sc_width streamCfg')
                                            (sc_height streamCfg') st
                     | _ => st
                     end in
          configureStreams rest (S i) (<[i := streamCfg']> cfg) st'
      end
  end.

(** Lines 97-99. *)
Fixpoint recordTypes (allConfigs : list StreamConfig) (i : nat)
    (cfg : list StreamConfiguration) (types : gmap Z StreamType)
  : result (gmap Z StreamType) :=
  match allConfigs with
  | [] => mret types
  | appCfg :: rest =>
      match cfg !! i with
      | None => Fault OutOfBounds
      | Some streamCfg =>
          recordTypes rest (S i) cfg (<[sc_stream streamCfg := type appCfg]> types)
      end
  end.

(** [StreamManager::configure(rawStream, configs)]. *)
Definition configure (dev : Device) (rawStream : option StreamConfig)
    (configs : list StreamConfig) (st : t) : result (bool * t) :=
  let '(roles, allConfigs) := buildRoles rawStream configs in
  match dev_generateConfiguration dev roles with
  | None => mret (false, set_config None st)
  | Some cfg =>
      let st := set_streamTypes ∅ (set_config (Some cfg) st) in
      '(cfg, st) ← configureStreams allConfigs 0 cfg st;
      let '(status, cfg) := dev_validate dev cfg in
      let st := set_config (Some cfg) st in
      match status with
      | Invalid => mret (false, st)
      | _ =>
          let '(rc, cfg) := dev_configure dev cfg in
          let st := set_config (Some cfg) st in
          if rc <? 0 then mret (false, st)
          else
            types ← recordTypes allConfigs 0 cfg (streamTypes_ st);
            mret (true, set_streamTypes types st)
      end
  end.
Definition set_allocator (v : gset Z) (st : t) : t :=
  {| config_ := config_ st; streamTypes_ := streamTypes_ st;
     streamBuffers_ := streamBuffers_ st; mappedBuffers_ := mappedBuffers_ st;
     requests_ := requests_ st; jpegWidth_ := jpegWidth_ st;
     jpegHeight_ := jpegHeight_ st; allocator_ := v |}.

(** [streamTypes_[stream]]: [std::map::operator[]] inserts the
    value-initialised type when the key is missing. *)
Definition streamTypes_index (stream : Z) (st : t) : StreamType * t :=
  match streamTypes_ st !! stream with
  | Some ty => (ty, st)
  | None => (StreamType_default,
             set_streamTypes (<[stream := StreamType_default]> (streamTypes_ st)) st)
  end.

(** [size_t totalSize = width * height * 3 / 2] and [width * height * 3],
    both evaluated on [uint32_t]. *)
Definition yuv420Size (width height : Z) : Z :=
  mul32 (mul32 width height) 3 / 2.
Definition bgr888Size (width height : Z) : Z :=
  mul32 (mul32 width height) 3.

(** [StreamManager::mapBuffer(buffer, type, width, height)]. *)
Definition mapBuffer (dev : Device) (buffer : Z) (ty : StreamType)
    (width height : Z) (st : t) : bool * t :=
  match ty with
  | RAW => (true, st)                  (* skip mapping RAW buffers *)
  | _ =>
      match dev_planes dev buffer with
      | [] => (false, st)
      | plane0 :: _ =>
          let totalSize := match ty with
                           | JPEG => yuv420Size width height
                           | _ => bgr888Size width height
                           end in
          match dev_mmap dev totalSize (plane_fd plane0) (plane_offset plane0) with
          | None => (false, st)
          | Some ptr =>
              (true, set_mappedBuffers
                       (<[buffer := {| data := ptr; size := totalSize |}]>
                          (mappedBuffers_ st)) st)
          end
      end
  end.

(** Lines 118-127: [None] is the early [return false]. *)
Fixpoint mapStreamBuffers (dev : Device) (stream : Z) (width height : Z)
    (buffers : list Z) (bufferPtrs : list Z) (st : t)
  : option (list Z) * t :=
  match buffers with
  | [] => (Some bufferPtrs, st)
  | fb :: rest =>
      let bufferPtrs := bufferPtrs ++ [fb] in
      let '(ty, st) := streamTypes_index stream st in
      let '(ok, st) := mapBuffer dev fb ty width height st in
      if ok then mapStreamBuffers dev stream width height rest bufferPtrs st
      else (None, st)
  end.

(** Lines 106-130: [false] is the early [return false]. *)
Fixpoint allocateStreams (dev : Device) (cfg : list StreamConfiguration)
    (st : t) : bool * t :=
  match cfg with
  | [] => (true, st)
  | streamCfg :: rest =>
      let stream := sc_stream streamCfg in
      if dev_allocate dev stream <? 0 then (false, st)
      else
        let st := set_allocator ({[stream]} ∪ allocator_ st) st in
        match mapStreamBuffers dev stream (sc_width streamCfg)
                (sc_height streamCfg) (dev_buffers dev stream) [] st with
        | (None, st) => (false, st)
        | (Some bufferPtrs, st) =>
            allocateStreams dev rest
              (set_streamBuffers (<[stream := bufferPtrs]> (streamBuffers_ st)) st)
        end
  end.

(** [streamBuffers_[stream]], inserting an empty vector when missing. *)
Definition streamBuffers_index (stream : Z) (st : t) : list Z * t :=
  match streamBuffers_ st !! stream with
  | Some bufs => (bufs, st)
  | None => ([], set_streamBuffers (<[stream := []]> (streamBuffers_ st)) st)
  end.

(** Lines 142-149 for request number [i]. *)
Fixpoint attachBuffers (cfg : list StreamConfiguration) (i : nat)
    (request : Request) (st : t) : Request * t :=
  match cfg with
  | [] => (request, st)
  | streamCfg :: rest =>
      let stream := sc_stream streamCfg in
      let '(buffers, st) := streamBuffers_index stream st in
      let request := match buffers !! i with
                     | Some fb => addBuffer stream fb request
                     | None => request
                     end in
      attachBuffers rest i request st
  end.

(** Lines 133-152: requests [i], [i+1], ... while [n] remain. *)
Fixpoint createRequests (dev : Device) (cfg : list StreamConfiguration)
    (n i : nat) (st : t) : bool * t :=
  match n with
  | O => (true, st)
  | S n' =>
      match dev_createRequest dev i with
      | None => (false, st)
      | Some cookie =>
          let '(request, st) := attachBuffers cfg i (newRequest cookie) st in
          createRequests dev cfg n' (S i)
            (set_requests (requests_ st ++ [request]) st)
      end
  end.

Definition numRequests : nat := 6.

(** [StreamManager::allocateBuffers()]; [*config_] on a null [config_]
    is undefined. *)
Definition allocateBuffers (dev : Device) (st : t) : result (bool * t) :=
  cfg ← deref (config_ st);
  let '(ok, st) := allocateStreams dev cfg st in
  if ok then mret (createRequests dev cfg numRequests 0 st)
  else mret (false, st).

(** [StreamManager::freeBuffers()]: every recorded mapping is unmapped,
    and the allocator frees the streams recorded in [streamBuffers_]. *)
Definition freeBuffers (st : t) : t :=
  set_requests []
    (set_streamBuffers ∅
       (set_allocator (allocator_ st ∖ dom (streamBuffers_ st))
          (set_mappedBuffers ∅ st))).

(** [StreamManager::getStreamType(stream)]. *)
Definition getStreamType (st : t) (stream : Z) : StreamType :=
  match streamTypes_ st !! stream with
  | Some ty => ty
  | None => RAW
  end.

(** [StreamManager::getBuffer(stream, index)]; [0] is [nullptr]. *)
Definition getBuffer (st : t) (stream : Z) (index : nat) : Z :=
  match streamBuffers_ st !! stream with
  | Some bufs => match bufs !! index with Some fb => fb | None => 0 end
  | None => 0
  end.

(** [StreamManager::getMappedData(buffer)]; [0] is [nullptr]. *)
Definition getMappedData (st : t) (buffer : Z) : Z :=
  match mappedBuffers_ st !! buffer with
  | Some m => data m
  | None => 0
  end.

(** [StreamManager::getMappedSize(buffer)]. *)
Definition getMappedSize (st : t) (buffer : Z) : Z :=
  match mappedBuffers_ st !! buffer with
  | Some m => size m
  | None => 0
  end.

Definition getJpegWidth (st : t) : Z := jpegWidth_ st.
Definition getJpegHeight (st : t) : Z := jpegHeight_ st.

End StreamManager.

(** ** The block image encoder (TurboJPEG) *)

Record Codec : Type := {
  tj_initCompress : bool;                    (* false: tjInitCompress gave NULL *)
  tj_bufSizeYUV2 : Z -> Z -> Z;              (* int width, int height, for
                                                TJSAMP_420 *)
  (** [tjCompressFromYUVPlanes]: the source bytes, the three plane offsets,
      width, the three strides, height and quality; [Some out] is result 0
      with [jpegSize = length out] bytes stored at [jpegBuf]. *)
  tj_compressFromYUVPlanes :
    list Byte.byte -> Z * Z * Z -> Z -> Z * Z * Z -> Z -> Z -> option (list Byte.byte)
}.

(** Heap blocks created by [std::make_shared<std::vector<uint8_t>>]: a block
    is named by its position and never moves. *)
Abbreviation Heap := (list (list Byte.byte)).

Definition make_shared (bytes : list Byte.byte) (heap : Heap) : nat * Heap :=
  (length heap, heap ++ [bytes]).

(** ** jpeg_encoder.cpp *)

Module JpegEncoder.

Record Task : Type := {
  task_data : nat;          (* dataCopy->data() *)
  task_width : Z;
  task_height : Z;
  task_quality : Z;
  task_timestamp : Z;
  task_sequence : Z;
  task_callback : option Z; (* the FrameCallback handed to encode *)
  task_dataOwner : nat      (* dataCopy *)
}.

Record t : Type := {
  queue_ : list Task;       (* front of the queue first *)
  running_ : bool;
  buffer_ : list Byte.byte; (* reusable output buffer *)
  maxQueueSize_ : Z         (* size_t *)
}.

(** The constructor ([reserve] leaves [buffer_] empty); it throws when
    the compressor handle cannot be created. *)
Definition create (codec : Codec) (maxQueueSize : Z) : result t :=
  if tj_initCompress codec then
    mret {| queue_ := []; running_ := false; buffer_ := [];
            maxQueueSize_ := maxQueueSize |}
  else Fault Thrown.

Definition set_queue (q : list Task) (st : t) : t :=
  {| queue_ := q; running_ := running_ st; buffer_ := buffer_ st;
     maxQueueSize_ := maxQueueSize_ st |}.
Definition set_running (b : bool) (st : t) : t :=
  {| queue_ := queue_ st; running_ := b; buffer_ := buffer_ st;
     maxQueueSize_ := maxQueueSize_ st |}.
Definition set_buffer (b : list Byte.byte) (st : t) : t :=
  {| queue_ := queue_ st; running_ := running_ st; buffer_ := b;
     maxQueueSize_ := maxQueueSize_ st |}.

(** [JpegEncoder::start()] and [JpegEncoder::stop()].  Assigning the new
    thread to [worker_] (line 24) ends the program when [worker_] is
    still joinable, that is on a second [start] without a [stop] in
    between; [start] gives the state after a call that returns. *)
Definition start (st : t) : t := set_running true st.
Definition stop (st : t) : t :=
  if running_ st then set_running false st else st.

(** [size_t dataSize = width * height * 3 / 2] on [uint32_t] operands. *)
Definition dataSize (width height : Z) : Z :=
  mul32 (mul32 width height) 3 / 2.

(** Lines 40-42: the copy made before the lock is taken.  [yuvData] holds
    the bytes readable from the source pointer. *)
Definition copyFrame (yuvData : list Byte.byte) (width height : Z)
    (heap : Heap) : result (nat * Heap) :=
  let n := dataSize width height in
  if Z.of_nat (length yuvData) <? n then Fault OutOfBounds
  else mret (make_shared (take (Z.to_nat n) yuvData) heap).

(** The predicate of the producer's [cv_.wait]. *)
Definition canEnter (st : t) : bool :=
  (Z.of_nat (length (queue_ st)) <? maxQueueSize_ st) || negb (running_ st).

Inductive Entered : Type :=
  | Blocked        (* the wait predicate is false: the caller sleeps *)
  | NotRunning     (* woken by shutdown: returns without queueing *)
  | Queued.        (* the task was pushed *)

(** Lines 44-70: the critical section of [encode] for a prepared task. *)
Definition enqueue (task : Task) (st : t) : Entered * t :=
  if canEnter st then
    if negb (running_ st) then (NotRunning, st)
    else (Queued, set_queue (queue_ st ++ [task]) st)
  else (Blocked, st).

Definition mkTask (block : nat) (width height quality timestamp sequence : Z)
    (callback : option Z) : Task :=
  {| task_data := block; task_width := width; task_height := height;
     task_quality := quality; task_timestamp := timestamp;
     task_sequence := sequence; task_callback := callback;
     task_dataOwner := block |}.

(** [JpegEncoder::encode(...)], up to the point where it returns or
    goes to sleep on the condition variable. *)
Definition encode (yuvData : list Byte.byte) (width height quality
    timestamp sequence : Z) (callback : option Z) (heap : Heap) (st : t)
  : result (Entered * Task * Heap * t) :=
  '(block, heap) ← copyFrame yuvData width height heap;
  let task := mkTask block width height quality timestamp sequence callback in
  let '(e, st) := enqueue task st in
  mret (e, task, heap, st).

(** Lines 78-86: the worker's critical section.  [None]: the worker
    sleeps (empty queue) or leaves the loop (not running). *)
Definition dequeue (st : t) : option (Task * t) :=
  if running_ st then
    match queue_ st with
    | task :: rest => Some (task, set_queue rest st)
    | [] => None
    end
  else None.

(** One delivered frame: which callback was called, with what. *)
Record Delivery : Type := {
  dl_callback : Z;
  dl_type : StreamType;
  dl_frame : Frame
}.

(** [buffer_.resize(maxSize)] when too small. *)
Definition ensureBuffer (maxSize : Z) (buffer : list Byte.byte)
  : list Byte.byte :=
  if Z.of_nat (length buffer) <? maxSize
  then buffer ++ replicate (Z.to_nat maxSize - length buffer)%nat Byte.x00
  else buffer.

(** Lines 91-135: the work done on a dequeued task, outside the lock. *)
Definition process (codec : Codec) (task : Task) (heap : Heap) (st : t)
  : result (list Delivery * Heap * t) :=
  match heap !! task_data task with
  | None => Fault OutOfBounds
  | Some src =>
      let wh := mul32 (task_width task) (task_height task) in
      let planes := (0, wh, wh + wh / 4) in
      let strides := (int32 (task_width task), int32 (task_width task / 2),
                      int32 (task_width task / 2)) in
      let maxSize := tj_bufSizeYUV2 codec (int32 (task_width task))
                       (int32 (task_height task)) in
      let buffer := ensureBuffer maxSize (buffer_ st) in
      match tj_compressFromYUVPlanes codec src planes (int32 (task_width task))
              strides (int32 (task_height task)) (task_quality task) with
      | Some out =>
          let jpegSize := length out in
          if (length buffer <? jpegSize)%nat then Fault OutOfBounds
          else
            let buffer := out ++ drop jpegSize buffer in
            let '(block, heap) := make_shared (take jpegSize buffer) heap in
            let size := match heap !! block with
                        | Some bytes => Z.of_nat (length bytes)
                        | None => 0
                        end in
            let frame := {| data_ptr := HeapBlock block; data_len := size;
                            timestamp := task_timestamp task;
                            sequence := task_sequence task;
                            owner := Some block |} in
            cb ← call (task_callback task);
            mret ([{| dl_callback := cb; dl_type := JPEG;
                      dl_frame := frame |}], heap, set_buffer buffer st)
      | None => mret ([], heap, set_buffer buffer st)
      end
  end.

(** One turn of [workerThread]'s loop: [None] when the worker does not
    get a task. *)
Definition workerTurn (codec : Codec) (heap : Heap) (st : t)
  : option (result (list Delivery * Heap * t)) :=
  match dequeue st with
  | Some (task, st) => Some (process codec task heap st)
  | None => None
  end.

End JpegEncoder.

(** ** camera_manager.cpp *)

Module CameraManager.

Record CameraConfig : Type := {
  rawStream : option StreamConfig;
  streams : list StreamConfig;
  initialControls : Controls;
  jpegEncoderQueueSize : Z
}.

(** What the orchestrator changes on its [lc::Camera]. *)
Record Camera : Type := {
  cam_connected : bool;    (* requestCompleted is connected to the handler *)
  cam_started : bool
}.

Inductive Message : Type :=
  | MsgManagerStart | MsgNoCameras | MsgAcquire | MsgConfigure
  | MsgAllocate | MsgCameraStart.

(** Calls that leave the orchestrator, in program order. *)
Inductive Effect : Type :=
  | FrameCallback (callback : Z) (ty : StreamType) (frame : Frame)
  | ErrorCallback (callback : Z) (msg : Message)
  | Encode (yuvData width height quality timestamp sequence : Z)
           (callback : option Z)
  | Reuse (cookie : Z)
  | QueueRequest (cookie : Z).

Record Impl : Type := {
  camera_ : option Camera;
  streamManager_ : option StreamManager.t;
  jpegEncoder_ : option JpegEncoder.t;
  controlManager_ : option ControlManager.t;
  frameCallback_ : option Z;           (* None: an empty std::function *)
  errorCallback_ : option Z;
  initialControls_ : Controls;
  pendingControls_ : option Controls;  (* controls waiting to be applied *)
  jpegQuality_ : Z;
  running_ : bool;
  lastError_ : option Message
}.

(** [Impl()] with the member initialisers. *)
Definition init : Impl :=
  {| camera_ := None; streamManager_ := None; jpegEncoder_ := None;
     controlManager_ := None; frameCallback_ := None; errorCallback_ := None;
     initialControls_ := Controls_empty; pendingControls_ := None;
     jpegQuality_ := 85; running_ := false; lastError_ := None |}.

Definition set_camera (v : option Camera) (st : Impl) : Impl :=
  {| camera_ := v; streamManager_ := streamManager_ st;
     jpegEncoder_ := jpegEncoder_ st; controlManager_ := controlManager_ st;
     frameCallback_ := frameCallback_ st; errorCallback_ := errorCallback_ st;
     initialControls_ := initialControls_ st;
     pendingControls_ := pendingControls_ st; jpegQuality_ := jpegQuality_ st;
     running_ := running_ st; lastError_ := lastError_ st |}.
Definition set_streamManager (v : option StreamManager.t) (st : Impl) : Impl :=
  {| camera_ := camera_ st; streamManager_ := v;
     jpegEncoder_ := jpegEncoder_ st; controlManager_ := controlManager_ st;
     frameCallback_ := frameCallback_ st; errorCallback_ := errorCallback_ st;
     initialControls_ := initialControls_ st;
     pendingControls_ := pendingControls_ st; jpegQuality_ := jpegQuality_ st;
     running_ := running_ st; lastError_ := lastError_ st |}.
Definition set_jpegEncoder (v : option JpegEncoder.t) (st : Impl) : Impl :=
  {| camera_ := camera_ st; streamManager_ := streamManager_ st;
     jpegEncoder_ := v; controlManager_ := controlManager_ st;
     frameCallback_ := frameCallback_ st; errorCallback_ := errorCallback_ st;
     initialControls_ := initialControls_ st;
     pendingControls_ := pendingControls_ st; jpegQuality_ := jpegQuality_ st;
     running_ := running_ st; lastError_ := lastError_ st |}.
Definition set_controlManager (v : option ControlManager.t) (st : Impl) : Impl :=
  {| camera_ := camera_ st; streamManager_ := streamManager_ st;
     jpegEncoder_ := jpegEncoder_ st; controlManager_ := v;
     frameCallback_ := frameCallback_ st; errorCallback_ := errorCallback_ st;
     initialControls_ := initialControls_ st;
     pendingControls_ := pendingControls_ st; jpegQuality_ := jpegQuality_ st;
     running_ := running_ st; lastError_ := lastError_ st |}.
Definition set_callbacks (f e : option Z) (st : Impl) : Impl :=
  {| camera_ := camera_ st; streamManager_ := streamManager_ st;
     jpegEncoder_ := jpegEncoder_ st; controlManager_ := controlManager_ st;
     frameCallback_ := f; errorCallback_ := e;
     initialControls_ := initialControls_ st;
     pendingControls_ := pendingControls_ st; jpegQuality_ := jpegQuality_ st;
     running_ := running_ st; lastError_ := lastError_ st |}.
Definition set_initialControls (v : Controls) (st : Impl) : Impl :=
  {| camera_ := camera_ st; streamManager_ := streamManager_ st;
     jpegEncoder_ := jpegEncoder_ st; controlManager_ := controlManager_ st;
     frameCallback_ := frameCallback_ st; errorCallback_ := errorCallback_ st;
     initialControls_ := v;
     pendingControls_ := pendingControls_ st; jpegQuality_ := jpegQuality_ st;
     running_ := running_ st; lastError_ := lastError_ st |}.
Definition set_pendingControls (v : option Controls) (st : Impl) : Impl :=
  {| camera_ := camera_ st; streamManager_ := streamManager_ st;
     jpegEncoder_ := jpegEncoder_ st; controlManager_ := controlManager_ st;
     frameCallback_ := frameCallback_ st; errorCallback_ := errorCallback_ st;
     initialControls_ := initialControls_ st;
     pendingControls_ := v; jpegQuality_ := jpegQuality_ st;
     running_ := running_ st; lastError_ := lastError_ st |}.
Definition set_jpegQuality_ (v : Z) (st : Impl) : Impl :=
  {| camera_ := camera_ st; streamManager_ := streamManager_ st;
     jpegEncoder_ := jpegEncoder_ st; controlManager_ := controlManager_ st;
     frameCallback_ := frameCallback_ st; errorCallback_ := errorCallback_ st;
     initialControls_ := initialControls_ st;
     pendingControls_ := pendingControls_ st; jpegQuality_ := v;
     running_ := running_ st; lastError_ := lastError_ st |}.
Definition set_running (v : bool) (st : Impl) : Impl :=
  {| camera_ := camera_ st; streamManager_ := streamManager_ st;
     jpegEncoder_ := jpegEncoder_ st; controlManager_ := controlManager_ st;
     frameCallback_ := frameCallback_ st; errorCallback_ := errorCallback_ st;
     initialControls_ := initialControls_ st;
     pendingControls_ := pendingControls_ st; jpegQuality_ := jpegQuality_ st;
     running_ := v; lastError_ := lastError_ st |}.
Definition set_lastError (v : Message) (st : Impl) : Impl :=
  {| camera_ := camera_ st; streamManager_ := streamManager_ st;
     jpegEncoder_ := jpegEncoder_ st; controlManager_ := controlManager_ st;
     frameCallback_ := frameCallback_ st; errorCallback_ := errorCallback_ st;
     initialControls_ := initialControls_ st;
     pendingControls_ := pendingControls_ st; jpegQuality_ := jpegQuality_ st;
     running_ := running_ st; lastError_ := Some v |}.

(** [Impl::initialize(config)]. *)
Definition initialize (dev : Device) (codec : Codec) (config : CameraConfig)
    (st : Impl) : result (bool * Impl) :=
  if dev_managerStart dev <? 0 then mret (false, set_lastError MsgManagerStart st)
  else
    match dev_cameras dev with
    | O => mret (false, set_lastError MsgNoCameras st)
    | S _ =>
        let st := set_camera
                    (Some {| cam_connected := false; cam_started := false |}) st in
        if negb (dev_acquire dev =? 0)
        then mret (false, set_lastError MsgAcquire st)
        else
          '(ok, sm) ← StreamManager.configure dev (rawStream config)
                         (streams config) StreamManager.init;
          let st := set_streamManager (Some sm) st in
          if negb ok then mret (false, set_lastError MsgConfigure st)
          else
            let st := set_controlManager (Some ControlManager.init) st in
            enc ← JpegEncoder.create codec (jpegEncoderQueueSize config);
            let st := set_jpegEncoder (Some enc) st in
            mret (true, set_initialControls (initialControls config) st)
    end.

(** Lines 75-77: the initial controls go onto every pre-built request. *)
Fixpoint applyToRequests (controls : Controls) (requests : list Request)
    (controlManager : option ControlManager.t)
  : result (option ControlManager.t * list Request) :=
  match requests with
  | [] => mret (controlManager, [])
  | request :: rest =>
      cm ← deref controlManager;
      '(cm, cl) ← ControlManager.applyControls controls (rq_controls request) cm;
      '(controlManager, rest) ← applyToRequests controls rest (Some cm);
      mret (controlManager, set_rq_controls cl request :: rest)
  end.

(** Lines 62-67. *)
Definition withDefaults (c : Controls) : Controls :=
  let c := match targetFps c with
           | Some _ => c
           | None => set_targetFps (Some 30) c
           end in
  match jpegQuality c with
  | Some _ => c
  | None => set_jpegQuality (Some 85) c
  end.

(** [Impl::start(frameCallback, errorCallback)]. *)
Definition start (dev : Device) (frameCallback errorCallback : option Z)
    (st : Impl) : result (bool * Impl * list Effect) :=
  let st := set_callbacks frameCallback errorCallback st in
  sm ← deref (streamManager_ st);
  '(ok, sm) ← StreamManager.allocateBuffers dev sm;
  let st := set_streamManager (Some sm) st in
  if negb ok then
    cb ← call (errorCallback_ st);
    mret (false, st, [ErrorCallback cb MsgAllocate])
  else
    enc ← deref (jpegEncoder_ st);
    let st := set_jpegEncoder (Some (JpegEncoder.start enc)) st in
    cam ← deref (camera_ st);
    let cam := {| cam_connected := true; cam_started := cam_started cam |} in
    let st := set_camera (Some cam) st in
    let st := set_initialControls (withDefaults (initialControls_ st)) st in
    if dev_start dev <? 0 then
      cb ← call (errorCallback_ st);
      mret (false, st, [ErrorCallback cb MsgCameraStart])
    else
      let cam := {| cam_connected := true; cam_started := true |} in
      let st := set_camera (Some cam) st in
      '(cm, requests) ← applyToRequests (initialControls_ st)
                          (StreamManager.requests_ sm) (controlManager_ st);
      let sm := StreamManager.set_requests requests sm in
      let st := set_streamManager (Some sm) (set_controlManager cm st) in
      let st := set_jpegQuality_
                  (match jpegQuality (initialControls_ st) with
                   | Some q => q
                   | None => 85
                   end) st in
      mret (true, set_running true st,
            map (fun r => QueueRequest (rq_cookie r)) requests).

(** [Impl::stop()]. *)
Definition stop (st : Impl) : result Impl :=
  if negb (running_ st) then mret st
  else
    let st := set_running false st in
    _ ← deref (camera_ st);
    enc ← deref (jpegEncoder_ st);
    let st := set_jpegEncoder (Some (JpegEncoder.stop enc)) st in
    sm ← deref (streamManager_ st);
    let st := set_streamManager (Some (StreamManager.freeBuffers sm)) st in
    mret (set_camera None st).

(** [Impl::setControls(controls)]. *)
Definition setControls (controls : Controls) (st : Impl) : bool * Impl :=
  let st := match jpegQuality controls with
            | Some q => set_jpegQuality_ q st
            | None => st
            end in
  (true, set_pendingControls (Some controls) st).

(** [Impl::getControls()]. *)
Definition getControls (st : Impl) : result Controls :=
  cm ← deref (controlManager_ st);
  mret (ControlManager.getCurrentControls cm).

(** Lines 129-135: pending controls go onto the completed request. *)
Definition applyPending (request : Request) (st : Impl)
  : result (Impl * Request) :=
  match pendingControls_ st with
  | Some controls =>
      cm ← deref (controlManager_ st);
      '(cm, cl) ← ControlManager.applyControls controls (rq_controls request) cm;
      mret (set_pendingControls None (set_controlManager (Some cm) st),
            set_rq_controls cl request)
  | None => mret (st, request)
  end.

(** [request->buffers()]: a [std::map] keyed by [const Stream*], which
    the loop at line 143 walks in ascending order of the stream. *)
Definition streamBefore (a b : Z * Z) : Prop := a.1 <= b.1.

#[global] Instance streamBefore_dec : RelDecision streamBefore.
Proof. intros a b. unfold streamBefore. apply _. Defined.

Definition bufferEntries (buffers : gmap Z Z) : list (Z * Z) :=
  merge_sort streamBefore (map_to_list buffers).

(** The body of the loop at lines 143-174 for one [(stream, buffer)],
    on the stream manager [streamManager_] points to. *)
Definition processBuffer (sm : StreamManager.t) (st : Impl)
    (timestamp sequence : Z) (entry : Z * Z) : result (list Effect) :=
  let '(stream, buffer) := entry in
  let ty := StreamManager.getStreamType sm stream in
  match ty with
  | RAW => mret []                         (* skip RAW processing *)
  | _ =>
      let data := StreamManager.getMappedData sm buffer in
      let size := StreamManager.getMappedSize sm buffer in
      if data =? 0 then mret []
      else
        match ty with
        | RGB =>
            cb ← call (frameCallback_ st);
            mret [FrameCallback cb RGB
                    {| data_ptr := MappedAddr data; data_len := size;
                       timestamp := timestamp; sequence := sequence;
                       owner := None |}]
        | _ =>
            _ ← deref (jpegEncoder_ st);
            mret [Encode data (StreamManager.getJpegWidth sm)
                    (StreamManager.getJpegHeight sm) (jpegQuality_ st)
                    timestamp sequence (frameCallback_ st)]
        end
  end.

(** The loop at lines 143-174: each round dereferences [streamManager_]
    first (line 144), so a request without buffers never touches it. *)
Fixpoint processBuffers (st : Impl)
    (timestamp sequence : Z) (entries : list (Z * Z)) : result (list Effect) :=
  match entries with
  | [] => mret []
  | entry :: rest =>
      sm ← deref (streamManager_ st);
      es ← processBuffer sm st timestamp sequence entry;
      es' ← processBuffers st timestamp sequence rest;
      mret (es ++ es')
  end.

(** [Impl::requestComplete(request)]. *)
Definition requestComplete (request : Request) (st : Impl)
  : result (Impl * Request * list Effect) :=
  if bool_decide (rq_status request = RequestCancelled)
  then mret (st, request, [])
  else
    '(st, request) ← applyPending request st;
    let sequence := rq_sequence request in
    (* [uint64_t timestamp = metadata().get(SensorTimestamp).value_or(0)]:
       the [int64_t] control value converted to [uint64_t] *)
    let timestamp := wrap64 (match rq_timestamp request with
                             | Some ts => ts
                             | None => 0
                             end) in
    es ← processBuffers st timestamp sequence
           (bufferEntries (rq_buffers request));
    _ ← deref (camera_ st);
    mret (st, request,
          es ++ [Reuse (rq_cookie request); QueueRequest (rq_cookie request)]).

End CameraManager.

(** ** The threads around the encoder's queue

    Producers run [JpegEncoder::encode], one worker runs
    [JpegEncoder::workerThread], and [JpegEncoder::stop] may be called at
    any time.  A thread holds [mutex_] from the moment it takes the lock
    until it unlocks or blocks in [cv_.wait]; a step of the system is what
    one thread does between two such points.  [cv_.wait(lock, pred)] is
    [while (!pred()) wait(lock)]: a thread that finds the predicate false
    blocks, and runs again only after [notify_one] or [notify_all] reached
    it (or after a spurious wake-up, which the standard allows); it then
    takes the lock and tests the predicate anew.  [running_] is atomic and
    [stop] writes it without the lock.  The join at the end of [stop]
    only holds back the caller and is left out. *)

Module Backpressure.

(** A thread inside [encode]. *)
Inductive producer : Type :=
  | Blocking (task : JpegEncoder.Task) (* predicate false; holds the lock,
                                          about to block in cv_.wait *)
  | Waiting (task : JpegEncoder.Task)  (* blocked in cv_.wait *)
  | Woken (task : JpegEncoder.Task)    (* unblocked; the lock and the
                                          predicate are still to come *)
  | Pushed                             (* pushed and unlocked; line 71 is
                                          still to come *)
  | Returned.                          (* encode has returned *)

(** The thread inside [workerThread]. *)
Inductive worker : Type :=
  | AtLoop                             (* at [while (running_)], line 75 *)
  | AtLock                             (* about to take the lock, line 79 *)
  | WBlocking                          (* predicate false; holds the lock *)
  | WWaiting                           (* blocked in cv_.wait *)
  | WWoken
  | Dequeued (task : JpegEncoder.Task) (* popped and unlocked; line 89 is
                                          still to come *)
  | Processing (task : JpegEncoder.Task)
  | Exited.

Record sys : Type := {
  enc : JpegEncoder.t;
  heap : Heap;
  producers : list producer;
  theWorker : worker;
  stopping : nat;           (* callers of stop between lines 29 and 30 *)
  delivered : list JpegEncoder.Delivery
}.

Definition set_enc (v : JpegEncoder.t) (s : sys) : sys :=
  {| enc := v; heap := heap s; producers := producers s;
     theWorker := theWorker s; stopping := stopping s;
     delivered := delivered s |}.
Definition set_heap (v : Heap) (s : sys) : sys :=
  {| enc := enc s; heap := v; producers := producers s;
     theWorker := theWorker s; stopping := stopping s;
     delivered := delivered s |}.
Definition set_producers (v : list producer) (s : sys) : sys :=
  {| enc := enc s; heap := heap s; producers := v;
     theWorker := theWorker s; stopping := stopping s;
     delivered := delivered s |}.
Definition set_worker (v : worker) (s : sys) : sys :=
  {| enc := enc s; heap := heap s; producers := producers s;
     theWorker := v; stopping := stopping s; delivered := delivered s |}.
Definition set_stopping (v : nat) (s : sys) : sys :=
  {| enc := enc s; heap := heap s; producers := producers s;
     theWorker := theWorker s; stopping := v; delivered := delivered s |}.
Definition set_delivered (v : list JpegEncoder.Delivery) (s : sys) : sys :=
  {| enc := enc s; heap := heap s; producers := producers s;
     theWorker := theWorker s; stopping := stopping s; delivered := v |}.

(** The arguments of one call of [encode]; [c_yuvData] holds the bytes
    readable from the source pointer. *)
Record call : Type := {
  c_yuvData : list Byte.byte;
  c_width : Z;
  c_height : Z;
  c_quality : Z;
  c_timestamp : Z;
  c_sequence : Z;
  c_callback : option Z
}.

(** A thread blocked on [cv_]. *)
Inductive waiter : Type :=
  | WaitingProducer (i : nat)
  | WaitingWorker.

Inductive action : Type :=
  | Call (c : call)          (* a thread calls encode and runs until it
                                unlocks or finds the predicate false; the
                                copy of lines 41-42 touches nothing shared
                                and is taken together with the locked part *)
  | Block (i : nat)          (* producer i blocks in cv_.wait *)
  | Retest (i : nat)         (* woken producer i takes the lock and tests
                                the predicate again *)
  | NotifyOne (i : nat) (target : option waiter)
                             (* line 71 of producer i; [target] is the
                                thread notify_one unblocks, if any waits *)
  | Spurious (w : waiter)    (* cv_.wait returns without a notification *)
  | WorkerLoop               (* line 75 *)
  | WorkerLock               (* lines 79-86 *)
  | WorkerBlock              (* the worker blocks in cv_.wait *)
  | WorkerNotify             (* line 89 *)
  | WorkerProcess            (* lines 91-135 *)
  | StopFlag                 (* lines 28-29 of stop *)
  | StopNotify.              (* line 30 of stop *)

Definition notBlocking (p : producer) : bool :=
  match p with
  | Blocking _ => false
  | _ => true
  end.

(** Nobody holds [mutex_]. *)
Definition lockFree (s : sys) : bool :=
  forallb notBlocking (producers s)
  && match theWorker s with WBlocking => false | _ => true end.

Definition wake (p : producer) : producer :=
  match p with
  | Waiting task => Woken task
  | _ => p
  end.

Definition wakeWorker (w : worker) : worker :=
  match w with
  | WWaiting => WWoken
  | _ => w
  end.

(** [cv_.notify_all()]: every thread blocked in [cv_.wait] is unblocked. *)
Definition notifyAll (s : sys) : sys :=
  set_worker (wakeWorker (theWorker s))
    (set_producers (wake <$> producers s) s).

Definition anyWaiting (s : sys) : bool :=
  existsb (fun p => match p with Waiting _ => true | _ => false end)
    (producers s)
  || match theWorker s with WWaiting => true | _ => false end.

(** One blocked thread is unblocked; [None] when it is not blocked. *)
Definition wakeOne (w : waiter) (s : sys) : option sys :=
  match w with
  | WaitingProducer j =>
      match producers s !! j with
      | Some (Waiting task) =>
          Some (set_producers (<[j := Woken task]> (producers s)) s)
      | _ => None
      end
  | WaitingWorker =>
      match theWorker s with
      | WWaiting => Some (set_worker WWoken s)
      | _ => None
      end
  end.

(** Where a producer stands after the critical section of [encode]. *)
Definition entered (e : JpegEncoder.Entered) (task : JpegEncoder.Task)
  : producer :=
  match e with
  | JpegEncoder.Blocked => Blocking task
  | JpegEncoder.NotRunning => Returned
  | JpegEncoder.Queued => Pushed
  end.

(** One step.  [None]: the step cannot be taken in this state (the
    thread is not there, is blocked, or the lock is held);
    [Some (Fault _)]: the step has undefined behaviour. *)
Definition act (codec : Codec) (a : action) (s : sys) : option (result sys) :=
  match a with
  | Call c =>
      if lockFree s then
        Some ('(e, task, heap, enc) ←
                JpegEncoder.encode (c_yuvData c) (c_width c) (c_height c)
                  (c_quality c) (c_timestamp c) (c_sequence c) (c_callback c)
                  (heap s) (enc s);
              mret (set_producers (producers s ++ [entered e task])
                      (set_heap heap (set_enc enc s))))
      else None
  | Block i =>
      match producers s !! i with
      | Some (Blocking task) =>
          Some (mret (set_producers (<[i := Waiting task]> (producers s)) s))
      | _ => None
      end
  | Retest i =>
      match producers s !! i with
      | Some (Woken task) =>
          if lockFree s then
            let '(e, enc) := JpegEncoder.enqueue task (enc s) in
            Some (mret (set_producers (<[i := entered e task]> (producers s))
                          (set_enc enc s)))
          else None
      | _ => None
      end
  | NotifyOne i target =>
      match producers s !! i with
      | Some Pushed =>
          let s := set_producers (<[i := Returned]> (producers s)) s in
          match target with
          | Some w => Ok <$> wakeOne w s
          | None => if anyWaiting s then None else Some (mret s)
          end
      | _ => None
      end
  | Spurious w => Ok <$> wakeOne w s
  | WorkerLoop =>
      match theWorker s with
      | AtLoop =>
          Some (mret (set_worker
                        (if JpegEncoder.running_ (enc s) then AtLock
                         else Exited) s))
      | _ => None
      end
  | WorkerLock =>
      match theWorker s with
      | AtLock | WWoken =>
          if lockFree s then
            Some (mret (if JpegEncoder.running_ (enc s) then
                          match JpegEncoder.dequeue (enc s) with
                          | Some (task, enc) =>
                              set_worker (Dequeued task) (set_enc enc s)
                          | None => set_worker WBlocking s
                          end
                        else set_worker Exited s))
          else None
      | _ => None
      end
  | WorkerBlock =>
      match theWorker s with
      | WBlocking => Some (mret (set_worker WWaiting s))
      | _ => None
      end
  | WorkerNotify =>
      match theWorker s with
      | Dequeued task => Some (mret (notifyAll (set_worker (Processing task) s)))
      | _ => None
      end
  | WorkerProcess =>
      match theWorker s with
      | Processing task =>
          Some ('(ds, heap, enc) ←
                  JpegEncoder.process codec task (heap s) (enc s);
                mret (set_worker AtLoop
                        (set_delivered (delivered s ++ ds)
                           (set_heap heap (set_enc enc s)))))
      | _ => None
      end
  | StopFlag =>
      Some (mret (if JpegEncoder.running_ (enc s)
                  then set_stopping (S (stopping s))
                         (set_enc (JpegEncoder.stop (enc s)) s)
                  else s))
  | StopNotify =>
      match stopping s with
      | S n => Some (mret (notifyAll (set_stopping n s)))
      | O => None
      end
  end.

(** A schedule: the steps that are taken, in order. *)
Fixpoint run (codec : Codec) (schedule : list action) (s : sys)
  : option (result sys) :=
  match schedule with
  | [] => Some (mret s)
  | a :: rest =>
      match act codec a s with
      | Some (Ok s') => run codec rest s'
      | other => other
      end
  end.

(** The system right after [JpegEncoder::start]: the worker at the top
    of its loop, no producer yet. *)
Definition started (e : JpegEncoder.t) (h : Heap) : sys :=
  {| enc := JpegEncoder.start e; heap := h; producers := [];
     theWorker := AtLoop; stopping := 0; delivered := [] |}.

Definition queueLength (s : sys) : Z :=
  Z.of_nat (length (JpegEncoder.queue_ (enc s))).

Definition full (s : sys) : Prop :=
  queueLength s = JpegEncoder.maxQueueSize_ (enc s).

End Backpressure.

(** ** node_binding.cpp: the colour-gains part of [parseControls] *)

Module NodeBinding.

(** Lines 312-322: [gains] is the JavaScript array found under
    ["colourGains"], its numbers already narrowed by [FloatValue()]. *)
Definition parseColourGains (gains : list float) : option array2 :=
  if (2 <=? length gains)%nat then
    match gains with
    | red :: blue :: _ => Some {| at0 := red; at1 := blue |}
    | _ => None
    end
  else None.

End NodeBinding.

(** ** Specification vocabulary *)

(** The [set] calls one optional field stands for. *)
Definition optWrite {T} (o : option T) (id : ControlId)
    (inj : T -> ControlValue) : ControlList :=
  match o with
  | Some v => [(id, inj v)]
  | None => []
  end.

(** The [set] calls [applyControls] makes for a merged pending set [p],
    given the frame duration already computed. *)
Definition deviceWrites (p : Controls) : ControlList :=
  optWrite (exposureMode p) AeExposureMode VInt32
  ++ optWrite (exposureTime p) ExposureTime VInt32
  ++ optWrite (analogueGain p) AnalogueGain VFloat
  ++ optWrite (afMode p) AfMode VInt32
  ++ optWrite (afTrigger p) AfTrigger VInt32
  ++ optWrite (lensPosition p) LensPosition VFloat
  ++ optWrite (awbMode p) AwbMode VInt32
  ++ optWrite (colourGains p) ColourGains
       (fun g => VFloatSpan2 (at0 g) (at1 g))
  ++ optWrite (brightness p) Brightness VFloat
  ++ optWrite (contrast p) Contrast VFloat
  ++ optWrite (saturation p) Saturation VFloat
  ++ optWrite (sharpness p) Sharpness VFloat.

Definition fpsWrites (p : Controls) : ControlList :=
  optWrite (targetFps p) FrameDurationLimits
    (fun fps => VInt64Span2 (Z.quot 1000000 fps) (Z.quot 1000000 fps)).

(** The current set after one application of the merged pending set [p]:
    every present field is promoted, except the one-shot af-trigger. *)
Definition promoted (p c : Controls) : Controls :=
  {| exposureMode := assignIfSet (exposureMode c) (exposureMode p);
     exposureTime := assignIfSet (exposureTime c) (exposureTime p);
     analogueGain := assignIfSet (analogueGain c) (analogueGain p);
     afMode := assignIfSet (afMode c) (afMode p);
     afTrigger := afTrigger c;
     lensPosition := assignIfSet (lensPosition c) (lensPosition p);
     awbMode := assignIfSet (awbMode c) (awbMode p);
     colourGains := assignIfSet (colourGains c) (colourGains p);
     brightness := assignIfSet (brightness c) (brightness p);
     contrast := assignIfSet (contrast c) (contrast p);
     saturation := assignIfSet (saturation c) (saturation p);
     sharpness := assignIfSet (sharpness c) (sharpness p);
     targetFps := assignIfSet (targetFps c) (targetFps p);
     jpegQuality := assignIfSet (jpegQuality c) (jpegQuality p) |}.

(** No division by zero in the frame-rate conversion. *)
Definition fpsDefined (p : Controls) : Prop := targetFps p <> Some 0.

(** A sequence of [applyControls] calls on one manager: each call has its
    control set and the control list of the request it targets; the result
    lists the requests' control lists after their calls. *)
Fixpoint applySequence (calls : list (Controls * ControlList))
    (st : ControlManager.t) : result (ControlManager.t * list ControlList) :=
  match calls with
  | [] => mret (st, [])
  | (controls, request) :: rest =>
      '(st, request') ← ControlManager.applyControls controls request st;
      '(st, outs) ← applySequence rest st;
      mret (st, request' :: outs)
  end.

(** The values an optional field contributes to a control list. *)
Definition optValues {T} (o : option T) (inj : T -> ControlValue)
  : list ControlValue :=
  match o with
  | Some v => [inj v]
  | None => []
  end.

(** The orchestrator has everything the completion handler touches. *)
Definition ready (st : CameraManager.Impl) : Prop :=
  is_Some (CameraManager.camera_ st)
  /\ is_Some (CameraManager.streamManager_ st)
  /\ is_Some (CameraManager.jpegEncoder_ st)
  /\ is_Some (CameraManager.controlManager_ st)
  /\ is_Some (CameraManager.frameCallback_ st).

(** What a completion does to the control pipeline and to the request. *)
Definition controlOutcome
    (r : result (CameraManager.Impl * Request * list CameraManager.Effect))
  : result (option ControlManager.t * option Controls * Request) :=
  '(st, request, _) ← r;
  mret (CameraManager.controlManager_ st, CameraManager.pendingControls_ st,
        request).

(** Where an effect of the completion handler comes from: a frame handed
    to the callback, or bytes handed to the encoder, belong to a buffer of
    the request whose stream has the given type and which is mapped. *)
Definition deliveredFrom (sm : StreamManager.t) (buffers : gmap Z Z)
    (e : CameraManager.Effect) : Prop :=
  match e with
  | CameraManager.FrameCallback _ ty frame =>
      ty = RGB
      /\ exists stream buffer,
           buffers !! stream = Some buffer
           /\ StreamManager.getStreamType sm stream = RGB
           /\ StreamManager.getMappedData sm buffer <> 0
           /\ data_ptr frame = MappedAddr (StreamManager.getMappedData sm buffer)
           /\ owner frame = None
  | CameraManager.Encode yuvData _ _ _ _ _ _ =>
      exists stream buffer,
        buffers !! stream = Some buffer
        /\ StreamManager.getStreamType sm stream = JPEG
        /\ yuvData <> 0
        /\ yuvData = StreamManager.getMappedData sm buffer
  | CameraManager.ErrorCallback _ _ => False
  | CameraManager.Reuse _ | CameraManager.QueueRequest _ => True
  end.

(** The same call with the encoder quality replaced. *)
Definition requality (q : Z) (e : CameraManager.Effect) : CameraManager.Effect :=
  match e with
  | CameraManager.Encode yuvData width height _ timestamp sequence callback =>
      CameraManager.Encode yuvData width height q timestamp sequence callback
  | _ => e
  end.

(** Producers that enter [encode]'s critical section one after the other
    with prepared tasks, and the worker taking up to [n] tasks in a row. *)
Fixpoint enqueueAll (tasks : list JpegEncoder.Task) (st : JpegEncoder.t)
  : list JpegEncoder.Entered * JpegEncoder.t :=
  match tasks with
  | [] => ([], st)
  | task :: rest =>
      let '(e, st) := JpegEncoder.enqueue task st in
      let '(es, st) := enqueueAll rest st in
      (e :: es, st)
  end.

Fixpoint dequeueN (n : nat) (st : JpegEncoder.t)
  : list JpegEncoder.Task * JpegEncoder.t :=
  match n with
  | O => ([], st)
  | S n' =>
      match JpegEncoder.dequeue st with
      | Some (task, st) =>
          let '(tasks, st) := dequeueN n' st in (task :: tasks, st)
      | None => ([], st)
      end
  end.

(** Concrete values used to exercise the statements. *)
Module Sample.

Definition device : Device :=
  {| dev_generateConfiguration := fun roles =>
       Some (imap (fun i _ =>
                     {| sc_stream := Z.of_nat i + 1; sc_width := 640;
                        sc_height := 480; sc_bufferCount := 4;
                        sc_pixelFormat := DeviceFormat 0 |}) roles);
     dev_validate := fun cfg => (Valid, cfg);
     dev_configure := fun cfg => (0, cfg);
     dev_allocate := fun _ => 0;
     dev_buffers := fun stream => [stream * 10; stream * 10 + 1];
     dev_planes := fun buffer => [{| plane_fd := 3; plane_offset := buffer * 4096;
                                     plane_length := 4096 |}];
     dev_mmap := fun len fd offset => Some (4096 * (fd + 1) + offset);
     dev_createRequest := fun i => Some (Z.of_nat i);
     dev_start := 0;
     dev_managerStart := 0;
     dev_cameras := 1;
     dev_acquire := 0 |}.

(** The same device, except that buffer 21 cannot be mapped. *)
Definition deviceFailingMap : Device :=
  {| dev_generateConfiguration := dev_generateConfiguration device;
     dev_validate := dev_validate device;
     dev_configure := dev_configure device;
     dev_allocate := dev_allocate device;
     dev_buffers := dev_buffers device;
     dev_planes := dev_planes device;
     dev_mmap := fun len fd offset =>
       if offset =? 21 * 4096 then None else dev_mmap device len fd offset;
     dev_createRequest := dev_createRequest device;
     dev_start := dev_start device;
     dev_managerStart := dev_managerStart device;
     dev_cameras := dev_cameras device;
     dev_acquire := dev_acquire device |}.

(** The same device, except that validation rejects every configuration. *)
Definition deviceInvalid : Device :=
  {| dev_generateConfiguration := dev_generateConfiguration device;
     dev_validate := fun cfg => (Invalid, cfg);
     dev_configure := dev_configure device;
     dev_allocate := dev_allocate device;
     dev_buffers := dev_buffers device;
     dev_planes := dev_planes device;
     dev_mmap := dev_mmap device;
     dev_createRequest := dev_createRequest device;
     dev_start := dev_start device;
     dev_managerStart := dev_managerStart device;
     dev_cameras := dev_cameras device;
     dev_acquire := dev_acquire device |}.

(** The same device, except that validation adjusts every stream to 8 by
    8 pixels. *)
Definition deviceAdjusting : Device :=
  {| dev_generateConfiguration := dev_generateConfiguration device;
     dev_validate := fun cfg =>
       (Adjusted,
        map (fun sc => {| sc_stream := sc_stream sc; sc_width := 8;
                          sc_height := 8;
                          sc_bufferCount := sc_bufferCount sc;
                          sc_pixelFormat := sc_pixelFormat sc |}) cfg);
     dev_configure := dev_configure device;
     dev_allocate := dev_allocate device;
     dev_buffers := dev_buffers device;
     dev_planes := dev_planes device;
     dev_mmap := dev_mmap device;
     dev_createRequest := dev_createRequest device;
     dev_start := dev_start device;
     dev_managerStart := dev_managerStart device;
     dev_cameras := dev_cameras device;
     dev_acquire := dev_acquire device |}.

(** The same device, except that it hands out three requests only. *)
Definition deviceFewRequests : Device :=
  {| dev_generateConfiguration := dev_generateConfiguration device;
     dev_validate := dev_validate device;
     dev_configure := dev_configure device;
     dev_allocate := dev_allocate device;
     dev_buffers := dev_buffers device;
     dev_planes := dev_planes device;
     dev_mmap := dev_mmap device;
     dev_createRequest := fun i =>
       if (i <? 3)%nat then Some (Z.of_nat i) else None;
     dev_start := dev_start device;
     dev_managerStart := dev_managerStart device;
     dev_cameras := dev_cameras device;
     dev_acquire := dev_acquire device |}.

Definition adjusted : StreamManager.t :=
  match StreamManager.configure deviceAdjusting None
          [{| type := JPEG; width := 4; height := 2 |}] StreamManager.init with
  | Ok (_, st) => st
  | Fault _ => StreamManager.init
  end.

Definition misconfigured : StreamManager.t :=
  match StreamManager.configure deviceInvalid None
          [{| type := RGB; width := 4; height := 2 |}] StreamManager.init with
  | Ok (_, st) => st
  | Fault _ => StreamManager.init
  end.

Definition codec : Codec :=
  {| tj_initCompress := true;
     tj_bufSizeYUV2 := fun w h => 4;
     tj_compressFromYUVPlanes := fun src planes w strides h q =>
       Some [Byte.xff; Byte.xd8] |}.

Definition encoder : JpegEncoder.t :=
  {| JpegEncoder.queue_ := []; JpegEncoder.running_ := true;
     JpegEncoder.buffer_ := []; JpegEncoder.maxQueueSize_ := 2 |}.

(** An orchestrator between [start] and [stop], with one RGB stream
    (handle 2, buffer 20 mapped at 8192) next to the RAW stream. *)
Definition streams : StreamManager.t :=
  {| StreamManager.config_ := Some [];
     StreamManager.streamTypes_ := {[ 1 := RAW; 2 := RGB ]};
     StreamManager.streamBuffers_ := {[ 1 := [10]; 2 := [20] ]};
     StreamManager.mappedBuffers_ :=
       {[ 20 := {| StreamManager.data := 8192; StreamManager.size := 12 |} ]};
     StreamManager.requests_ := [];
     StreamManager.jpegWidth_ := 0;
     StreamManager.jpegHeight_ := 0;
     StreamManager.allocator_ := {[ 1; 2 ]} |}.

(** The stream manager after [configure] for an explicit RAW stream and
    one RGB stream of 4 by 2 pixels. *)
Definition configured : StreamManager.t :=
  match StreamManager.configure device
          (Some {| type := RAW; width := 2304; height := 1296 |})
          [{| type := RGB; width := 4; height := 2 |}] StreamManager.init with
  | Ok (_, st) => st
  | Fault _ => StreamManager.init
  end.

(** [configured] with buffer 20 of the RGB stream mapped. *)
Definition mappedOne : StreamManager.t :=
  (StreamManager.mapBuffer device 20 RGB 4 2 configured).2.

(** What [allocateBuffers] makes of it. *)
Definition allocated : bool * StreamManager.t :=
  match StreamManager.allocateBuffers device configured with
  | Ok r => r
  | Fault _ => (false, configured)
  end.

Definition orchestrator : CameraManager.Impl :=
  {| CameraManager.camera_ :=
       Some {| CameraManager.cam_connected := true;
               CameraManager.cam_started := true |};
     CameraManager.streamManager_ := Some streams;
     CameraManager.jpegEncoder_ := Some encoder;
     CameraManager.controlManager_ := Some ControlManager.init;
     CameraManager.frameCallback_ := Some 1;
     CameraManager.errorCallback_ := Some 2;
     CameraManager.initialControls_ := Controls_empty;
     CameraManager.pendingControls_ := None;
     CameraManager.jpegQuality_ := 85;
     CameraManager.running_ := true;
     CameraManager.lastError_ := None |}.

(** A completed request carrying the RAW and the RGB buffer. *)
Definition completed : Request :=
  {| rq_cookie := 0; rq_status := RequestComplete; rq_sequence := 7;
     rq_timestamp := Some 1000; rq_buffers := {[ 1 := 10; 2 := 20 ]};
     rq_controls := [] |}.

(** An orchestrator brought up by [initialize] and [start]. *)
Definition config : CameraManager.CameraConfig :=
  {| CameraManager.rawStream := None;
     CameraManager.streams := [{| type := RGB; width := 4; height := 2 |}];
     CameraManager.initialControls := Controls_empty;
     CameraManager.jpegEncoderQueueSize := 2 |}.

Definition initialized : bool * CameraManager.Impl :=
  match CameraManager.initialize device codec config CameraManager.init with
  | Ok r => r
  | Fault _ => (false, CameraManager.init)
  end.

Definition started
  : bool * CameraManager.Impl * list CameraManager.Effect :=
  match CameraManager.start device (Some 1) (Some 2) initialized.2 with
  | Ok r => r
  | Fault _ => (false, initialized.2, [])
  end.

(** The same orchestrator with a JPEG stream (handle 3, buffer 30 mapped
    at 12288, 4 by 2 pixels) instead of the RGB one. *)
Definition streamsJpeg : StreamManager.t :=
  {| StreamManager.config_ := Some [];
     StreamManager.streamTypes_ := {[ 1 := RAW; 3 := JPEG ]};
     StreamManager.streamBuffers_ := {[ 1 := [10]; 3 := [30] ]};
     StreamManager.mappedBuffers_ :=
       {[ 30 := {| StreamManager.data := 12288; StreamManager.size := 12 |} ]};
     StreamManager.requests_ := [];
     StreamManager.jpegWidth_ := 4;
     StreamManager.jpegHeight_ := 2;
     StreamManager.allocator_ := {[ 1; 3 ]} |}.

(** A completed request whose sensor timestamp is negative. *)
Definition completedEarly : Request :=
  {| rq_cookie := 0; rq_status := RequestComplete; rq_sequence := 7;
     rq_timestamp := Some (-1); rq_buffers := {[ 1 := 10; 2 := 20 ]};
     rq_controls := [] |}.

Definition orchestratorJpeg : CameraManager.Impl :=
  CameraManager.set_streamManager (Some streamsJpeg) orchestrator.

Definition completedJpeg : Request :=
  {| rq_cookie := 1; rq_status := RequestComplete; rq_sequence := 8;
     rq_timestamp := None; rq_buffers := {[ 1 := 10; 3 := 30 ]};
     rq_controls := [] |}.

(** The twelve bytes of a 4 by 2 YUV420 frame. *)
Definition yuvFrame : list Byte.byte := replicate 12 Byte.x00.

Definition task (sequence : Z) : JpegEncoder.Task :=
  JpegEncoder.mkTask 0 4 2 85 1000 sequence (Some 1).

(** A running encoder with a full queue of two, two producers blocked
    in [encode] and the worker about to take the lock. *)

Definition fullSys : Backpressure.sys :=
  {| Backpressure.enc :=
       {| JpegEncoder.queue_ := [task 1; task 2];
          JpegEncoder.running_ := true;
          JpegEncoder.buffer_ := [];
          JpegEncoder.maxQueueSize_ := 2 |};
     Backpressure.heap := [yuvFrame];
     Backpressure.producers :=
       [Backpressure.Waiting (task 3); Backpressure.Waiting (task 5)];
     Backpressure.theWorker := Backpressure.AtLock;
     Backpressure.stopping := 0;
     Backpressure.delivered := [] |}.

(** A call of [encode] for a 4 by 2 frame. *)
Definition frameCall : Backpressure.call :=
  {| Backpressure.c_yuvData := yuvFrame; Backpressure.c_width := 4;
     Backpressure.c_height := 2; Backpressure.c_quality := 85;
     Backpressure.c_timestamp := 1000; Backpressure.c_sequence := 4;
     Backpressure.c_callback := Some 1 |}.

(** What the completion handler makes of [completed]. *)
Definition afterCompletion
  : CameraManager.Impl * Request * list CameraManager.Effect :=
  match CameraManager.requestComplete completed orchestrator with
  | Ok r => r
  | Fault _ => (orchestrator, completed, [])
  end.

End Sample.

(** The orchestrator states its public functions and the completion
    handler can produce, starting from a fresh [Impl]; a call that does not
    return (a fault) produces none. *)
Inductive reachable : CameraManager.Impl -> Prop :=
  | reach_init : reachable CameraManager.init
  | reach_initialize dev codec config st ok st' :
      reachable st ->
      CameraManager.initialize dev codec config st = Ok (ok, st') ->
      reachable st'
  | reach_start dev frameCallback errorCallback st ok st' effects :
      reachable st ->
      CameraManager.start dev frameCallback errorCallback st
      = Ok (ok, st', effects) ->
      reachable st'
  | reach_stop st st' :
      reachable st -> CameraManager.stop st = Ok st' -> reachable st'
  | reach_setControls controls st :
      reachable st -> reachable (CameraManager.setControls controls st).2
  | reach_requestComplete request st st' request' effects :
      reachable st ->
      CameraManager.requestComplete request st = Ok (st', request', effects) ->
      reachable st'.

(** While running, the orchestrator holds its camera, encoder and stream
    manager. *)
Definition holdsResources (st : CameraManager.Impl) : Prop :=
  CameraManager.running_ st = true ->
  is_Some (CameraManager.camera_ st)
  /\ is_Some (CameraManager.jpegEncoder_ st)
  /\ is_Some (CameraManager.streamManager_ st).

#[global] Arguments ControlManager.applyControls : simpl never.
#[global] Arguments StreamManager.allocateBuffers : simpl never.
#[global] Arguments StreamManager.configure : simpl never.
#[global] Arguments CameraManager.applyToRequests : simpl never.

(** A frame handed to the callback or bytes handed to the encoder. *)
Definition isDelivery (e : CameraManager.Effect) : Prop :=
  match e with
  | CameraManager.FrameCallback _ _ _ => True
  | CameraManager.Encode _ _ _ _ _ _ _ => True
  | _ => False
  end.

(** An entry of a request the completion handler passes over: its stream
    is RAW, or its buffer has no mapped data. *)
Definition skipped (sm : StreamManager.t) (entry : Z * Z) : Prop :=
  StreamManager.getStreamType sm entry.1 = RAW
  \/ StreamManager.getMappedData sm entry.2 = 0.

(** The sequence number and the timestamp the completion handler reads
    off a request: the signed [SensorTimestamp] as an unsigned 64-bit
    number, or 0 when the metadata has none. *)
Definition rq_sequence_timestamp (request : Request) : Z * Z :=
  (rq_sequence request,
   match rq_timestamp request with
   | Some ts => ts mod 2 ^ 64
   | None => 0
   end).

(** What each part of [allocateBuffers] leaves alone. *)
Definition sameSetup (st st' : StreamManager.t) : Prop :=
  StreamManager.config_ st' = StreamManager.config_ st
  /\ StreamManager.jpegWidth_ st' = StreamManager.jpegWidth_ st
  /\ StreamManager.jpegHeight_ st' = StreamManager.jpegHeight_ st.

(** * Properties *)

(** ** The control pipeline *)

Section ControlManagerFacts.
Import ControlManager.

Lemma applyField_pend {T} (g : Controls -> option T) id inj a w :
  pend (applyField g id inj a w) = pend w.
Proof. unfold applyField. destruct (g (pend w)); reflexivity. Qed.

Lemma applyField_req {T} (g : Controls -> option T) id inj a w :
  req (applyField g id inj a w) = req w ++ optWrite (g (pend w)) id inj.
Proof.
  unfold applyField, optWrite, cl_set.
  destruct (g (pend w)); simpl; [reflexivity | by rewrite app_nil_r].
Qed.

Lemma applyField_cur {T} (g : Controls -> option T) id inj a w :
  (forall c, a (g c) c = c) ->
  cur (applyField g id inj a w)
  = a (assignIfSet (g (cur w)) (g (pend w))) (cur w).
Proof.
  intros Hlens. unfold applyField, assignIfSet.
  destruct (g (pend w)); simpl; [reflexivity | by rewrite Hlens].
Qed.

Lemma applyAfTrigger_pend w :
  pend (applyAfTrigger w) = set_afTrigger None (pend w).
Proof.
  unfold applyAfTrigger. destruct (afTrigger (pend w)) eqn:E; [reflexivity|].
  destruct (pend w); simpl in *; by subst.
Qed.

Lemma applyAfTrigger_req w :
  req (applyAfTrigger w) = req w ++ optWrite (afTrigger (pend w)) AfTrigger VInt32.
Proof.
  unfold applyAfTrigger, optWrite, cl_set.
  destruct (afTrigger (pend w)); simpl; [reflexivity | by rewrite app_nil_r].
Qed.

Lemma applyAfTrigger_cur w : cur (applyAfTrigger w) = cur w.
Proof. unfold applyAfTrigger. destruct (afTrigger (pend w)); reflexivity. Qed.

Lemma applyColourGains_pend w : pend (applyColourGains w) = pend w.
Proof. unfold applyColourGains. destruct (colourGains (pend w)); reflexivity. Qed.

Lemma applyColourGains_req w :
  req (applyColourGains w)
  = req w ++ optWrite (colourGains (pend w)) ColourGains
               (fun g => VFloatSpan2 (at0 g) (at1 g)).
Proof.
  unfold applyColourGains, optWrite, cl_set.
  destruct (colourGains (pend w)); simpl; [reflexivity | by rewrite app_nil_r].
Qed.

Lemma applyColourGains_cur w :
  cur (applyColourGains w)
  = set_colourGains (assignIfSet (colourGains (cur w)) (colourGains (pend w)))
      (cur w).
Proof.
  unfold applyColourGains, assignIfSet.
  destruct (colourGains (pend w)); simpl; [reflexivity|].
  by destruct (cur w).
Qed.

Lemma applyJpegQuality_pend w : pend (applyJpegQuality w) = pend w.
Proof. unfold applyJpegQuality. destruct (jpegQuality (pend w)); reflexivity. Qed.

Lemma applyJpegQuality_req w : req (applyJpegQuality w) = req w.
Proof. unfold applyJpegQuality. destruct (jpegQuality (pend w)); reflexivity. Qed.

Lemma applyJpegQuality_cur w :
  cur (applyJpegQuality w)
  = set_jpegQuality (assignIfSet (jpegQuality (cur w)) (jpegQuality (pend w)))
      (cur w).
Proof.
  unfold applyJpegQuality, assignIfSet.
  destruct (jpegQuality (pend w)); simpl; [reflexivity|].
  by destruct (cur w).
Qed.

Lemma applyTargetFps_ok w :
  fpsDefined (pend w) ->
  applyTargetFps w
  = Ok {| req := req w ++ fpsWrites (pend w);
          cur := set_targetFps (assignIfSet (targetFps (cur w)) (targetFps (pend w)))
                   (cur w);
          pend := pend w |}.
Proof.
  unfold fpsDefined, applyTargetFps, fpsWrites, frameDuration, assignIfSet.
  intros Hfps. destruct (targetFps (pend w)) as [fps|]; simpl.
  - destruct (Z.eqb_spec fps 0) as [->|_]; [congruence | reflexivity].
  - rewrite app_nil_r. by destruct w as [? [] ?].
Qed.

Lemma applyTargetFps_zero w :
  targetFps (pend w) = Some 0 -> applyTargetFps w = Fault DivByZero.
Proof. unfold applyTargetFps. by intros ->. Qed.

#[local] Arguments applyField : simpl never.
#[local] Arguments applyAfTrigger : simpl never.
#[local] Arguments applyColourGains : simpl never.
#[local] Arguments applyJpegQuality : simpl never.
#[local] Arguments applyDeviceFields : simpl never.

Lemma applyDeviceFields_pend w :
  pend (applyDeviceFields w) = set_afTrigger None (pend w).
Proof.
  unfold applyDeviceFields.
  rewrite !applyField_pend, applyColourGains_pend, !applyField_pend,
    applyAfTrigger_pend, !applyField_pend.
  reflexivity.
Qed.

Lemma applyDeviceFields_req w :
  req (applyDeviceFields w) = req w ++ deviceWrites (pend w).
Proof.
  unfold applyDeviceFields, deviceWrites.
  repeat (rewrite ?applyField_req, ?applyColourGains_req, ?applyAfTrigger_req,
            ?applyField_pend, ?applyColourGains_pend, ?applyAfTrigger_pend).
  simpl. by rewrite <- !app_assoc.
Qed.

Lemma applyColourGains_applyField w :
  applyColourGains w
  = applyField colourGains ColourGains
      (fun g => VFloatSpan2 (at0 g) (at1 g)) set_colourGains w.
Proof.
  unfold applyColourGains, applyField.
  destruct (colourGains (pend w)); reflexivity.
Qed.

(** A field of current that a step does not assign keeps its value; the
    field it assigns takes the pending value when there is one. *)
Lemma applyField_cur_other {T U} (h : Controls -> U)
    (g : Controls -> option T) id inj a w :
  (forall v c, h (a v c) = h c) ->
  h (cur (applyField g id inj a w)) = h (cur w).
Proof.
  intros Hother. unfold applyField.
  destruct (g (pend w)); simpl; [apply Hother | reflexivity].
Qed.

Lemma applyField_cur_same {T} (g : Controls -> option T) id inj a w :
  (forall v c, g (a v c) = v) ->
  g (cur (applyField g id inj a w))
  = assignIfSet (g (cur w)) (g (pend w)).
Proof.
  intros Hsame. unfold applyField, assignIfSet.
  destruct (g (pend w)) eqn:E; simpl; [by rewrite Hsame | reflexivity].
Qed.

Lemma Controls_ext (c1 c2 : Controls) :
  exposureMode c1 = exposureMode c2 -> exposureTime c1 = exposureTime c2 ->
  analogueGain c1 = analogueGain c2 -> afMode c1 = afMode c2 ->
  afTrigger c1 = afTrigger c2 -> lensPosition c1 = lensPosition c2 ->
  awbMode c1 = awbMode c2 -> colourGains c1 = colourGains c2 ->
  brightness c1 = brightness c2 -> contrast c1 = contrast c2 ->
  saturation c1 = saturation c2 -> sharpness c1 = sharpness c2 ->
  targetFps c1 = targetFps c2 -> jpegQuality c1 = jpegQuality c2 ->
  c1 = c2.
Proof. destruct c1, c2; simpl; intros; by subst. Qed.

(** Follow one field [h] of current through the straight-line steps. *)
Ltac through_steps h :=
  repeat first
    [ rewrite (applyField_cur_same h) by reflexivity
    | rewrite (applyField_cur_other h) by reflexivity
    | rewrite applyAfTrigger_cur
    | rewrite applyField_pend
    | rewrite applyAfTrigger_pend ].

Lemma applyDeviceFields_cur w :
  cur (applyDeviceFields w)
  = set_targetFps (targetFps (cur w))
      (set_jpegQuality (jpegQuality (cur w)) (promoted (pend w) (cur w))).
Proof.
  unfold applyDeviceFields. rewrite applyColourGains_applyField.
  apply Controls_ext.
  - through_steps exposureMode. reflexivity.
  - through_steps exposureTime. reflexivity.
  - through_steps analogueGain. reflexivity.
  - through_steps afMode. reflexivity.
  - through_steps afTrigger. reflexivity.
  - through_steps lensPosition. reflexivity.
  - through_steps awbMode. reflexivity.
  - through_steps colourGains. reflexivity.
  - through_steps brightness. reflexivity.
  - through_steps contrast. reflexivity.
  - through_steps saturation. reflexivity.
  - through_steps sharpness. reflexivity.
  - through_steps targetFps. reflexivity.
  - through_steps jpegQuality. reflexivity.
Qed.

(** The whole of [applyControls] in closed form. *)
Lemma applyControls_ok controls request st :
  let p := mergePending (pendingControls_ st) controls in
  fpsDefined p ->
  applyControls controls request st
  = Ok ({| currentControls_ := promoted p (currentControls_ st);
           pendingControls_ := set_afTrigger None p |},
        request ++ deviceWrites p ++ fpsWrites p).
Proof.
  intros p Hfps. unfold applyControls. fold p.
  set (w0 := {| req := request; cur := currentControls_ st; pend := p |}).
  pose proof (applyDeviceFields_pend w0) as Hp.
  pose proof (applyDeviceFields_req w0) as Hr.
  pose proof (applyDeviceFields_cur w0) as Hc.
  destruct (applyDeviceFields w0) as [r1 c1 p1].
  subst w0. cbn in Hp, Hr, Hc. subst r1 c1 p1.
  rewrite applyTargetFps_ok by exact Hfps.
  cbn.
  rewrite applyJpegQuality_pend, applyJpegQuality_req, applyJpegQuality_cur.
  cbn. rewrite <- app_assoc. reflexivity.
Qed.

Lemma applyControls_zero controls request st :
  targetFps (mergePending (pendingControls_ st) controls) = Some 0 ->
  applyControls controls request st = Fault DivByZero.
Proof.
  intros H. unfold applyControls.
  rewrite applyTargetFps_zero; [reflexivity|].
  rewrite applyDeviceFields_pend. exact H.
Qed.

End ControlManagerFacts.

Lemma bind_Ok {A B} (a : A) (k : A -> result B) : (Ok a ≫= k) = k a.
Proof. reflexivity. Qed.

Lemma bind_Fault {A B} f (k : A -> result B) : (Fault f ≫= k) = Fault f.
Proof. reflexivity. Qed.

(** ** Reading control lists *)

Lemma cl_writes_app id (cl1 cl2 : ControlList) :
  cl_writes id (cl1 ++ cl2) = cl_writes id cl1 ++ cl_writes id cl2.
Proof. unfold cl_writes. by rewrite filter_app, map_app. Qed.

Lemma cl_writes_optWrite_eq {T} id (o : option T) inj :
  cl_writes id (optWrite o id inj) = optValues o inj.
Proof.
  destruct o; [|reflexivity]. unfold cl_writes, optWrite, optValues.
  rewrite filter_cons_True; [reflexivity | reflexivity].
Qed.

Lemma cl_writes_optWrite_ne {T} id id' (o : option T) inj :
  id' <> id -> cl_writes id (optWrite o id' inj) = [].
Proof.
  intros Hne. destruct o; [|reflexivity]. unfold cl_writes, optWrite.
  rewrite filter_cons_False; [reflexivity | exact Hne].
Qed.

Lemma cl_get_snoc id (vs : list ControlValue) v cl :
  cl_writes id cl = vs ++ [v] -> cl_get id cl = Some v.
Proof. unfold cl_get. intros ->. apply last_snoc. Qed.

(** Read the writes for one identifier off the closed form. *)
Ltac read_writes :=
  unfold deviceWrites, fpsWrites;
  repeat rewrite cl_writes_app;
  repeat first [ rewrite cl_writes_optWrite_eq
               | rewrite cl_writes_optWrite_ne by discriminate ];
  repeat rewrite app_nil_l; repeat rewrite app_nil_r.

Lemma writes_FrameDurationLimits p :
  cl_writes FrameDurationLimits (deviceWrites p ++ fpsWrites p)
  = optValues (targetFps p)
      (fun fps => VInt64Span2 (Z.quot 1000000 fps) (Z.quot 1000000 fps)).
Proof. read_writes. reflexivity. Qed.

Lemma writes_AfTrigger p :
  cl_writes AfTrigger (deviceWrites p ++ fpsWrites p)
  = optValues (afTrigger p) VInt32.
Proof. read_writes. reflexivity. Qed.

Lemma writes_ColourGains p :
  cl_writes ColourGains (deviceWrites p ++ fpsWrites p)
  = optValues (colourGains p) (fun g => VFloatSpan2 (at0 g) (at1 g)).
Proof. read_writes. reflexivity. Qed.

(** ** Frame-rate conversion *)

(** C5. For every positive target-fps value pending in [applyControls],
    the call succeeds and writes the frame-duration limits once, as the
    pair (1000000 / fps, 1000000 / fps) with integer division; for
    target-fps 30 both bounds are 33333. *)
Theorem C5_target_fps_frame_duration :
  forall (controls : Controls) (request : ControlList)
         (st : ControlManager.t) (fps : Z),
    targetFps (ControlManager.mergePending
                 (ControlManager.pendingControls_ st) controls) = Some fps ->
    0 < fps ->
    exists st' request',
      ControlManager.applyControls controls request st = Ok (st', request')
      /\ cl_writes FrameDurationLimits request'
         = cl_writes FrameDurationLimits request
           ++ [VInt64Span2 (1000000 / fps) (1000000 / fps)]
      /\ cl_get FrameDurationLimits request'
         = Some (VInt64Span2 (1000000 / fps) (1000000 / fps))
      /\ (fps = 30 ->
          cl_get FrameDurationLimits request' = Some (VInt64Span2 33333 33333)).
Proof.
  intros controls request st fps Hfps Hpos.
  eexists _, _. split.
  { apply applyControls_ok. unfold fpsDefined. rewrite Hfps.
    intros [= ->]. lia. }
  assert (Hw : cl_writes FrameDurationLimits
                 (request ++ deviceWrites
                    (ControlManager.mergePending
                       (ControlManager.pendingControls_ st) controls)
                  ++ fpsWrites
                    (ControlManager.mergePending
                       (ControlManager.pendingControls_ st) controls))
               = cl_writes FrameDurationLimits request
                 ++ [VInt64Span2 (1000000 / fps) (1000000 / fps)]).
  { rewrite cl_writes_app, writes_FrameDurationLimits, Hfps. simpl.
    rewrite Z.quot_div_nonneg by lia. reflexivity. }
  split; [exact Hw|]. split.
  - eapply cl_get_snoc. exact Hw.
  - intros ->. eapply cl_get_snoc. exact Hw.
Qed.

Lemma C5_target_fps_frame_duration_witness :
  exists st' request',
    ControlManager.applyControls (set_targetFps (Some 30) Controls_empty) []
      ControlManager.init = Ok (st', request')
    /\ cl_writes FrameDurationLimits request'
       = cl_writes FrameDurationLimits []
         ++ [VInt64Span2 (1000000 / 30) (1000000 / 30)]
    /\ cl_get FrameDurationLimits request'
       = Some (VInt64Span2 (1000000 / 30) (1000000 / 30))
    /\ (30 = 30 ->
        cl_get FrameDurationLimits request' = Some (VInt64Span2 33333 33333)).
Proof.
  apply (C5_target_fps_frame_duration
           (set_targetFps (Some 30) Controls_empty) [] ControlManager.init 30).
  - reflexivity.
  - lia.
Defined.

(** ** Colour gains *)

Lemma parseColourGains_short (gains : list float) :
  (length gains < 2)%nat -> NodeBinding.parseColourGains gains = None.
Proof.
  intros Hlen. unfold NodeBinding.parseColourGains.
  destruct (Nat.leb_spec 2 (length gains)); [lia | reflexivity].
Qed.

Lemma set_colourGains_id c : set_colourGains (colourGains c) c = c.
Proof. by destruct c. Qed.

(** C6. A control set whose colour gains come from an array of fewer
    than two elements is applied exactly like the same set without colour
    gains, and with no gains pending nothing is written for colour gains
    and current keeps its value; a two-element array [red, blue] is
    written once, verbatim and in that order, and becomes current. *)
Theorem C6_colour_gains :
  forall (gains : list float) (controls : Controls) (request : ControlList)
         (st : ControlManager.t),
    colourGains controls = NodeBinding.parseColourGains gains ->
    fpsDefined (ControlManager.mergePending
                  (ControlManager.pendingControls_ st) controls) ->
    exists st' request',
      ControlManager.applyControls controls request st = Ok (st', request')
      /\ ((length gains < 2)%nat ->
          ControlManager.applyControls (set_colourGains None controls) request st
          = Ok (st', request')
          /\ (colourGains (ControlManager.pendingControls_ st) = None ->
              cl_writes ColourGains request' = cl_writes ColourGains request
              /\ colourGains (ControlManager.currentControls_ st')
                 = colourGains (ControlManager.currentControls_ st)))
      /\ (forall red blue, gains = [red; blue] ->
          cl_writes ColourGains request'
          = cl_writes ColourGains request ++ [VFloatSpan2 red blue]
          /\ colourGains (ControlManager.currentControls_ st')
             = Some {| at0 := red; at1 := blue |}).
Proof.
  intros gains controls request st Hparse Hfps.
  eexists _, _. split; [by apply applyControls_ok|]. split.
  - intros Hshort. rewrite (parseColourGains_short _ Hshort) in Hparse.
    split.
    + rewrite <- Hparse, set_colourGains_id. by apply applyControls_ok.
    + intros Hnone. rewrite cl_writes_app, writes_ColourGains. simpl.
      rewrite Hparse, Hnone. simpl. by rewrite app_nil_r.
  - intros red blue ->. simpl in Hparse.
    rewrite cl_writes_app, writes_ColourGains. simpl.
    rewrite Hparse. simpl. done.
Qed.

Lemma C6_colour_gains_witness :
  exists st' request',
    ControlManager.applyControls
      (set_colourGains (Some {| at0 := S754_zero false; at1 := S754_infinity false |})
         Controls_empty) [] ControlManager.init = Ok (st', request')
    /\ ((length [S754_zero false; S754_infinity false] < 2)%nat ->
        ControlManager.applyControls
          (set_colourGains None
             (set_colourGains
                (Some {| at0 := S754_zero false; at1 := S754_infinity false |})
                Controls_empty)) [] ControlManager.init
        = Ok (st', request')
        /\ (colourGains (ControlManager.pendingControls_ ControlManager.init) = None ->
            cl_writes ColourGains request' = cl_writes ColourGains []
            /\ colourGains (ControlManager.currentControls_ st')
               = colourGains (ControlManager.currentControls_ ControlManager.init)))
    /\ (forall red blue,
        [S754_zero false; S754_infinity false] = [red; blue] ->
        cl_writes ColourGains request'
        = cl_writes ColourGains [] ++ [VFloatSpan2 red blue]
        /\ colourGains (ControlManager.currentControls_ st')
           = Some {| at0 := red; at1 := blue |}).
Proof.
  apply (C6_colour_gains [S754_zero false; S754_infinity false]
           (set_colourGains
              (Some {| at0 := S754_zero false; at1 := S754_infinity false |})
              Controls_empty) [] ControlManager.init).
  - reflexivity.
  - unfold fpsDefined. simpl. discriminate.
Defined.

(** ** One-shot af-trigger *)

Lemma applySequence_afTrigger (calls : list (Controls * ControlList)) :
  forall st : ControlManager.t,
    afTrigger (ControlManager.pendingControls_ st) = None ->
    fpsDefined (ControlManager.pendingControls_ st) ->
    Forall (fun call => fpsDefined (fst call)) calls ->
    exists st' outs,
      applySequence calls st = Ok (st', outs)
      /\ afTrigger (ControlManager.pendingControls_ st') = None
      /\ fpsDefined (ControlManager.pendingControls_ st')
      /\ length outs = length calls
      /\ forall k controls request request',
          calls !! k = Some (controls, request) ->
          outs !! k = Some request' ->
          cl_writes AfTrigger request'
          = cl_writes AfTrigger request ++ optValues (afTrigger controls) VInt32.
Proof.
  induction calls as [|[controls request] rest IH]; intros st Haf Hfps Hall.
  - exists st, []. repeat split; try done.
  - apply Forall_cons in Hall as [Hc Hrest]. simpl in Hc.
    assert (Hmerged : fpsDefined (ControlManager.mergePending
                        (ControlManager.pendingControls_ st) controls)).
    { unfold fpsDefined in *. simpl.
      destruct (targetFps controls); simpl; assumption. }
    cbn [applySequence]. rewrite applyControls_ok by exact Hmerged.
    rewrite bind_Ok.
    set (p := ControlManager.mergePending
                (ControlManager.pendingControls_ st) controls) in *.
    destruct (IH {| ControlManager.currentControls_ :=
                      promoted p (ControlManager.currentControls_ st);
                    ControlManager.pendingControls_ := set_afTrigger None p |})
      as (st' & outs & Hrun & Haf' & Hfps' & Hlen & Hk);
      [reflexivity | exact Hmerged | exact Hrest | ].
    rewrite Hrun, bind_Ok. eexists _, _. split; [reflexivity|].
    split; [exact Haf'|]. split; [exact Hfps'|]. split; [simpl; by rewrite Hlen|].
    intros [|k] c rq rq' Hc' Hrq'; simpl in Hc', Hrq'.
    + injection Hc' as <- <-. injection Hrq' as <-.
      rewrite cl_writes_app, writes_AfTrigger. subst p.
      cbn [afTrigger ControlManager.mergePending]. rewrite Haf.
      destruct (afTrigger controls); reflexivity.
    + eapply Hk; eassumption.
Qed.

(** C2. Along every sequence of [applyControls] calls on a manager with
    no af-trigger pending (as after construction), each call succeeds,
    the call that is handed an af-trigger value writes that value to its
    request exactly once, whatever the value, a call that is not handed
    one writes none, and no af-trigger is left pending afterwards. *)
Theorem C2_af_trigger_one_shot :
  forall (calls : list (Controls * ControlList)) (st : ControlManager.t),
    afTrigger (ControlManager.pendingControls_ st) = None ->
    fpsDefined (ControlManager.pendingControls_ st) ->
    Forall (fun call => fpsDefined (fst call)) calls ->
    exists st' outs,
      applySequence calls st = Ok (st', outs)
      /\ afTrigger (ControlManager.pendingControls_ st') = None
      /\ length outs = length calls
      /\ forall k controls request request',
          calls !! k = Some (controls, request) ->
          outs !! k = Some request' ->
          cl_writes AfTrigger request'
          = cl_writes AfTrigger request ++ optValues (afTrigger controls) VInt32.
Proof.
  intros calls st Haf Hfps Hall.
  destruct (applySequence_afTrigger calls st Haf Hfps Hall)
    as (st' & outs & Hrun & Haf' & _ & Hlen & Hk).
  exists st', outs. repeat split; assumption.
Qed.

Lemma C2_af_trigger_one_shot_witness :
  exists st' outs,
    applySequence
      [(set_afTrigger (Some 0) Controls_empty, []);
       (set_brightness (Some (S754_zero false)) Controls_empty, []);
       (set_afTrigger (Some 1) Controls_empty, [])]
      ControlManager.init = Ok (st', outs)
    /\ afTrigger (ControlManager.pendingControls_ st') = None
    /\ length outs = 3%nat
    /\ forall k controls request request',
        [(set_afTrigger (Some 0) Controls_empty, []);
         (set_brightness (Some (S754_zero false)) Controls_empty, []);
         (set_afTrigger (Some 1) Controls_empty, [])] !! k
        = Some (controls, request) ->
        outs !! k = Some request' ->
        cl_writes AfTrigger request'
        = cl_writes AfTrigger request ++ optValues (afTrigger controls) VInt32.
Proof.
  apply (C2_af_trigger_one_shot
           [(set_afTrigger (Some 0) Controls_empty, []);
            (set_brightness (Some (S754_zero false)) Controls_empty, []);
            (set_afTrigger (Some 1) Controls_empty, [])]
           ControlManager.init).
  - reflexivity.
  - unfold fpsDefined. simpl. discriminate.
  - repeat constructor; unfold fpsDefined; simpl; discriminate.
Defined.

(** ** The completion handler and pending controls *)

Section CompletionFacts.
Import CameraManager.

Lemma bufferEntries_perm (buffers : gmap Z Z) :
  bufferEntries buffers ≡ₚ map_to_list buffers.
Proof. apply merge_sort_Permutation. Qed.

(** The loop walks the buffers in ascending order of the stream. *)
Lemma bufferEntries_sorted (buffers : gmap Z Z) :
  Sorted streamBefore (bufferEntries buffers).
Proof.
  assert (Htotal : Total streamBefore).
  { intros a b. unfold streamBefore. lia. }
  apply (Sorted_merge_sort streamBefore).
Qed.

Lemma elem_of_bufferEntries (buffers : gmap Z Z) stream buffer :
  (stream, buffer) ∈ bufferEntries buffers <-> buffers !! stream = Some buffer.
Proof. rewrite bufferEntries_perm. apply elem_of_map_to_list. Qed.

Lemma processBuffers_cons sm st timestamp sequence entry rest :
  streamManager_ st = Some sm ->
  processBuffers st timestamp sequence (entry :: rest)
  = (es ← processBuffer sm st timestamp sequence entry;
     es' ← processBuffers st timestamp sequence rest;
     mret (es ++ es')).
Proof. intros Hsm. cbn [processBuffers]. by rewrite Hsm. Qed.

Lemma processBuffers_ok sm st timestamp sequence entries :
  streamManager_ st = Some sm ->
  is_Some (frameCallback_ st) -> is_Some (jpegEncoder_ st) ->
  exists es, processBuffers st timestamp sequence entries = Ok es.
Proof.
  intros Hsm [cb Hcb] [enc Henc].
  induction entries as [|[stream buffer] rest [es IH]].
  - by exists [].
  - cbn [processBuffers]. rewrite Hsm, IH. cbn [deref]. rewrite bind_Ok.
    unfold processBuffer. rewrite Hcb, Henc.
    destruct (StreamManager.getStreamType sm stream);
      destruct (StreamManager.getMappedData sm buffer =? 0);
      cbn; eauto.
Qed.

(** A completion with pending controls on a ready orchestrator. *)
Lemma requestComplete_pending request st controls cm :
  ready st ->
  pendingControls_ st = Some controls ->
  controlManager_ st = Some cm ->
  rq_status request <> RequestCancelled ->
  fpsDefined (ControlManager.mergePending
                (ControlManager.pendingControls_ cm) controls) ->
  let p := ControlManager.mergePending
             (ControlManager.pendingControls_ cm) controls in
  let cm' := {| ControlManager.currentControls_ :=
                  promoted p (ControlManager.currentControls_ cm);
                ControlManager.pendingControls_ := set_afTrigger None p |} in
  exists effects,
    requestComplete request st
    = Ok (set_pendingControls None (set_controlManager (Some cm') st),
          set_rq_controls
            (rq_controls request ++ deviceWrites p ++ fpsWrites p) request,
          effects).
Proof.
  intros (Hcam & Hsm & Henc & _ & Hcb) Hpend Hcm Hstatus Hfps p cm'.
  unfold requestComplete.
  rewrite bool_decide_eq_false_2 by exact Hstatus.
  unfold applyPending. rewrite Hpend, Hcm. cbn [deref].
  rewrite bind_Ok, applyControls_ok by exact Hfps.
  rewrite !bind_Ok. fold p. fold cm'.
  destruct Hsm as [sm Hsm]. destruct Hcam as [cam Hcam].
  match goal with
  | |- context [processBuffers ?b ?c ?d ?e] =>
      destruct (processBuffers_ok sm b c d e) as [es Hes];
      [exact Hsm | done | done |];
      rewrite Hes
  end.
  cbn [streamManager_ camera_ set_pendingControls set_controlManager].
  rewrite Hcam. cbn [deref]. rewrite !bind_Ok. eauto.
Qed.

Lemma ready_setControls controls st :
  ready st -> ready (setControls controls st).2.
Proof.
  unfold ready, setControls.
  destruct (jpegQuality controls); cbn; tauto.
Qed.

End CompletionFacts.

(** C3. After [setControls] with a jpeg quality [q] and one completed
    (not cancelled) request, [getControls] reports jpeg quality [q] and the
    cached encoder value is [q]; the request's control list receives only
    the device fields and the frame-duration limits of the pending set, and
    it is the same list whatever jpeg quality the call carries, or none. *)
Theorem C3_jpeg_quality_not_on_device :
  forall (controls : Controls) (q : Z) (request : Request)
         (st : CameraManager.Impl) (cm : ControlManager.t),
    jpegQuality controls = Some q ->
    ready st ->
    CameraManager.controlManager_ st = Some cm ->
    rq_status request <> RequestCancelled ->
    fpsDefined (ControlManager.mergePending
                  (ControlManager.pendingControls_ cm) controls) ->
    exists st2 request' effects,
      CameraManager.requestComplete request
        (CameraManager.setControls controls st).2
      = Ok (st2, request', effects)
      /\ (exists c, CameraManager.getControls st2 = Ok c
                    /\ jpegQuality c = Some q)
      /\ CameraManager.jpegQuality_ st2 = q
      /\ rq_controls request'
         = (let p := set_jpegQuality None
                       (ControlManager.mergePending
                          (ControlManager.pendingControls_ cm) controls) in
            rq_controls request ++ deviceWrites p ++ fpsWrites p)
      /\ forall q' : option Z,
          exists st2' effects',
            CameraManager.requestComplete request
              (CameraManager.setControls (set_jpegQuality q' controls) st).2
            = Ok (st2', request', effects').
Proof.
  intros controls q request st cm Hq Hready Hcm Hstatus Hfps.
  destruct (requestComplete_pending request
              (CameraManager.setControls controls st).2 controls cm)
    as [effects Hrun].
  { by apply ready_setControls. }
  { reflexivity. }
  { unfold CameraManager.setControls. by destruct (jpegQuality controls). }
  { exact Hstatus. }
  { exact Hfps. }
  eexists _, _, _. split; [exact Hrun|]. split; [|split; [|split]].
  - eexists. split; [reflexivity|]. cbn. by rewrite Hq.
  - unfold CameraManager.setControls. rewrite Hq. reflexivity.
  - reflexivity.
  - intros q'.
    destruct (requestComplete_pending request
                (CameraManager.setControls (set_jpegQuality q' controls) st).2
                (set_jpegQuality q' controls) cm)
      as [effects' Hrun'].
    { by apply ready_setControls. }
    { reflexivity. }
    { unfold CameraManager.setControls.
      by destruct (jpegQuality (set_jpegQuality q' controls)). }
    { exact Hstatus. }
    { exact Hfps. }
    eexists _, _. exact Hrun'.
Qed.

Lemma C3_jpeg_quality_not_on_device_witness :
  exists st2 request' effects,
    CameraManager.requestComplete Sample.completed
      (CameraManager.setControls
         (set_jpegQuality (Some 90) Controls_empty) Sample.orchestrator).2
    = Ok (st2, request', effects)
    /\ (exists c, CameraManager.getControls st2 = Ok c
                  /\ jpegQuality c = Some 90)
    /\ CameraManager.jpegQuality_ st2 = 90
    /\ rq_controls request'
       = (let p := set_jpegQuality None
                     (ControlManager.mergePending
                        (ControlManager.pendingControls_ ControlManager.init)
                        (set_jpegQuality (Some 90) Controls_empty)) in
          rq_controls Sample.completed ++ deviceWrites p ++ fpsWrites p)
    /\ forall q' : option Z,
        exists st2' effects',
          CameraManager.requestComplete Sample.completed
            (CameraManager.setControls
               (set_jpegQuality q' (set_jpegQuality (Some 90) Controls_empty))
               Sample.orchestrator).2
          = Ok (st2', request', effects').
Proof.
  apply (C3_jpeg_quality_not_on_device
           (set_jpegQuality (Some 90) Controls_empty) 90 Sample.completed
           Sample.orchestrator ControlManager.init).
  - reflexivity.
  - unfold ready. simpl. repeat split; eexists; reflexivity.
  - reflexivity.
  - simpl. discriminate.
  - unfold fpsDefined. simpl. discriminate.
Defined.

(** ** Replacement of the orchestrator's pending set *)

Section ReplacementFacts.
Import CameraManager.

Lemma processBuffers_quality st st' timestamp sequence entries :
  streamManager_ st' = streamManager_ st ->
  frameCallback_ st' = frameCallback_ st ->
  jpegEncoder_ st' = jpegEncoder_ st ->
  processBuffers st' timestamp sequence entries
  = (es ← processBuffers st timestamp sequence entries;
     mret (map (requality (jpegQuality_ st')) es)).
Proof.
  intros Hsm Hcb Henc.
  induction entries as [|[stream buffer] rest IH]; [reflexivity|].
  cbn [processBuffers]. rewrite IH, Hsm.
  destruct (streamManager_ st) as [sm|]; [|reflexivity].
  cbn [deref]. rewrite !bind_Ok.
  unfold processBuffer. rewrite Hcb, Henc.
  destruct (StreamManager.getStreamType sm stream);
    destruct (StreamManager.getMappedData sm buffer =? 0);
    destruct (frameCallback_ st), (jpegEncoder_ st);
    destruct (processBuffers st timestamp sequence rest);
    cbn; try reflexivity; by rewrite ?map_app.
Qed.

(** The cached encoder quality does not reach the control pipeline. *)
Lemma controlOutcome_quality request st q :
  controlOutcome (requestComplete request (set_jpegQuality_ q st))
  = controlOutcome (requestComplete request st).
Proof.
  unfold requestComplete.
  destruct (bool_decide (rq_status request = RequestCancelled));
    [reflexivity|].
  unfold applyPending.
  cbn [pendingControls_ controlManager_ set_jpegQuality_].
  destruct (pendingControls_ st) as [controls|].
  - destruct (controlManager_ st) as [cm|]; [|reflexivity].
    cbn [deref]. rewrite !bind_Ok.
    destruct (ControlManager.applyControls controls (rq_controls request) cm)
      as [[cm' cl]|f]; [|reflexivity].
    rewrite !bind_Ok.
    match goal with
    | |- context [processBuffers ?a ?ts ?sq ?es] =>
        match a with
        | context [set_jpegQuality_] =>
            rewrite (processBuffers_quality
                       (set_pendingControls None
                          (set_controlManager (Some cm') st)) a ts sq es)
              by reflexivity
        end
    end.
    cbn [camera_ set_pendingControls set_controlManager set_jpegQuality_].
    destruct (processBuffers _ _ _ _); [|reflexivity].
    rewrite !bind_Ok. destruct (camera_ st); reflexivity.
  - rewrite !bind_Ok.
    rewrite (processBuffers_quality st (set_jpegQuality_ q st))
      by reflexivity.
    cbn [camera_ set_jpegQuality_].
    destruct (processBuffers st _ _ _); [|reflexivity].
    rewrite !bind_Ok. destruct (camera_ st); reflexivity.
Qed.

Lemma setControls_twice c1 c2 st :
  (setControls c2 (setControls c1 st).2).2
  = set_jpegQuality_ (jpegQuality_ (setControls c2 (setControls c1 st).2).2)
      (setControls c2 st).2.
Proof.
  unfold setControls.
  destruct (jpegQuality c1), (jpegQuality c2); reflexivity.
Qed.

End ReplacementFacts.

(** [applyControls] in closed form, for every input. *)
Lemma applyControls_total controls request st :
  let p := ControlManager.mergePending
             (ControlManager.pendingControls_ st) controls in
  ControlManager.applyControls controls request st
  = match targetFps p with
    | Some 0 => Fault DivByZero
    | _ => Ok ({| ControlManager.currentControls_ :=
                    promoted p (ControlManager.currentControls_ st);
                  ControlManager.pendingControls_ := set_afTrigger None p |},
               request ++ deviceWrites p ++ fpsWrites p)
    end.
Proof.
  intros p. destruct (targetFps p) as [fps|] eqn:E.
  - destruct (Z.eq_dec fps 0) as [->|Hne].
    + by apply applyControls_zero.
    + replace (match fps with 0 => _ | _ => _ end)
        with (Ok ({| ControlManager.currentControls_ :=
                       promoted p (ControlManager.currentControls_ st);
                     ControlManager.pendingControls_ := set_afTrigger None p |},
                  request ++ deviceWrites p ++ fpsWrites p)
              : result (ControlManager.t * ControlList))
        by (by destruct fps).
      apply applyControls_ok. unfold fpsDefined. fold p. rewrite E. congruence.
  - apply applyControls_ok. unfold fpsDefined. fold p. by rewrite E.
Qed.

(** C10. [setControls] replaces the orchestrator's pending set: after two
    calls the pending set is the second call's, and the next completion
    leaves the control pipeline and the request exactly as if the first
    call had never been made, so a field only the first call carried
    reaches no request.  Field-wise merging is what [applyControls] does
    with its own pending set, which survives from one completion to the
    next with the af-trigger removed. *)
Theorem C10_setControls_replaces_pending :
  forall (c1 c2 : Controls) (st : CameraManager.Impl) (request : Request),
    CameraManager.pendingControls_
      (CameraManager.setControls c2 (CameraManager.setControls c1 st).2).2
    = Some c2
    /\ controlOutcome
         (CameraManager.requestComplete request
            (CameraManager.setControls c2 (CameraManager.setControls c1 st).2).2)
       = controlOutcome
           (CameraManager.requestComplete request
              (CameraManager.setControls c2 st).2)
    /\ forall (cm : ControlManager.t) (cl : ControlList),
        let p := ControlManager.mergePending
                   (ControlManager.pendingControls_ cm) c2 in
        ControlManager.applyControls c2 cl cm
        = match targetFps p with
          | Some 0 => Fault DivByZero
          | _ => Ok ({| ControlManager.currentControls_ :=
                          promoted p (ControlManager.currentControls_ cm);
                        ControlManager.pendingControls_ := set_afTrigger None p |},
                     cl ++ deviceWrites p ++ fpsWrites p)
          end.
Proof.
  intros c1 c2 st request. split; [|split].
  - unfold CameraManager.setControls. by destruct (jpegQuality c2).
  - rewrite setControls_twice. apply controlOutcome_quality.
  - intros cm cl. apply applyControls_total.
Qed.

(** ** Buffers and mapping *)

Section StreamManagerFacts.
Import StreamManager.
Variable dev : Device.

(** C1. [allocateBuffers] on a manager whose configuration pointer is
    null, as after construction or after [configure] failed to generate
    a configuration, dereferences the null pointer; it does not return. *)
Theorem C1_allocateBuffers_unconfigured :
  forall st : StreamManager.t,
    allocateBuffers dev (set_config None st) = Fault NullDeref
    /\ allocateBuffers dev StreamManager.init = Fault NullDeref.
Proof. intros st. split; reflexivity. Qed.

Lemma mapBuffer_RAW buffer width height st :
  mapBuffer dev buffer RAW width height st = (true, st).
Proof. reflexivity. Qed.

Lemma mapBuffer_spec buffer ty width height st ok st' :
  mapBuffer dev buffer ty width height st = (ok, st') ->
  streamTypes_ st' = streamTypes_ st
  /\ forall fb, is_Some (mappedBuffers_ st' !! fb) ->
       is_Some (mappedBuffers_ st !! fb) \/ (fb = buffer /\ ty <> RAW).
Proof.
  unfold mapBuffer. intros H.
  destruct ty;
    try (injection H as <- <-; split; [reflexivity | by left]);
    (destruct (dev_planes dev buffer) as [|plane0 ?];
     [injection H as <- <-; split; [reflexivity | by left]|];
     destruct (dev_mmap dev _ _ _);
     injection H as <- <-; (split; [reflexivity|]); intros fb Hfb;
     [|by left];
     cbn in Hfb; destruct (decide (buffer = fb)) as [->|Hne];
     [right; by split | left; by rewrite lookup_insert_ne in Hfb]).
Qed.

Lemma streamTypes_index_spec stream st ty st' :
  streamTypes_index stream st = (ty, st') ->
  streamTypes_ st' !! stream = Some ty
  /\ streamTypes_ st ⊆ streamTypes_ st'
  /\ mappedBuffers_ st' = mappedBuffers_ st.
Proof.
  unfold streamTypes_index. intros H.
  destruct (streamTypes_ st !! stream) as [ty0|] eqn:E;
    injection H as <- <-.
  - done.
  - cbn. split; [apply lookup_insert_eq|]. split; [|reflexivity].
    by apply insert_subseteq.
Qed.

Lemma mapStreamBuffers_spec stream width height buffers :
  forall bufferPtrs st r st',
    mapStreamBuffers dev stream width height buffers bufferPtrs st = (r, st') ->
    streamTypes_ st ⊆ streamTypes_ st'
    /\ forall fb, is_Some (mappedBuffers_ st' !! fb) ->
         is_Some (mappedBuffers_ st !! fb)
         \/ (fb ∈ buffers
             /\ exists ty, streamTypes_ st' !! stream = Some ty /\ ty <> RAW).
Proof.
  induction buffers as [|b rest IH]; intros bufferPtrs st r st' H.
  - injection H as <- <-. split; [done | by left].
  - cbn [mapStreamBuffers] in H.
    destruct (streamTypes_index stream st) as [ty st1] eqn:E1.
    destruct (mapBuffer dev b ty width height st1) as [ok st2] eqn:E2.
    apply streamTypes_index_spec in E1 as (Hty & Hsub1 & Hmap1).
    apply mapBuffer_spec in E2 as (Htypes2 & Hmap2).
    assert (Hstep : forall fb, is_Some (mappedBuffers_ st2 !! fb) ->
              is_Some (mappedBuffers_ st !! fb) \/ (fb = b /\ ty <> RAW)).
    { intros fb Hfb. rewrite <- Hmap1. by apply Hmap2. }
    destruct ok.
    + apply IH in H as (Hsub & Hmapped).
      split; [etrans; [exact Hsub1|]; by rewrite <- Htypes2|].
      intros fb Hfb. destruct (Hmapped fb Hfb) as [Hold|[Hin Hty']].
      * destruct (Hstep fb Hold) as [?|[-> Hraw]]; [by left|].
        right. split; [by left|]. exists ty. split; [|done].
        eapply lookup_weaken; [|exact Hsub]. by rewrite Htypes2.
      * right. split; [by right | done].
    + injection H as <- <-.
      split; [by rewrite Htypes2|].
      intros fb Hfb. destruct (Hstep fb Hfb) as [?|[-> Hraw]]; [by left|].
      right. split; [by left|]. exists ty. by rewrite Htypes2.
Qed.

Lemma allocateStreams_spec cfg :
  forall st ok st',
    allocateStreams dev cfg st = (ok, st') ->
    streamTypes_ st ⊆ streamTypes_ st'
    /\ forall fb, is_Some (mappedBuffers_ st' !! fb) ->
         is_Some (mappedBuffers_ st !! fb)
         \/ exists streamCfg,
              streamCfg ∈ cfg
              /\ fb ∈ dev_buffers dev (sc_stream streamCfg)
              /\ exists ty, streamTypes_ st' !! sc_stream streamCfg = Some ty
                            /\ ty <> RAW.
Proof.
  induction cfg as [|streamCfg rest IH]; intros st ok st' H.
  - injection H as <- <-. split; [done | by left].
  - cbn [allocateStreams] in H.
    destruct (dev_allocate dev (sc_stream streamCfg) <? 0).
    { injection H as <- <-. split; [done | by left]. }
    destruct (mapStreamBuffers dev (sc_stream streamCfg) (sc_width streamCfg)
                (sc_height streamCfg) (dev_buffers dev (sc_stream streamCfg))
                [] _) as [[bufferPtrs|] st1] eqn:E.
    + apply mapStreamBuffers_spec in E as (Hsub1 & Hmap1).
      cbn [streamTypes_ mappedBuffers_ set_allocator] in Hsub1, Hmap1.
      apply IH in H as (Hsub & Hmapped). cbn in Hsub, Hmapped.
      split; [by etrans|].
      intros fb Hfb. destruct (Hmapped fb Hfb) as [Hold|(sc & Hin & Hfbs & Hty)].
      * destruct (Hmap1 fb Hold) as [?|(Hin & ty & Hty & Hraw)]; [by left|].
        right. exists streamCfg. split; [by left|]. split; [done|].
        exists ty. split; [|done]. by eapply lookup_weaken.
      * right. exists sc. split; [by right | done].
    + injection H as <- <-. apply mapStreamBuffers_spec in E as (Hsub1 & Hmap1).
      cbn [streamTypes_ mappedBuffers_ set_allocator] in Hsub1, Hmap1.
      split; [done|].
      intros fb Hfb. destruct (Hmap1 fb Hfb) as [?|(Hin & Hty)]; [by left|].
      right. exists streamCfg. split; [by left | done].
Qed.

Lemma attachBuffers_spec cfg i :
  forall request st request' st',
    attachBuffers cfg i request st = (request', st') ->
    streamTypes_ st' = streamTypes_ st
    /\ mappedBuffers_ st' = mappedBuffers_ st.
Proof.
  induction cfg as [|streamCfg rest IH]; intros request st request' st' H.
  - by injection H as <- <-.
  - cbn [attachBuffers] in H. unfold streamBuffers_index in H.
    destruct (streamBuffers_ st !! sc_stream streamCfg);
      apply IH in H as [-> ->]; done.
Qed.

Lemma createRequests_spec cfg n :
  forall i st ok st',
    createRequests dev cfg n i st = (ok, st') ->
    streamTypes_ st' = streamTypes_ st
    /\ mappedBuffers_ st' = mappedBuffers_ st.
Proof.
  induction n as [|n IH]; intros i st ok st' H.
  - by injection H as <- <-.
  - cbn [createRequests] in H.
    destruct (dev_createRequest dev i); [|by injection H as <- <-].
    destruct (attachBuffers cfg i (newRequest z) st) as [request st1] eqn:E.
    apply attachBuffers_spec in E as [E1 E2].
    apply IH in H as [-> ->]. done.
Qed.

(** [allocateBuffers] keeps every recorded stream type, and every buffer
    it maps belongs to a configured stream that was not recorded as RAW
    before the call and is not RAW after it. *)
Lemma allocateBuffers_mapped st ok st' :
  allocateBuffers dev st = Ok (ok, st') ->
  streamTypes_ st ⊆ streamTypes_ st'
  /\ forall fb, is_Some (mappedBuffers_ st' !! fb) ->
       is_Some (mappedBuffers_ st !! fb)
       \/ exists cfg streamCfg,
            config_ st = Some cfg
            /\ streamCfg ∈ cfg
            /\ fb ∈ dev_buffers dev (sc_stream streamCfg)
            /\ streamTypes_ st !! sc_stream streamCfg <> Some RAW
            /\ getStreamType st' (sc_stream streamCfg) <> RAW.
Proof.
  unfold allocateBuffers. intros H.
  destruct (config_ st) as [cfg|] eqn:Ecfg; [|discriminate].
  cbn [deref] in H. rewrite bind_Ok in H.
  destruct (allocateStreams dev cfg st) as [ok1 st1] eqn:E1.
  apply allocateStreams_spec in E1 as (Hsub & Hmapped).
  assert (Hst' : streamTypes_ st' = streamTypes_ st1
                 /\ mappedBuffers_ st' = mappedBuffers_ st1).
  { destruct ok1.
    - assert (H' : createRequests dev cfg numRequests 0 st1 = (ok, st'))
        by (unfold mret, result_ret in H; congruence).
      by apply createRequests_spec in H'.
    - by injection H as <- <-. }
  destruct Hst' as [Htypes Hmaps]. split; [by rewrite Htypes|].
  intros fb Hfb. rewrite Hmaps in Hfb.
  destruct (Hmapped fb Hfb) as [?|(sc & Hin & Hfbs & ty & Hty & Hraw)];
    [by left|].
  right. exists cfg, sc.
  split; [done|]. split; [done|]. split; [done|]. split.
  - intros Hpre. apply (lookup_weaken _ _ _ _ Hpre) in Hsub. congruence.
  - unfold getStreamType. by rewrite Htypes, Hty.
Qed.

End StreamManagerFacts.

(** When the second buffer of a stream cannot be mapped, [allocateBuffers]
    returns false and the first buffer's mapping stays recorded until
    [freeBuffers] runs. *)
Lemma allocateBuffers_failure_keeps_mappings :
  exists st',
    StreamManager.allocateBuffers Sample.deviceFailingMap Sample.configured
    = Ok (false, st')
    /\ StreamManager.getMappedData st' 20 <> 0
    /\ StreamManager.requests_ st' = []
    /\ StreamManager.mappedBuffers_ (StreamManager.freeBuffers st') = ∅.
Proof.
  eexists. split; [vm_compute; reflexivity|].
  split; [vm_compute; discriminate|]. split; reflexivity.
Qed.

(** ** What the completion handler delivers *)

Section DeliveryFacts.
Import CameraManager.

Lemma processBuffers_from sm st timestamp sequence (buffers : gmap Z Z) entries :
  streamManager_ st = Some sm ->
  (forall stream buffer,
     (stream, buffer) ∈ entries -> buffers !! stream = Some buffer) ->
  forall es,
    processBuffers st timestamp sequence entries = Ok es ->
    forall e, e ∈ es -> deliveredFrom sm buffers e.
Proof.
  intros Hsm.
  induction entries as [|[stream buffer] rest IH]; intros Hin es Hrun e He.
  - injection Hrun as <-. by apply elem_of_nil in He.
  - rewrite (processBuffers_cons sm) in Hrun by exact Hsm.
    destruct (processBuffer sm st timestamp sequence (stream, buffer))
      as [es1|] eqn:E1; [|discriminate].
    rewrite bind_Ok in Hrun.
    destruct (processBuffers st timestamp sequence rest)
      as [es2|] eqn:E2; [|discriminate].
    rewrite bind_Ok in Hrun. injection Hrun as <-.
    apply elem_of_app in He as [He|He].
    + assert (Hb : buffers !! stream = Some buffer) by (apply Hin; by left).
      unfold processBuffer in E1.
      destruct (StreamManager.getStreamType sm stream) eqn:Ety.
      * destruct (Z.eqb_spec (StreamManager.getMappedData sm buffer) 0)
          as [Hz|Hnz].
        { injection E1 as <-. by apply elem_of_nil in He. }
        destruct (jpegEncoder_ st); [|discriminate].
        cbn in E1. injection E1 as <-.
        apply list_elem_of_singleton in He as ->. cbn.
        exists stream, buffer. done.
      * destruct (Z.eqb_spec (StreamManager.getMappedData sm buffer) 0)
          as [Hz|Hnz].
        { injection E1 as <-. by apply elem_of_nil in He. }
        destruct (frameCallback_ st); [|discriminate].
        cbn in E1. injection E1 as <-.
        apply list_elem_of_singleton in He as ->. cbn.
        split; [done|]. exists stream, buffer. done.
      * injection E1 as <-. by apply elem_of_nil in He.
    + eapply IH; [|reflexivity|exact He].
      intros s b Hsb. apply Hin. by right.
Qed.

Lemma applyPending_keeps request st st1 request1 :
  applyPending request st = Ok (st1, request1) ->
  streamManager_ st1 = streamManager_ st
  /\ rq_buffers request1 = rq_buffers request
  /\ rq_cookie request1 = rq_cookie request.
Proof.
  unfold applyPending. intros H.
  destruct (pendingControls_ st) as [controls|].
  - destruct (controlManager_ st) as [cm|]; [|discriminate].
    cbn [deref] in H. rewrite bind_Ok in H.
    destruct (ControlManager.applyControls controls (rq_controls request) cm)
      as [[cm' cl]|]; [|discriminate].
    rewrite bind_Ok in H. by injection H as <- <-.
  - by injection H as <- <-.
Qed.

(** Everything a completion hands out comes from a mapped buffer of an RGB
    stream (callback) or of a JPEG stream (encoder). *)
Lemma requestComplete_delivers request st st' request' effects sm :
  requestComplete request st = Ok (st', request', effects) ->
  streamManager_ st = Some sm ->
  forall e, e ∈ effects -> deliveredFrom sm (rq_buffers request) e.
Proof.
  unfold requestComplete. intros H Hsm e He.
  destruct (bool_decide (rq_status request = RequestCancelled)).
  { injection H as <- <- <-. by apply elem_of_nil in He. }
  destruct (applyPending request st) as [[st1 request1]|] eqn:E;
    [|discriminate].
  apply applyPending_keeps in E as (Hsm1 & Hbufs & _).
  rewrite bind_Ok in H. rewrite Hsm in Hsm1.
  destruct (processBuffers st1 _ _ _) as [es|] eqn:Ees; [|discriminate].
  rewrite bind_Ok in H.
  destruct (camera_ st1); [|discriminate].
  cbn [deref] in H. rewrite bind_Ok in H. injection H as <- <- <-.
  apply elem_of_app in He as [He|He].
  - eapply processBuffers_from; [exact Hsm1| |exact Ees|exact He].
    intros stream buffer Hin. rewrite <- Hbufs.
    by apply elem_of_bufferEntries.
  - apply elem_of_cons in He as [->|He]; [exact I|].
    apply list_elem_of_singleton in He as ->. exact I.
Qed.

End DeliveryFacts.

(** C4. Mapping a buffer under type RAW maps nothing and reports
    success; a stream recorded as RAW before [allocateBuffers] is still
    RAW after it, and every buffer [allocateBuffers] maps belongs to a
    configured stream that was not recorded as RAW before the call and
    is not RAW after it, so that a buffer whose configured streams are
    all recorded as RAW is left unmapped; the completion handler skips a buffer of a RAW
    stream without calling anything; and every frame a completion hands
    to the frame callback (or bytes it hands to the encoder) comes from
    a mapped buffer of the request whose stream has type RGB (or JPEG),
    never RAW. *)
Theorem C4_raw_never_mapped_nor_delivered :
  forall (dev : Device) (st st' : StreamManager.t) (ok : bool)
         (buffer width height : Z)
         (request request' : Request) (ist ist' : CameraManager.Impl)
         (effects : list CameraManager.Effect) (sm : StreamManager.t),
    StreamManager.allocateBuffers dev st = Ok (ok, st') ->
    CameraManager.requestComplete request ist = Ok (ist', request', effects) ->
    CameraManager.streamManager_ ist = Some sm ->
    StreamManager.mapBuffer dev buffer RAW width height st = (true, st)
    /\ (forall stream,
          StreamManager.streamTypes_ st !! stream = Some RAW ->
          StreamManager.getStreamType st' stream = RAW)
    /\ (forall fb,
          is_Some (StreamManager.mappedBuffers_ st' !! fb) ->
          is_Some (StreamManager.mappedBuffers_ st !! fb)
          \/ exists cfg streamCfg,
               StreamManager.config_ st = Some cfg
               /\ streamCfg ∈ cfg
               /\ fb ∈ dev_buffers dev (sc_stream streamCfg)
               /\ StreamManager.streamTypes_ st !! sc_stream streamCfg
                  <> Some RAW
               /\ StreamManager.getStreamType st' (sc_stream streamCfg) <> RAW)
    /\ (forall fb,
          (forall cfg streamCfg,
              StreamManager.config_ st = Some cfg ->
              streamCfg ∈ cfg ->
              fb ∈ dev_buffers dev (sc_stream streamCfg) ->
              StreamManager.streamTypes_ st !! sc_stream streamCfg
              = Some RAW) ->
          StreamManager.mappedBuffers_ st !! fb = None ->
          StreamManager.mappedBuffers_ st' !! fb = None)
    /\ (forall stream fb timestamp sequence,
          StreamManager.getStreamType sm stream = RAW ->
          CameraManager.processBuffer sm ist timestamp sequence (stream, fb)
          = Ok [])
    /\ (forall e, e ∈ effects -> deliveredFrom sm (rq_buffers request) e).
Proof.
  intros dev st st' ok buffer width height request request' ist ist' effects sm
    Halloc Hcomplete Hsm.
  destruct (allocateBuffers_mapped dev _ _ _ Halloc) as [Hsub Hmapped].
  split; [reflexivity|]. split; [|split; [|split; [|split]]].
  - intros stream Hpre. unfold StreamManager.getStreamType.
    by rewrite (lookup_weaken _ _ _ _ Hpre Hsub).
  - exact Hmapped.
  - intros fb Hraw Hnone.
    destruct (StreamManager.mappedBuffers_ st' !! fb) as [m|] eqn:Em;
      [|reflexivity].
    destruct (Hmapped fb ltac:(by eexists))
      as [[? Hold]|(cfg & sc & Hcfg & Hsc & Hfb & Hpre & _)].
    + congruence.
    + destruct Hpre. by apply (Hraw cfg).
  - intros stream fb timestamp sequence Hraw.
    unfold CameraManager.processBuffer. by rewrite Hraw.
  - by eapply requestComplete_delivers.
Qed.

Lemma C4_raw_never_mapped_nor_delivered_witness :
  StreamManager.allocateBuffers Sample.device Sample.configured
  = Ok (Sample.allocated.1, Sample.allocated.2)
  /\ CameraManager.requestComplete Sample.completed Sample.orchestrator
     = Ok (Sample.afterCompletion.1.1, Sample.afterCompletion.1.2,
           Sample.afterCompletion.2)
  /\ StreamManager.mapBuffer Sample.device 10 RAW 2304 1296 Sample.configured
     = (true, Sample.configured)
  /\ (forall stream,
        StreamManager.streamTypes_ Sample.configured !! stream = Some RAW ->
        StreamManager.getStreamType Sample.allocated.2 stream = RAW)
  /\ (forall fb,
        is_Some (StreamManager.mappedBuffers_ Sample.allocated.2 !! fb) ->
        is_Some (StreamManager.mappedBuffers_ Sample.configured !! fb)
        \/ exists cfg streamCfg,
             StreamManager.config_ Sample.configured = Some cfg
             /\ streamCfg ∈ cfg
             /\ fb ∈ dev_buffers Sample.device (sc_stream streamCfg)
             /\ StreamManager.streamTypes_ Sample.configured
                  !! sc_stream streamCfg <> Some RAW
             /\ StreamManager.getStreamType Sample.allocated.2
                  (sc_stream streamCfg) <> RAW)
  /\ (forall fb,
        (forall cfg streamCfg,
            StreamManager.config_ Sample.configured = Some cfg ->
            streamCfg ∈ cfg ->
            fb ∈ dev_buffers Sample.device (sc_stream streamCfg) ->
            StreamManager.streamTypes_ Sample.configured
              !! sc_stream streamCfg = Some RAW) ->
        StreamManager.mappedBuffers_ Sample.configured !! fb = None ->
        StreamManager.mappedBuffers_ Sample.allocated.2 !! fb = None)
  /\ (forall stream fb timestamp sequence,
        StreamManager.getStreamType Sample.streams stream = RAW ->
        CameraManager.processBuffer Sample.streams Sample.orchestrator
          timestamp sequence (stream, fb)
        = Ok [])
  /\ (forall e, e ∈ Sample.afterCompletion.2 ->
        deliveredFrom Sample.streams (rq_buffers Sample.completed) e).
Proof.
  split; [vm_compute; reflexivity|]. split; [vm_compute; reflexivity|].
  apply (C4_raw_never_mapped_nor_delivered Sample.device Sample.configured
           Sample.allocated.2 Sample.allocated.1 10 2304 1296
           Sample.completed Sample.afterCompletion.1.2
           Sample.orchestrator Sample.afterCompletion.1.1
           Sample.afterCompletion.2 Sample.streams).
  - vm_compute. reflexivity.
  - vm_compute. reflexivity.
  - reflexivity.
Defined.

(** ** The encoder: copy, compression result, delivery *)

Section EncoderFacts.
Import JpegEncoder.

Lemma dataSize_in_range width height :
  0 <= width -> 0 <= height -> width * height * 3 < 2 ^ 32 ->
  dataSize width height = width * height * 3 / 2.
Proof.
  intros Hw Hh Hrange. unfold dataSize, mul32, wrap32.
  assert (0 <= width * height) by nia.
  rewrite (Z.mod_small (width * height)) by lia.
  rewrite Z.mod_small by lia. reflexivity.
Qed.

(** Within 32 bits the copy holds exactly [width * height * 3 / 2] bytes
    of the source and lives in a block of its own. *)
Lemma copyFrame_in_range yuvData width height heap :
  0 <= width -> 0 <= height -> width * height * 3 < 2 ^ 32 ->
  width * height * 3 / 2 <= Z.of_nat (length yuvData) ->
  copyFrame yuvData width height heap
  = Ok (length heap,
        heap ++ [take (Z.to_nat (width * height * 3 / 2)) yuvData])
  /\ Z.of_nat (length (take (Z.to_nat (width * height * 3 / 2)) yuvData))
     = width * height * 3 / 2
  /\ heap !! length heap = None.
Proof.
  intros Hw Hh Hrange Hlen. unfold copyFrame.
  rewrite dataSize_in_range by assumption.
  destruct (Z.ltb_spec (Z.of_nat (length yuvData)) (width * height * 3 / 2));
    [lia|].
  split; [reflexivity|]. split.
  - rewrite length_take.
    assert (0 <= width * height * 3 / 2) by (apply Z.div_pos; nia).
    lia.
  - by apply lookup_ge_None.
Qed.

(** A successful compression yields one delivery of type JPEG whose data
    is a fresh block holding exactly the compressed bytes, tagged with the
    task's timestamp and sequence. *)
Lemma process_success codec task heap st src out cb :
  heap !! task_data task = Some src ->
  tj_compressFromYUVPlanes codec src
    (0, mul32 (task_width task) (task_height task),
     mul32 (task_width task) (task_height task)
     + mul32 (task_width task) (task_height task) / 4)
    (int32 (task_width task))
    (int32 (task_width task), int32 (task_width task / 2),
     int32 (task_width task / 2))
    (int32 (task_height task)) (task_quality task) = Some out ->
  Z.of_nat (length out)
  <= tj_bufSizeYUV2 codec (int32 (task_width task))
       (int32 (task_height task)) ->
  task_callback task = Some cb ->
  exists buffer',
    process codec task heap st
    = Ok ([{| dl_callback := cb; dl_type := JPEG;
              dl_frame := {| data_ptr := HeapBlock (length heap);
                             data_len := Z.of_nat (length out);
                             timestamp := task_timestamp task;
                             sequence := task_sequence task;
                             owner := Some (length heap) |} |}],
          heap ++ [out], set_buffer buffer' st)
    /\ (heap ++ [out]) !! length heap = Some out
    /\ length heap <> task_data task.
Proof.
  intros Hsrc Hcompress Hfits Hcb. unfold process.
  rewrite Hsrc, Hcompress.
  set (maxSize := tj_bufSizeYUV2 codec (int32 (task_width task))
                    (int32 (task_height task))) in *.
  assert (Hbuf : (length out <= length (ensureBuffer maxSize (buffer_ st)))%nat).
  { unfold ensureBuffer.
    destruct (Z.ltb_spec (Z.of_nat (length (buffer_ st))) maxSize).
    - rewrite length_app, length_replicate. lia.
    - lia. }
  destruct (Nat.ltb_spec (length (ensureBuffer maxSize (buffer_ st))) (length out));
    [lia|].
  assert (Htake : take (length out)
                    (out ++ drop (length out) (ensureBuffer maxSize (buffer_ st)))
                  = out).
  { rewrite take_app_le by lia. by rewrite take_ge by lia. }
  unfold make_shared. rewrite Htake.
  assert (Hnew : (heap ++ [out]) !! length heap = Some out).
  { rewrite lookup_app_r by lia. by rewrite Nat.sub_diag. }
  eexists. split; [|split; [exact Hnew|]].
  - rewrite Hnew, Hcb. reflexivity.
  - apply lookup_lt_Some in Hsrc. lia.
Qed.

(** Within 32 bits [encode] hands on a task whose data is the fresh block
    with exactly [width * height * 3 / 2] bytes of the source. *)
Lemma encode_in_range yuvData width height quality timestamp sequence
    callback heap st :
  0 <= width -> 0 <= height -> width * height * 3 < 2 ^ 32 ->
  width * height * 3 / 2 <= Z.of_nat (length yuvData) ->
  exists entered st',
    encode yuvData width height quality timestamp sequence callback heap st
    = Ok (entered,
          mkTask (length heap) width height quality timestamp sequence callback,
          heap ++ [take (Z.to_nat (width * height * 3 / 2)) yuvData], st').
Proof.
  intros Hw Hh Hrange Hlen. unfold encode.
  destruct (copyFrame_in_range yuvData width height heap Hw Hh Hrange Hlen)
    as (-> & _ & _).
  unfold make_shared. rewrite bind_Ok. cbn beta iota.
  destruct (enqueue _ st) as [entered st'].
  by exists entered, st'.
Qed.

(** C7 (failing input). For a 65536 by 65536 task the 32-bit product
    [width * height] wraps to 0: [encode] copies no byte at all (the
    task's block is empty), where [width * height * 3 / 2] is
    6442450944. *)
Theorem C7_encode_copy_size_wraps :
  forall (yuvData : list Byte.byte) (quality timestamp sequence : Z)
         (callback : option Z) (heap : Heap) (st : JpegEncoder.t),
    dataSize 65536 65536 = 0
    /\ (exists entered st',
          encode yuvData 65536 65536 quality timestamp sequence callback heap st
          = Ok (entered,
                mkTask (length heap) 65536 65536 quality timestamp sequence
                  callback,
                heap ++ [[]], st'))
    /\ 65536 * 65536 * 3 / 2 = 6442450944.
Proof.
  intros yuvData quality timestamp sequence callback heap st.
  split; [reflexivity|]. split; [|reflexivity].
  unfold encode, copyFrame.
  change (dataSize 65536 65536) with 0.
  destruct (Z.ltb_spec (Z.of_nat (length yuvData)) 0); [lia|].
  unfold make_shared. rewrite bind_Ok. cbn beta iota.
  destruct (enqueue _ st) as [entered st'].
  by exists entered, st'.
Qed.

End EncoderFacts.

(** ** Backpressure on the encoder queue *)

Section BackpressureFacts.
Import JpegEncoder Backpressure.

Lemma enqueue_full task e :
  running_ e = true ->
  Z.of_nat (length (queue_ e)) = maxQueueSize_ e ->
  enqueue task e = (Blocked, e).
Proof.
  intros Hrun Hfull. unfold enqueue, canEnter. rewrite Hrun, Hfull.
  by rewrite Z.ltb_irrefl.
Qed.

Lemma enqueue_space task e :
  running_ e = true ->
  Z.of_nat (length (queue_ e)) < maxQueueSize_ e ->
  enqueue task e = (Queued, set_queue (queue_ e ++ [task]) e).
Proof.
  intros Hrun Hspace. unfold enqueue, canEnter. rewrite Hrun.
  destruct (Z.ltb_spec (Z.of_nat (length (queue_ e))) (maxQueueSize_ e));
    [reflexivity | lia].
Qed.

Lemma enqueue_bound task e r e' :
  enqueue task e = (r, e') ->
  Z.of_nat (length (queue_ e)) <= maxQueueSize_ e ->
  Z.of_nat (length (queue_ e')) <= maxQueueSize_ e'
  /\ maxQueueSize_ e' = maxQueueSize_ e.
Proof.
  unfold enqueue, canEnter. intros H Hle.
  destruct (Z.ltb_spec (Z.of_nat (length (queue_ e))) (maxQueueSize_ e));
    destruct (running_ e); cbn in H; injection H as <- <-; cbn;
    rewrite ?length_app; cbn; split; try lia.
Qed.

Lemma encode_bound yuvData width height quality timestamp sequence callback
    heap e r task heap' e' :
  encode yuvData width height quality timestamp sequence callback heap e
  = Ok (r, task, heap', e') ->
  Z.of_nat (length (queue_ e)) <= maxQueueSize_ e ->
  Z.of_nat (length (queue_ e')) <= maxQueueSize_ e'
  /\ maxQueueSize_ e' = maxQueueSize_ e.
Proof.
  unfold encode. intros H Hle.
  destruct (copyFrame yuvData width height heap) as [[block heap1]|];
    [|discriminate].
  rewrite bind_Ok in H. cbn beta iota in H.
  destruct (enqueue _ e) as [r1 e1] eqn:E.
  unfold mret, result_ret in H. injection H as <- <- <- <-.
  by eapply enqueue_bound.
Qed.

(** The worker's processing leaves the queue and the flags alone. *)
Lemma process_keeps codec task heap e ds heap' e' :
  process codec task heap e = Ok (ds, heap', e') ->
  queue_ e' = queue_ e
  /\ running_ e' = running_ e
  /\ maxQueueSize_ e' = maxQueueSize_ e.
Proof.
  unfold process. intros H.
  destruct (heap !! task_data task); [|discriminate].
  destruct (tj_compressFromYUVPlanes _ _ _ _ _ _ _).
  - destruct (_ <? _)%nat; [discriminate|].
    destruct (make_shared _ heap) as [block heap1].
    destruct (task_callback task); [|discriminate].
    cbn in H. by injection H as <- <- <-.
  - cbn in H. by injection H as <- <- <-.
Qed.

Lemma wakeOne_enc w s s' : wakeOne w s = Some s' -> enc s' = enc s.
Proof.
  unfold wakeOne. intros H. destruct w as [j|].
  - destruct (producers s !! j) as [[]|]; try discriminate.
    by injection H as <-.
  - destruct (theWorker s); try discriminate. by injection H as <-.
Qed.

(** No step takes the queue beyond its bound, and none changes the
    bound. *)
Lemma act_bound codec a s s' :
  act codec a s = Some (Ok s') ->
  queueLength s <= maxQueueSize_ (enc s) ->
  queueLength s' <= maxQueueSize_ (enc s')
  /\ maxQueueSize_ (enc s') = maxQueueSize_ (enc s).
Proof.
  unfold queueLength. intros H Hle.
  destruct a as [c|i|i|i target|w| | | | | | |]; cbn [act] in H.
  - destruct (lockFree s); [|discriminate].
    destruct (encode _ _ _ _ _ _ _ _ _) as [[[[r task] heap1] e1]|] eqn:E;
      [|discriminate].
    apply encode_bound in E; [|exact Hle].
    cbn in H. by injection H as <-.
  - destruct (producers s !! i) as [[]|]; try discriminate.
    by injection H as <-.
  - destruct (producers s !! i) as [[]|]; try discriminate.
    destruct (lockFree s); [|discriminate].
    destruct (enqueue _ (enc s)) as [r e1] eqn:E.
    apply enqueue_bound in E; [|exact Hle]. by injection H as <-.
  - destruct (producers s !! i) as [[]|]; try discriminate.
    destruct target as [w|].
    + destruct (wakeOne w _) as [s1|] eqn:E; [|discriminate].
      apply wakeOne_enc in E. cbn in H, E. injection H as <-.
      by rewrite E.
    + destruct (anyWaiting _); [discriminate|]. by injection H as <-.
  - destruct (wakeOne w s) as [s1|] eqn:E; [|discriminate].
    apply wakeOne_enc in E. cbn in H. injection H as <-. by rewrite E.
  - destruct (theWorker s); try discriminate. by injection H as <-.
  - assert (Hlock : forall r : result sys,
              (if lockFree s
               then Some (mret (if running_ (enc s)
                                then match dequeue (enc s) with
                                     | Some (task, e1) =>
                                         set_worker (Dequeued task)
                                           (set_enc e1 s)
                                     | None => set_worker WBlocking s
                                     end
                                else set_worker Exited s))
               else None) = Some (Ok s') ->
              Z.of_nat (length (queue_ (enc s'))) <= maxQueueSize_ (enc s')
              /\ maxQueueSize_ (enc s') = maxQueueSize_ (enc s)).
    { intros _ H'. destruct (lockFree s); [|discriminate].
      unfold dequeue in H'. destruct (running_ (enc s)).
      - destruct (queue_ (enc s)) as [|task rest] eqn:Eq.
        + injection H' as <-. cbn. rewrite Eq. split; [exact Hle | done].
        + injection H' as <-. cbn in *. lia.
      - injection H' as <-. split; [exact Hle | done]. }
    destruct (theWorker s); try discriminate; by apply (Hlock (Ok s)).
  - destruct (theWorker s); try discriminate. by injection H as <-.
  - destruct (theWorker s); try discriminate. by injection H as <-.
  - destruct (theWorker s) as [| | | | | |task|]; try discriminate.
    destruct (process codec task (heap s) (enc s)) as [[[ds heap1] e1]|] eqn:E;
      [|discriminate].
    apply process_keeps in E as (Eq & _ & Emax).
    cbn in H. injection H as <-. cbn. by rewrite Eq, Emax.
  - injection H as <-. unfold stop.
    destruct (running_ (enc s)) eqn:Hrun; [|done].
    cbn. rewrite ?Hrun. split; [exact Hle | reflexivity].
  - destruct (stopping s); [discriminate|]. by injection H as <-.
Qed.

Lemma run_bound codec schedule :
  forall s s',
    run codec schedule s = Some (Ok s') ->
    queueLength s <= maxQueueSize_ (enc s) ->
    queueLength s' <= maxQueueSize_ (enc s')
    /\ maxQueueSize_ (enc s') = maxQueueSize_ (enc s).
Proof.
  induction schedule as [|a rest IH]; intros s s' H Hle.
  - by injection H as <-.
  - cbn [run] in H.
    destruct (act codec a s) as [[s1|]|] eqn:E; try discriminate.
    apply act_bound in E as [Hle1 Hmax1]; [|exact Hle].
    destruct (IH _ _ H Hle1) as [? ?]. split; [done | congruence].
Qed.

Lemma notBlocking_lookup (l : list producer) :
  forallb notBlocking l = true
  <-> forall i task, l !! i <> Some (Blocking task).
Proof.
  induction l as [|p l IH]; cbn [forallb].
  - split; [|done]. intros _ i task. by rewrite lookup_nil.
  - rewrite andb_true_iff, IH. split.
    + intros [Hp Hl] [|i] task; cbn; [|by apply Hl].
      intros [= ->]. discriminate.
    + intros H. split.
      * destruct p as [task| | | |]; try reflexivity.
        by destruct (H 0%nat task).
      * intros i task. apply (H (S i)).
Qed.

Lemma lockFree_spec s :
  lockFree s = true
  <-> (forall i task, producers s !! i <> Some (Blocking task))
      /\ theWorker s <> WBlocking.
Proof.
  unfold lockFree. rewrite andb_true_iff, notBlocking_lookup.
  split; intros [Hp Hw]; (split; [exact Hp|]); by destruct (theWorker s).
Qed.

Lemma wake_lookup (l : list producer) i task :
  (wake <$> l) !! i = Some (Blocking task) -> l !! i = Some (Blocking task).
Proof.
  rewrite list_lookup_fmap. destruct (l !! i) as [[]|]; cbn; congruence.
Qed.

End BackpressureFacts.

(** C9. With the encoder running, its queue holding [maxQueueSize_]
    tasks and the lock free:
    - a thread that calls [encode] copies its frame, finds the wait
      predicate false and blocks in [cv_.wait] holding its task; the
      queue is unchanged and nothing is dropped;
    - a blocked producer does not run, and one that is woken while the
      queue is still full re-tests the predicate and blocks again;
    - when the worker takes the lock it pops exactly the front task;
      until its [notify_all] (line 89) no blocked producer runs; the
      [notify_all] unblocks every blocked producer; the first of them to
      take the lock queues its task behind the others, which fills the
      queue again, and each of the others then finds the predicate false
      and blocks again: one dequeue lets exactly one producer through.
    Along every schedule of producers, worker, notifications, spurious
    wake-ups and [stop], from every state, a queue within its bound stays
    within it and the bound does not change; this holds from the state
    [start] leaves behind. *)
Theorem C9_backpressure :
  forall (codec : Codec) (s : Backpressure.sys) (c : Backpressure.call),
    JpegEncoder.running_ (Backpressure.enc s) = true ->
    Backpressure.full s ->
    Backpressure.lockFree s = true ->
    JpegEncoder.dataSize (Backpressure.c_width c) (Backpressure.c_height c)
    <= Z.of_nat (length (Backpressure.c_yuvData c)) ->
    (exists task heap' s1 s2,
        JpegEncoder.encode (Backpressure.c_yuvData c) (Backpressure.c_width c)
          (Backpressure.c_height c) (Backpressure.c_quality c)
          (Backpressure.c_timestamp c) (Backpressure.c_sequence c)
          (Backpressure.c_callback c) (Backpressure.heap s)
          (Backpressure.enc s)
        = Ok (JpegEncoder.Blocked, task, heap', Backpressure.enc s)
        /\ task = JpegEncoder.mkTask (length (Backpressure.heap s))
                    (Backpressure.c_width c) (Backpressure.c_height c)
                    (Backpressure.c_quality c) (Backpressure.c_timestamp c)
                    (Backpressure.c_sequence c) (Backpressure.c_callback c)
        /\ Backpressure.act codec (Backpressure.Call c) s = Some (Ok s1)
        /\ s1 = Backpressure.set_producers
                  (Backpressure.producers s ++ [Backpressure.Blocking task])
                  (Backpressure.set_heap heap' s)
        /\ Backpressure.act codec
             (Backpressure.Block (length (Backpressure.producers s))) s1
           = Some (Ok s2)
        /\ s2 = Backpressure.set_producers
                  (Backpressure.producers s ++ [Backpressure.Waiting task])
                  (Backpressure.set_heap heap' s)
        /\ Backpressure.act codec
             (Backpressure.Retest (length (Backpressure.producers s))) s2
           = None)
    /\ (forall i task,
          Backpressure.producers s !! i = Some (Backpressure.Waiting task) ->
          Backpressure.act codec (Backpressure.Retest i) s = None)
    /\ (forall i task,
          Backpressure.producers s !! i = Some (Backpressure.Woken task) ->
          Backpressure.act codec (Backpressure.Retest i) s
          = Some (Ok (Backpressure.set_producers
                        (<[i := Backpressure.Blocking task]>
                           (Backpressure.producers s)) s)))
    /\ (Backpressure.theWorker s = Backpressure.AtLock
        \/ Backpressure.theWorker s = Backpressure.WWoken ->
        0 < JpegEncoder.maxQueueSize_ (Backpressure.enc s) ->
        exists front rest s1 s2,
          JpegEncoder.queue_ (Backpressure.enc s) = front :: rest
          /\ Backpressure.act codec Backpressure.WorkerLock s = Some (Ok s1)
          /\ s1 = Backpressure.set_worker (Backpressure.Dequeued front)
                    (Backpressure.set_enc
                       (JpegEncoder.set_queue rest (Backpressure.enc s)) s)
          /\ (forall i task,
                Backpressure.producers s !! i
                = Some (Backpressure.Waiting task) ->
                Backpressure.act codec (Backpressure.Retest i) s1 = None)
          /\ Backpressure.act codec Backpressure.WorkerNotify s1
             = Some (Ok s2)
          /\ Backpressure.enc s2 = Backpressure.enc s1
          /\ Backpressure.producers s2
             = Backpressure.wake <$> Backpressure.producers s
          /\ forall i task,
               Backpressure.producers s !! i
               = Some (Backpressure.Waiting task) ->
               exists s3,
                 Backpressure.producers s2 !! i
                 = Some (Backpressure.Woken task)
                 /\ Backpressure.act codec (Backpressure.Retest i) s2
                    = Some (Ok s3)
                 /\ JpegEncoder.queue_ (Backpressure.enc s3) = rest ++ [task]
                 /\ Backpressure.producers s3
                    = <[i := Backpressure.Pushed]> (Backpressure.producers s2)
                 /\ Backpressure.full s3
                 /\ forall j task',
                      j <> i ->
                      Backpressure.producers s !! j
                      = Some (Backpressure.Waiting task') ->
                      Backpressure.act codec (Backpressure.Retest j) s3
                      = Some (Ok (Backpressure.set_producers
                                    (<[j := Backpressure.Blocking task']>
                                       (Backpressure.producers s3)) s3)))
    /\ (forall (s0 s' : Backpressure.sys) (schedule : list Backpressure.action),
          Backpressure.queueLength s0
          <= JpegEncoder.maxQueueSize_ (Backpressure.enc s0) ->
          Backpressure.run codec schedule s0 = Some (Ok s') ->
          Backpressure.queueLength s'
          <= JpegEncoder.maxQueueSize_ (Backpressure.enc s')
          /\ JpegEncoder.maxQueueSize_ (Backpressure.enc s')
             = JpegEncoder.maxQueueSize_ (Backpressure.enc s0))
    /\ (forall (e : JpegEncoder.t) (h : Heap) (maxQueueSize : Z)
               (s' : Backpressure.sys) (schedule : list Backpressure.action),
          JpegEncoder.create codec maxQueueSize = Ok e ->
          0 <= maxQueueSize ->
          Backpressure.run codec schedule (Backpressure.started e h)
          = Some (Ok s') ->
          Backpressure.queueLength s' <= maxQueueSize).
Proof.
  intros codec s c Hrun Hfull Hfree Hreadable.
  unfold Backpressure.full, Backpressure.queueLength in *.
  pose proof (proj1 (lockFree_spec s) Hfree) as [Hnoblock Hworker].
  assert (Hretest : forall s' i,
            (forall task, Backpressure.producers s' !! i
                          <> Some (Backpressure.Woken task)) ->
            Backpressure.act codec (Backpressure.Retest i) s' = None).
  { intros s' i Hnot. cbn [Backpressure.act].
    destruct (Backpressure.producers s' !! i) as [[t|t|task| |]|];
      try reflexivity.
    by destruct (Hnot task). }
  split; [|split; [|split; [|split; [|split]]]].
  - unfold JpegEncoder.encode, JpegEncoder.copyFrame.
    destruct (Z.ltb_spec (Z.of_nat (length (Backpressure.c_yuvData c)))
                (JpegEncoder.dataSize (Backpressure.c_width c)
                   (Backpressure.c_height c))); [lia|].
    unfold make_shared. rewrite bind_Ok. cbn beta iota.
    rewrite enqueue_full by done.
    eexists _, _, _, _. split; [reflexivity|]. split; [reflexivity|].
    split.
    { cbn [Backpressure.act]. rewrite Hfree.
      unfold JpegEncoder.encode, JpegEncoder.copyFrame.
      destruct (Z.ltb_spec (Z.of_nat (length (Backpressure.c_yuvData c)))
                  (JpegEncoder.dataSize (Backpressure.c_width c)
                     (Backpressure.c_height c))); [lia|].
      unfold make_shared. rewrite bind_Ok. cbn beta iota.
      rewrite enqueue_full by done. reflexivity. }
    split; [by destruct s|]. split.
    { cbn [Backpressure.act Backpressure.producers Backpressure.set_producers].
      rewrite lookup_app_r by lia. rewrite Nat.sub_diag. cbn.
      rewrite insert_app_r_alt by lia. rewrite Nat.sub_diag. reflexivity. }
    split; [reflexivity|].
    apply Hretest. intros task. cbn.
    rewrite lookup_app_r by lia. rewrite Nat.sub_diag. cbn. congruence.
  - intros i task Hi. apply Hretest. intros task'. rewrite Hi. congruence.
  - intros i task Hi. cbn [Backpressure.act]. rewrite Hi, Hfree.
    by rewrite enqueue_full.
  - intros Hw Hpos.
    destruct (JpegEncoder.queue_ (Backpressure.enc s)) as [|front rest] eqn:Eq;
      [cbn in Hfull; lia|].
    cbn [length] in Hfull.
    assert (Hlock : Backpressure.act codec Backpressure.WorkerLock s
                    = Some (Ok (Backpressure.set_worker
                                  (Backpressure.Dequeued front)
                                  (Backpressure.set_enc
                                     (JpegEncoder.set_queue rest
                                        (Backpressure.enc s)) s)))).
    { cbn [Backpressure.act]. unfold JpegEncoder.dequeue.
      rewrite Hfree, Hrun, Eq. by destruct Hw as [-> | ->]. }
    eexists front, rest, _, _. split; [reflexivity|].
    split; [exact Hlock|]. split; [reflexivity|]. split.
    { intros i task Hi. apply Hretest. intros task'. cbn. rewrite Hi.
      congruence. }
    split; [reflexivity|]. split; [reflexivity|]. split; [reflexivity|].
    intros i task Hi.
    assert (Hwoken : forall k t,
              Backpressure.producers s !! k = Some (Backpressure.Waiting t) ->
              (Backpressure.wake <$> Backpressure.producers s) !! k
              = Some (Backpressure.Woken t)).
    { intros k t Hk. by rewrite list_lookup_fmap, Hk. }
    assert (Hwake : forall k t,
              (Backpressure.wake <$> Backpressure.producers s) !! k
              <> Some (Backpressure.Blocking t)).
    { intros k t Hk. apply wake_lookup in Hk. by apply (Hnoblock k t). }
    eexists. split; [by apply Hwoken|]. split.
    { cbn [Backpressure.act Backpressure.notifyAll Backpressure.producers
             Backpressure.set_producers Backpressure.set_worker
             Backpressure.set_enc Backpressure.theWorker Backpressure.enc
             Backpressure.heap Backpressure.stopping Backpressure.delivered
             Backpressure.wakeWorker].
      rewrite (Hwoken i task Hi).
      match goal with
      | |- context [Backpressure.lockFree ?x] =>
          assert (Hf : Backpressure.lockFree x = true)
            by (apply lockFree_spec; split; [exact Hwake | discriminate]);
          rewrite Hf
      end.
      rewrite enqueue_space; [reflexivity | exact Hrun |].
      cbn. lia. }
    split; [reflexivity|]. split; [reflexivity|]. split.
    { cbn. rewrite length_app. cbn. lia. }
    intros j task' Hne Hj.
    assert (Hj3 : <[i := Backpressure.Pushed]>
                    (Backpressure.wake <$> Backpressure.producers s) !! j
                  = Some (Backpressure.Woken task')).
    { rewrite list_lookup_insert_ne by done. by apply Hwoken. }
    cbn [Backpressure.act Backpressure.notifyAll Backpressure.producers
           Backpressure.set_producers Backpressure.set_worker
           Backpressure.set_enc Backpressure.theWorker Backpressure.enc
           Backpressure.heap Backpressure.stopping Backpressure.delivered
           Backpressure.wakeWorker Backpressure.entered].
    rewrite Hj3.
    assert (Hins : forall k t,
              <[i := Backpressure.Pushed]>
                (Backpressure.wake <$> Backpressure.producers s) !! k
              <> Some (Backpressure.Blocking t)).
    { intros k t Hk.
      destruct (decide (k = i)) as [->|Hki].
      * apply list_lookup_insert_Some in Hk as [(_ & Heq & _)|[? _]];
          [discriminate | done].
      * rewrite list_lookup_insert_ne in Hk by done. by apply (Hwake k t). }
    match goal with
    | |- context [Backpressure.lockFree ?x] =>
        assert (Hf : Backpressure.lockFree x = true)
          by (apply lockFree_spec; split; [exact Hins | discriminate]);
        rewrite Hf
    end.
    rewrite enqueue_full; [reflexivity | exact Hrun |].
    cbn. rewrite length_app. cbn. lia.
  - intros s0 s' schedule Hle Hs'. by eapply run_bound.
  - intros e h maxQueueSize s' schedule Hcreate Hpos Hs'.
    unfold JpegEncoder.create in Hcreate.
    destruct (tj_initCompress codec); [|discriminate].
    injection Hcreate as <-.
    apply run_bound in Hs' as [Hle Hmax];
      [|unfold Backpressure.queueLength; cbn; lia].
    unfold Backpressure.queueLength in Hle |- *. cbn in Hmax. lia.
Qed.

Lemma C9_backpressure_witness :
  JpegEncoder.running_ (Backpressure.enc Sample.fullSys) = true
  /\ Backpressure.full Sample.fullSys
  /\ Backpressure.lockFree Sample.fullSys = true
  /\ (exists s1 s2 s3,
        Backpressure.act Sample.codec Backpressure.WorkerLock Sample.fullSys
        = Some (Ok s1)
        /\ Backpressure.act Sample.codec Backpressure.WorkerNotify s1
           = Some (Ok s2)
        /\ Backpressure.act Sample.codec (Backpressure.Retest 1) s2
           = Some (Ok s3)
        /\ JpegEncoder.queue_ (Backpressure.enc s3)
           = [Sample.task 2; Sample.task 5]
        /\ exists s4,
             Backpressure.act Sample.codec (Backpressure.Retest 0) s3
             = Some (Ok s4)
             /\ Backpressure.producers s4
                = [Backpressure.Blocking (Sample.task 3);
                   Backpressure.Pushed])
  /\ exists task heap' s1 s2,
       JpegEncoder.encode
         (Backpressure.c_yuvData Sample.frameCall)
         (Backpressure.c_width Sample.frameCall)
         (Backpressure.c_height Sample.frameCall)
         (Backpressure.c_quality Sample.frameCall)
         (Backpressure.c_timestamp Sample.frameCall)
         (Backpressure.c_sequence Sample.frameCall)
         (Backpressure.c_callback Sample.frameCall)
         (Backpressure.heap Sample.fullSys) (Backpressure.enc Sample.fullSys)
       = Ok (JpegEncoder.Blocked, task, heap', Backpressure.enc Sample.fullSys)
       /\ task = JpegEncoder.mkTask (length (Backpressure.heap Sample.fullSys))
                   (Backpressure.c_width Sample.frameCall)
                   (Backpressure.c_height Sample.frameCall)
                   (Backpressure.c_quality Sample.frameCall)
                   (Backpressure.c_timestamp Sample.frameCall)
                   (Backpressure.c_sequence Sample.frameCall)
                   (Backpressure.c_callback Sample.frameCall)
       /\ Backpressure.act Sample.codec (Backpressure.Call Sample.frameCall)
            Sample.fullSys = Some (Ok s1)
       /\ s1 = Backpressure.set_producers
                 (Backpressure.producers Sample.fullSys
                  ++ [Backpressure.Blocking task])
                 (Backpressure.set_heap heap' Sample.fullSys)
       /\ Backpressure.act Sample.codec
            (Backpressure.Block (length (Backpressure.producers Sample.fullSys)))
            s1
          = Some (Ok s2)
       /\ s2 = Backpressure.set_producers
                 (Backpressure.producers Sample.fullSys
                  ++ [Backpressure.Waiting task])
                 (Backpressure.set_heap heap' Sample.fullSys)
       /\ Backpressure.act Sample.codec
            (Backpressure.Retest (length (Backpressure.producers Sample.fullSys)))
            s2
          = None.
Proof.
  split; [reflexivity|]. split; [reflexivity|]. split; [reflexivity|].
  split.
  { eexists _, _, _. split; [vm_compute; reflexivity|].
    split; [vm_compute; reflexivity|]. split; [vm_compute; reflexivity|].
    split; [vm_compute; reflexivity|].
    eexists. split; vm_compute; reflexivity. }
  refine (proj1 (C9_backpressure Sample.codec Sample.fullSys
                   Sample.frameCall _ _ _ _)).
  - reflexivity.
  - reflexivity.
  - reflexivity.
  - vm_compute. discriminate.
Defined.

(** ** Stopping the orchestrator *)

Section StopFacts.
Import CameraManager.

Lemma stop_not_running st : running_ st = false -> stop st = Ok st.
Proof. unfold stop. by intros ->. Qed.

Lemma stop_result st st' :
  stop st = Ok st' -> running_ st' = false /\ (running_ st = false -> st' = st).
Proof.
  unfold stop. intros H. destruct (running_ st) eqn:Hrun; cbn in H.
  - cbn [camera_ jpegEncoder_ streamManager_ set_running] in H.
    destruct (camera_ st); [|discriminate].
    destruct (jpegEncoder_ st); [|discriminate].
    destruct (streamManager_ st); [|discriminate].
    cbn in H. injection H as <-. split; [reflexivity | discriminate].
  - injection H as <-. split; [exact Hrun | reflexivity].
Qed.

Lemma stop_holding st :
  holdsResources st -> exists st', stop st = Ok st'.
Proof.
  unfold holdsResources, stop. intros Hwf.
  destruct (running_ st) eqn:Hrun; [|by eexists].
  destruct (Hwf eq_refl) as ([cam Hcam] & [enc Henc] & [sm Hsm]).
  cbn [negb camera_ jpegEncoder_ streamManager_ set_running set_jpegEncoder
         set_streamManager].
  rewrite Hcam, Henc, Hsm. cbn. by eexists.
Qed.

(** A state that differs only by pointers that were set and is running
    no more than before still holds its resources. *)
Lemma holds_after st st' :
  holdsResources st ->
  (running_ st' = true -> running_ st = true) ->
  (is_Some (camera_ st) -> is_Some (camera_ st')) ->
  (is_Some (jpegEncoder_ st) -> is_Some (jpegEncoder_ st')) ->
  (is_Some (streamManager_ st) -> is_Some (streamManager_ st')) ->
  holdsResources st'.
Proof.
  unfold holdsResources. intros Hwf Hrun Hcam Henc Hsm Hrun'.
  destruct (Hwf (Hrun Hrun')) as (? & ? & ?). auto.
Qed.

Lemma initialize_holds dev codec config st ok st' :
  holdsResources st ->
  initialize dev codec config st = Ok (ok, st') ->
  holdsResources st'.
Proof.
  unfold initialize. intros Hwf H.
  destruct (dev_managerStart dev <? 0).
  { injection H as <- <-. by apply (holds_after st). }
  destruct (dev_cameras dev).
  { injection H as <- <-. by apply (holds_after st). }
  destruct (negb (dev_acquire dev =? 0)).
  { injection H as <- <-. apply (holds_after st); cbn; eauto. }
  destruct (StreamManager.configure dev (rawStream config) (streams config)
              StreamManager.init) as [[ok1 sm]|]; [|discriminate].
  rewrite bind_Ok in H. destruct (negb ok1).
  { injection H as <- <-. apply (holds_after st); cbn; eauto. }
  destruct (JpegEncoder.create codec (jpegEncoderQueueSize config));
    [|discriminate].
  rewrite bind_Ok in H. injection H as <- <-.
  apply (holds_after st); cbn; eauto.
Qed.

Lemma start_holds dev frameCallback errorCallback st ok st' effects :
  holdsResources st ->
  start dev frameCallback errorCallback st = Ok (ok, st', effects) ->
  holdsResources st' /\ (ok = false -> running_ st' = running_ st).
Proof.
  unfold start. intros Hwf H.
  cbn [streamManager_ jpegEncoder_ camera_ errorCallback_ set_callbacks] in H.
  destruct (streamManager_ st) as [sm|] eqn:Esm; [|discriminate].
  cbn [deref] in H. rewrite bind_Ok in H.
  destruct (StreamManager.allocateBuffers dev sm) as [[ok1 sm1]|];
    [|discriminate].
  rewrite bind_Ok in H. destruct ok1; cbn [negb] in H.
  - cbn [streamManager_ jpegEncoder_ camera_ errorCallback_ controlManager_
           initialControls_ set_streamManager set_callbacks set_jpegEncoder
           set_camera set_initialControls] in H.
    destruct (jpegEncoder_ st) as [enc|] eqn:Eenc; [|discriminate].
    cbn [deref] in H. rewrite bind_Ok in H.
    destruct (camera_ st) as [cam|] eqn:Ecam; [|discriminate].
    cbn [deref] in H. rewrite bind_Ok in H.
    destruct (dev_start dev <? 0).
    + destruct errorCallback; [|discriminate].
      cbn in H. injection H as <- <- <-.
      split; [|reflexivity]. apply (holds_after st); cbn; eauto.
    + destruct (applyToRequests _ _ _) as [[cm requests]|]; [|discriminate].
      rewrite bind_Ok in H. injection H as <- <- <-.
      split; [|discriminate]. intros _. cbn. eauto.
  - destruct errorCallback; [|discriminate].
    cbn in H. injection H as <- <- <-.
    split; [|reflexivity]. apply (holds_after st); cbn; eauto.
Qed.

Lemma stop_holds st st' :
  stop st = Ok st' -> holdsResources st'.
Proof.
  intros H. apply stop_result in H as [Hrun _].
  unfold holdsResources. rewrite Hrun. discriminate.
Qed.

Lemma setControls_holds controls st :
  holdsResources st -> holdsResources (setControls controls st).2.
Proof.
  intros Hwf. unfold setControls.
  destruct (jpegQuality controls); by apply (holds_after st).
Qed.

Lemma requestComplete_holds request st st' request' effects :
  holdsResources st ->
  requestComplete request st = Ok (st', request', effects) ->
  holdsResources st'.
Proof.
  unfold requestComplete. intros Hwf H.
  destruct (bool_decide (rq_status request = RequestCancelled)).
  { by injection H as <- <- <-. }
  destruct (applyPending request st) as [[st1 request1]|] eqn:E;
    [|discriminate].
  rewrite bind_Ok in H.
  destruct (processBuffers _ _ _ _); [|discriminate].
  rewrite bind_Ok in H.
  destruct (camera_ st1); [|discriminate].
  cbn [deref] in H. rewrite bind_Ok in H. injection H as <- <- <-.
  unfold applyPending in E.
  destruct (pendingControls_ st) as [controls|].
  - destruct (controlManager_ st) as [cm|]; [|discriminate].
    cbn [deref] in E. rewrite bind_Ok in E.
    destruct (ControlManager.applyControls _ _ _) as [[cm' cl]|];
      [|discriminate].
    rewrite bind_Ok in E. injection E as <- <-.
    by apply (holds_after st).
  - by injection E as <- <-.
Qed.

Lemma reachable_holds st : reachable st -> holdsResources st.
Proof.
  induction 1.
  - unfold holdsResources. discriminate.
  - by eapply initialize_holds.
  - by eapply start_holds.
  - by eapply stop_holds.
  - by apply setControls_holds.
  - by eapply requestComplete_holds.
Qed.

End StopFacts.

(** C8. In every state the orchestrator can be in, [stop] returns; the
    state it leaves is not running and a second [stop] changes nothing;
    when the orchestrator was not running, the first [stop] changes
    nothing either.  After a [start] that reported failure on an
    orchestrator that was not running, [stop] is such a no-op. *)
Theorem C8_stop_idempotent :
  forall st : CameraManager.Impl,
    reachable st ->
    exists st',
      CameraManager.stop st = Ok st'
      /\ CameraManager.running_ st' = false
      /\ CameraManager.stop st' = Ok st'
      /\ (CameraManager.running_ st = false -> st' = st)
      /\ forall dev frameCallback errorCallback st1 effects,
           CameraManager.running_ st = false ->
           CameraManager.start dev frameCallback errorCallback st
           = Ok (false, st1, effects) ->
           CameraManager.stop st1 = Ok st1.
Proof.
  intros st Hreach. pose proof (reachable_holds st Hreach) as Hwf.
  destruct (stop_holding st Hwf) as [st' Hstop].
  exists st'. pose proof (stop_result st st' Hstop) as [Hrun Hnoop].
  split; [exact Hstop|]. split; [exact Hrun|].
  split; [by apply stop_not_running|]. split; [exact Hnoop|].
  intros dev frameCallback errorCallback st1 effects Hidle Hstart.
  apply stop_not_running.
  destruct (start_holds dev frameCallback errorCallback st false st1 effects
              Hwf Hstart) as [_ Hkeep].
  rewrite Hkeep by reflexivity. exact Hidle.
Qed.

Lemma C8_stop_idempotent_witness :
  reachable Sample.started.1.2
  /\ CameraManager.running_ Sample.started.1.2 = true
  /\ exists st',
       CameraManager.stop Sample.started.1.2 = Ok st'
       /\ CameraManager.running_ st' = false
       /\ CameraManager.stop st' = Ok st'
       /\ (CameraManager.running_ Sample.started.1.2 = false ->
           st' = Sample.started.1.2)
       /\ forall dev frameCallback errorCallback st1 effects,
            CameraManager.running_ Sample.started.1.2 = false ->
            CameraManager.start dev frameCallback errorCallback
              Sample.started.1.2
            = Ok (false, st1, effects) ->
            CameraManager.stop st1 = Ok st1.
Proof.
  assert (Hreach : reachable Sample.started.1.2).
  { apply (reach_start Sample.device (Some 1) (Some 2) Sample.initialized.2
             Sample.started.1.1 Sample.started.1.2 Sample.started.2).
    - apply (reach_initialize Sample.device Sample.codec Sample.config
               CameraManager.init Sample.initialized.1 Sample.initialized.2).
      + apply reach_init.
      + vm_compute. reflexivity.
    - vm_compute. reflexivity. }
  split; [exact Hreach|]. split; [vm_compute; reflexivity|].
  apply (C8_stop_idempotent Sample.started.1.2 Hreach).
Defined.

(** * Further properties of the code *)

(** ** The control pipeline over many calls *)

Lemma assignIfSet_None_r {T} (x : option T) : assignIfSet x None = x.
Proof. reflexivity. Qed.

Lemma assignIfSet_None_l {T} (x : option T) : assignIfSet None x = x.
Proof. by destruct x. Qed.

Lemma assignIfSet_assoc {T} (x y z : option T) :
  assignIfSet (assignIfSet x y) z = assignIfSet x (assignIfSet y z).
Proof. by destruct z. Qed.

Lemma assignIfSet_absorb {T} (x y : option T) :
  assignIfSet x (assignIfSet x y) = assignIfSet x y.
Proof. by destruct y, x. Qed.

(** X1. Merging control sets is associative with the empty set as unit:
    merging two deltas one after the other into pending is merging their
    merge, and an empty delta changes nothing. *)
Theorem X1_mergePending_monoid :
  forall p a b : Controls,
    ControlManager.mergePending p Controls_empty = p
    /\ ControlManager.mergePending Controls_empty a = a
    /\ ControlManager.mergePending (ControlManager.mergePending p a) b
       = ControlManager.mergePending p (ControlManager.mergePending a b).
Proof.
  intros p a b. split; [by destruct p|]. split.
  - apply Controls_ext; apply assignIfSet_None_l.
  - apply Controls_ext; apply assignIfSet_assoc.
Qed.

Lemma mergePending_set_afTrigger p c :
  set_afTrigger None (ControlManager.mergePending (set_afTrigger None p) c)
  = set_afTrigger None (ControlManager.mergePending p c).
Proof. reflexivity. Qed.

Lemma promoted_tracks p c :
  afTrigger p = None ->
  promoted (ControlManager.mergePending p c) p
  = set_afTrigger None (ControlManager.mergePending p c).
Proof.
  intros Haf. apply Controls_ext; cbn; try apply assignIfSet_absorb.
  exact Haf.
Qed.

Lemma mergePending_agree q q' c :
  set_afTrigger None q = set_afTrigger None q' ->
  set_afTrigger None (ControlManager.mergePending q c)
  = set_afTrigger None (ControlManager.mergePending q' c).
Proof.
  intros H. unfold set_afTrigger in H. injection H as H1 H2 H3 H4 H5 H6 H7 H8 H9 H10 H11 H12 H13.
  apply Controls_ext; cbn; congruence.
Qed.

Lemma fold_mergePending_agree (l : list Controls) :
  forall q q',
    set_afTrigger None q = set_afTrigger None q' ->
    set_afTrigger None (fold_left ControlManager.mergePending l q)
    = set_afTrigger None (fold_left ControlManager.mergePending l q').
Proof.
  induction l as [|c l IH]; intros q q' H; [exact H|].
  cbn [fold_left]. apply IH. by apply mergePending_agree.
Qed.

Lemma applySequence_tracks (calls : list (Controls * ControlList)) :
  forall st : ControlManager.t,
    ControlManager.currentControls_ st = ControlManager.pendingControls_ st ->
    afTrigger (ControlManager.pendingControls_ st) = None ->
    fpsDefined (ControlManager.pendingControls_ st) ->
    Forall (fun call => fpsDefined (fst call)) calls ->
    exists st' outs,
      applySequence calls st = Ok (st', outs)
      /\ ControlManager.currentControls_ st' = ControlManager.pendingControls_ st'
      /\ ControlManager.pendingControls_ st'
         = set_afTrigger None
             (fold_left ControlManager.mergePending (map fst calls)
                (ControlManager.pendingControls_ st)).
Proof.
  induction calls as [|[controls request] rest IH]; intros st Heq Haf Hfps Hall.
  - exists st, []. split; [reflexivity|]. split; [exact Heq|].
    cbn. destruct (ControlManager.pendingControls_ st); cbn in *; by subst.
  - apply Forall_cons in Hall as [Hc Hrest]. cbn [fst] in Hc.
    assert (Hmerged : fpsDefined (ControlManager.mergePending
                        (ControlManager.pendingControls_ st) controls)).
    { unfold fpsDefined in *. cbn.
      destruct (targetFps controls); cbn; assumption. }
    cbn [applySequence]. rewrite applyControls_ok by exact Hmerged.
    rewrite bind_Ok, Heq, promoted_tracks by exact Haf.
    set (p := ControlManager.mergePending
                (ControlManager.pendingControls_ st) controls) in *.
    destruct (IH {| ControlManager.currentControls_ := set_afTrigger None p;
                    ControlManager.pendingControls_ := set_afTrigger None p |})
      as (st' & outs & Hrun & Heq' & Hpend');
      [reflexivity | reflexivity | exact Hmerged | exact Hrest |].
    rewrite Hrun, bind_Ok. eexists _, _. split; [reflexivity|].
    split; [exact Heq'|]. rewrite Hpend'. cbn [map fst fold_left].
    cbn [ControlManager.pendingControls_]. fold p.
    apply fold_mergePending_agree. reflexivity.
Qed.

(** X2. From construction on, after any sequence of [applyControls] calls
    the current set equals the pending set, and both are the merge of all
    control sets handed in so far, in order, with the af-trigger removed:
    [getCurrentControls] reports every value ever applied and never an
    af-trigger. *)
Theorem X2_current_tracks_pending :
  forall calls : list (Controls * ControlList),
    Forall (fun call => fpsDefined (fst call)) calls ->
    exists st' outs,
      applySequence calls ControlManager.init = Ok (st', outs)
      /\ ControlManager.getCurrentControls st'
         = ControlManager.pendingControls_ st'
      /\ ControlManager.getCurrentControls st'
         = set_afTrigger None
             (fold_left ControlManager.mergePending (map fst calls)
                Controls_empty)
      /\ afTrigger (ControlManager.getCurrentControls st') = None.
Proof.
  intros calls Hall.
  destruct (applySequence_tracks calls ControlManager.init)
    as (st' & outs & Hrun & Heq & Hpend); try done.
  exists st', outs. unfold ControlManager.getCurrentControls.
  split; [exact Hrun|]. split; [exact Heq|]. split.
  - rewrite Heq. exact Hpend.
  - rewrite Heq, Hpend. reflexivity.
Qed.

Lemma X2_current_tracks_pending_witness :
  exists st' outs,
    applySequence
      [(set_exposureTime (Some 10000) Controls_empty, []);
       (set_afTrigger (Some 0) (set_exposureTime (Some 20000) Controls_empty), [])]
      ControlManager.init = Ok (st', outs)
    /\ ControlManager.getCurrentControls st'
       = ControlManager.pendingControls_ st'
    /\ ControlManager.getCurrentControls st'
       = set_afTrigger None
           (fold_left ControlManager.mergePending
              (map fst
                 [(set_exposureTime (Some 10000) Controls_empty, [] : ControlList);
                  (set_afTrigger (Some 0)
                     (set_exposureTime (Some 20000) Controls_empty), [])])
              Controls_empty)
    /\ afTrigger (ControlManager.getCurrentControls st') = None.
Proof.
  apply (X2_current_tracks_pending
           [(set_exposureTime (Some 10000) Controls_empty, []);
            (set_afTrigger (Some 0)
               (set_exposureTime (Some 20000) Controls_empty), [])]).
  repeat constructor; unfold fpsDefined; cbn; discriminate.
Defined.

Lemma filter_optWrite_keep {T} id (o : option T) inj :
  id <> AfTrigger ->
  filter (fun e : ControlId * ControlValue => fst e <> AfTrigger)
    (optWrite o id inj) = optWrite o id inj.
Proof.
  intros Hne. destruct o; [|reflexivity]. unfold optWrite.
  rewrite filter_cons_True; [reflexivity | exact Hne].
Qed.

Lemma filter_optWrite_drop {T} (o : option T) inj :
  filter (fun e : ControlId * ControlValue => fst e <> AfTrigger)
    (optWrite o AfTrigger inj) = [].
Proof.
  destruct o; [|reflexivity]. unfold optWrite.
  rewrite filter_cons_False; [reflexivity | by intros H].
Qed.

Lemma writes_without_afTrigger p :
  deviceWrites (set_afTrigger None p) ++ fpsWrites (set_afTrigger None p)
  = filter (fun e : ControlId * ControlValue => fst e <> AfTrigger)
      (deviceWrites p ++ fpsWrites p).
Proof.
  unfold deviceWrites, fpsWrites. rewrite !filter_app.
  rewrite filter_optWrite_drop.
  rewrite !filter_optWrite_keep by discriminate.
  reflexivity.
Qed.

Lemma promoted_idem p c :
  promoted (set_afTrigger None p) (promoted p c) = promoted p c.
Proof.
  apply Controls_ext; cbn; try reflexivity;
    match goal with
    | |- assignIfSet (assignIfSet ?x ?y) ?y = _ => by destruct y
    end.
Qed.

Lemma mergePending_empty_r q :
  ControlManager.mergePending q Controls_empty = q.
Proof. by destruct q. Qed.

(** X3. Controls are sticky: once a call has applied a control set, a
    later call with an empty control set leaves the manager unchanged and
    writes onto its request every entry the earlier call wrote, in the same
    order, except the af-trigger. *)
Theorem X3_empty_call_rewrites_previous :
  forall (controls : Controls) (request request2 : ControlList)
         (st : ControlManager.t),
    fpsDefined (ControlManager.mergePending
                  (ControlManager.pendingControls_ st) controls) ->
    exists st1 written,
      ControlManager.applyControls controls request st
      = Ok (st1, request ++ written)
      /\ ControlManager.applyControls Controls_empty request2 st1
         = Ok (st1,
               request2
               ++ filter (fun e : ControlId * ControlValue => fst e <> AfTrigger)
                    written).
Proof.
  intros controls request request2 st Hfps.
  set (p := ControlManager.mergePending
              (ControlManager.pendingControls_ st) controls) in *.
  eexists _, (deviceWrites p ++ fpsWrites p).
  split; [by apply applyControls_ok|].
  rewrite applyControls_ok.
  - cbn [ControlManager.pendingControls_ ControlManager.currentControls_].
    rewrite mergePending_empty_r, promoted_idem, <- writes_without_afTrigger.
    reflexivity.
  - exact Hfps.
Qed.

Lemma X3_empty_call_rewrites_previous_witness :
  exists st1 written,
    ControlManager.applyControls
      (set_afTrigger (Some 0) (set_exposureTime (Some 10000) Controls_empty))
      [] ControlManager.init
    = Ok (st1, [] ++ written)
    /\ ControlManager.applyControls Controls_empty [] st1
       = Ok (st1,
             []
             ++ filter (fun e : ControlId * ControlValue => fst e <> AfTrigger)
                  written).
Proof.
  apply (X3_empty_call_rewrites_previous
           (set_afTrigger (Some 0) (set_exposureTime (Some 10000) Controls_empty))
           [] [] ControlManager.init).
  unfold fpsDefined. cbn. discriminate.
Defined.

(** ** More on the completion handler *)

Section CompletionMore.
Import CameraManager.

(** X4. A target-fps of 0 handed to [setControls] makes the next
    completed request divide by zero inside [applyControls]. *)
Theorem X4_target_fps_zero_faults :
  forall (controls : Controls) (request : Request) (st : Impl)
         (cm : ControlManager.t),
    targetFps controls = Some 0 ->
    controlManager_ st = Some cm ->
    rq_status request <> RequestCancelled ->
    requestComplete request (setControls controls st).2 = Fault DivByZero.
Proof.
  intros controls request st cm Hfps Hcm Hstatus.
  unfold requestComplete.
  rewrite bool_decide_eq_false_2 by exact Hstatus.
  unfold applyPending, setControls.
  destruct (jpegQuality controls);
    cbn [snd pendingControls_ controlManager_ set_pendingControls
           set_jpegQuality_];
    rewrite Hcm; cbn [deref]; rewrite bind_Ok;
    (rewrite applyControls_zero; [reflexivity|]);
    cbn; by rewrite Hfps.
Qed.

Lemma X4_target_fps_zero_faults_witness :
  requestComplete Sample.completed
    (setControls (set_targetFps (Some 0) Controls_empty) Sample.orchestrator).2
  = Fault DivByZero.
Proof.
  apply (X4_target_fps_zero_faults (set_targetFps (Some 0) Controls_empty)
           Sample.completed Sample.orchestrator ControlManager.init).
  - reflexivity.
  - reflexivity.
  - cbn. discriminate.
Defined.

(** The completion handler once the pending controls are dealt with. *)
Lemma timestamp_read request :
  wrap64 (match rq_timestamp request with
          | Some ts => ts
          | None => 0
          end)
  = (rq_sequence_timestamp request).2.
Proof. unfold rq_sequence_timestamp. by destruct (rq_timestamp request). Qed.

Lemma length_bufferEntries (buffers : gmap Z Z) :
  length (bufferEntries buffers) = size buffers.
Proof. by rewrite bufferEntries_perm, length_map_to_list. Qed.

Lemma requestComplete_ok request st st1 request1 es :
  rq_status request <> RequestCancelled ->
  applyPending request st = Ok (st1, request1) ->
  is_Some (camera_ st) ->
  processBuffers st1 (rq_sequence_timestamp request1).2
    (rq_sequence_timestamp request1).1 (bufferEntries (rq_buffers request))
  = Ok es ->
  requestComplete request st
  = Ok (st1, request1,
        es ++ [Reuse (rq_cookie request); QueueRequest (rq_cookie request)]).
Proof.
  intros Hstatus Hpending [cam Hcam] Hes. unfold requestComplete.
  rewrite bool_decide_eq_false_2 by exact Hstatus.
  rewrite Hpending, bind_Ok.
  pose proof Hpending as Hkeep.
  apply applyPending_keeps in Hkeep as (Hsm1 & Hbufs & Hcookie).
  rewrite timestamp_read, Hbufs.
  unfold rq_sequence_timestamp in Hes |- *. cbn [fst snd] in Hes |- *.
  rewrite Hes, bind_Ok.
  assert (Hcam1 : camera_ st1 = camera_ st).
  { unfold applyPending in Hpending.
    destruct (pendingControls_ st).
    - destruct (controlManager_ st); [|discriminate].
      cbn [deref] in Hpending. rewrite bind_Ok in Hpending.
      destruct (ControlManager.applyControls _ _ _) as [[? ?]|]; [|discriminate].
      rewrite bind_Ok in Hpending. by injection Hpending as <- <-.
    - by injection Hpending as <- <-. }
  rewrite Hcam1, Hcam. cbn [deref]. rewrite bind_Ok, Hcookie. reflexivity.
Qed.

Lemma processBuffers_app st timestamp sequence l1 l2 :
  processBuffers st timestamp sequence (l1 ++ l2)
  = (es1 ← processBuffers st timestamp sequence l1;
     es2 ← processBuffers st timestamp sequence l2;
     mret (es1 ++ es2)).
Proof.
  induction l1 as [|e l1 IH].
  - cbn. by destruct (processBuffers st timestamp sequence l2).
  - cbn [app processBuffers]. rewrite IH.
    destruct (streamManager_ st) as [sm|]; [|reflexivity].
    cbn [deref]. rewrite !bind_Ok.
    destruct (processBuffer sm st timestamp sequence e) as [es|]; [|reflexivity].
    rewrite !bind_Ok.
    destruct (processBuffers st timestamp sequence l1) as [es1|];
      [|reflexivity].
    rewrite !bind_Ok.
    destruct (processBuffers st timestamp sequence l2) as [es2|];
      [|reflexivity].
    rewrite !bind_Ok. cbn. by rewrite app_assoc.
Qed.

Lemma processBuffer_skipped sm st timestamp sequence entry :
  skipped sm entry ->
  processBuffer sm st timestamp sequence entry = Ok [].
Proof.
  destruct entry as [stream buffer]. unfold skipped, processBuffer. cbn.
  intros [Hraw|Hnull].
  - by rewrite Hraw.
  - rewrite Hnull. by destruct (StreamManager.getStreamType sm stream).
Qed.

Lemma processBuffers_skipped sm st timestamp sequence entries :
  streamManager_ st = Some sm ->
  Forall (skipped sm) entries ->
  processBuffers st timestamp sequence entries = Ok [].
Proof.
  intros Hsm. induction 1 as [|e rest He _ IH]; [reflexivity|].
  rewrite (processBuffers_cons sm) by exact Hsm.
  by rewrite processBuffer_skipped, IH.
Qed.

(** The entries of a request that has one buffer besides skipped ones. *)
Lemma processBuffers_single sm st timestamp sequence stream buffer
    (others : gmap Z Z) es :
  streamManager_ st = Some sm ->
  others !! stream = None ->
  (forall s b, others !! s = Some b -> skipped sm (s, b)) ->
  processBuffer sm st timestamp sequence (stream, buffer) = Ok es ->
  processBuffers st timestamp sequence
    (bufferEntries (<[stream := buffer]> others)) = Ok es.
Proof.
  intros Hsm Hfresh Hothers Hone.
  assert (Hin : (stream, buffer) ∈ bufferEntries (<[stream := buffer]> others)).
  { apply elem_of_bufferEntries. apply lookup_insert_eq. }
  destruct (list_elem_of_split _ _ Hin) as (l1 & l2 & Hsplit).
  assert (Hnodup : NoDup (bufferEntries (<[stream := buffer]> others)).*1).
  { rewrite bufferEntries_perm. apply NoDup_fst_map_to_list. }
  assert (Hrest : forall e, e ∈ l1 ++ l2 -> skipped sm e).
  { intros [s b] He.
    assert (Hlook : <[stream := buffer]> others !! s = Some b).
    { apply elem_of_bufferEntries. rewrite Hsplit.
      apply elem_of_app in He as [He|He];
        apply elem_of_app; [by left | right; by right]. }
    destruct (decide (s = stream)) as [->|Hne].
    - exfalso. rewrite Hsplit, fmap_app, fmap_cons in Hnodup.
      apply NoDup_app in Hnodup as (_ & Hdisj & Hnd2). cbn in Hdisj, Hnd2.
      apply NoDup_cons in Hnd2 as [Hnotin _].
      apply elem_of_app in He as [He|He].
      + apply (Hdisj stream); [|by left].
        apply list_elem_of_fmap. by exists (stream, b).
      + apply Hnotin. apply list_elem_of_fmap. by exists (stream, b).
    - rewrite lookup_insert_ne in Hlook by done. by apply Hothers. }
  rewrite Hsplit, processBuffers_app.
  rewrite (processBuffers_skipped sm st timestamp sequence l1 Hsm).
  2:{ apply Forall_forall. intros e He. apply Hrest. rewrite elem_of_app. by left. }
  rewrite bind_Ok. rewrite (processBuffers_cons sm) by exact Hsm.
  rewrite Hone, bind_Ok.
  rewrite (processBuffers_skipped sm st timestamp sequence l2 Hsm).
  2:{ apply Forall_forall. intros e He. apply Hrest. rewrite elem_of_app. by right. }
  rewrite !bind_Ok. cbn. by rewrite app_nil_r.
Qed.

Lemma processBuffers_deliveries st timestamp sequence entries es :
  processBuffers st timestamp sequence entries = Ok es ->
  Forall isDelivery es /\ (length es <= length entries)%nat.
Proof.
  revert es. induction entries as [|[stream buffer] rest IH]; intros es H.
  - injection H as <-. split; [constructor | done].
  - cbn [processBuffers] in H.
    destruct (streamManager_ st) as [sm|]; [|discriminate].
    cbn [deref] in H. rewrite bind_Ok in H.
    destruct (processBuffer sm st timestamp sequence (stream, buffer))
      as [es1|] eqn:E1; [|discriminate].
    rewrite bind_Ok in H.
    destruct (processBuffers st timestamp sequence rest) as [es2|];
      [|discriminate].
    rewrite bind_Ok in H. injection H as <-.
    destruct (IH es2 eq_refl) as [Hall Hlen].
    assert (H1 : Forall isDelivery es1 /\ (length es1 <= 1)%nat).
    { unfold processBuffer in E1.
      destruct (StreamManager.getStreamType sm stream);
        destruct (StreamManager.getMappedData sm buffer =? 0);
        try (injection E1 as <-; split; [constructor | cbn; lia]).
      - destruct (jpegEncoder_ st); [|discriminate]. cbn in E1.
        injection E1 as <-. split; [by repeat constructor | cbn; lia].
      - destruct (frameCallback_ st); [|discriminate]. cbn in E1.
        injection E1 as <-. split; [by repeat constructor | cbn; lia]. }
    destruct H1 as [Hall1 Hlen1]. split.
    + by apply Forall_app.
    + rewrite length_app. cbn. lia.
Qed.

Lemma applyPending_clears request st st1 request1 :
  applyPending request st = Ok (st1, request1) ->
  pendingControls_ st1 = None.
Proof.
  unfold applyPending. intros H.
  destruct (pendingControls_ st) as [controls|] eqn:E.
  - destruct (controlManager_ st); [|discriminate].
    cbn [deref] in H. rewrite bind_Ok in H.
    destruct (ControlManager.applyControls _ _ _) as [[? ?]|]; [|discriminate].
    rewrite bind_Ok in H. by injection H as <- <-.
  - by injection H as <- <-.
Qed.

(** X5. A cancelled completion changes nothing, delivers nothing and does
    not requeue its request.  Any other completion that returns leaves no
    controls pending in the orchestrator and ends by reusing and requeueing
    the request exactly once, after at most one delivery per buffer of the
    request. *)
Theorem X5_completion_recycles :
  forall (request request' : Request) (st st' : Impl) (effects : list Effect),
    requestComplete request st = Ok (st', request', effects) ->
    if bool_decide (rq_status request = RequestCancelled)
    then st' = st /\ request' = request /\ effects = []
    else pendingControls_ st' = None
         /\ exists deliveries,
              effects = deliveries ++ [Reuse (rq_cookie request);
                                       QueueRequest (rq_cookie request)]
              /\ Forall isDelivery deliveries
              /\ (length deliveries <= size (rq_buffers request))%nat.
Proof.
  intros request request' st st' effects H. unfold requestComplete in H.
  destruct (bool_decide (rq_status request = RequestCancelled)).
  { by injection H as <- <- <-. }
  destruct (applyPending request st) as [[st1 request1]|] eqn:E;
    [|discriminate].
  rewrite bind_Ok in H.
  destruct (processBuffers st1 _ _ _) as [es|] eqn:Ees; [|discriminate].
  rewrite bind_Ok in H.
  destruct (camera_ st1); [|discriminate].
  cbn [deref] in H. rewrite bind_Ok in H. injection H as <- <- <-.
  pose proof (applyPending_keeps _ _ _ _ E) as (_ & Hbufs & Hcookie).
  split; [by eapply applyPending_clears|].
  exists es. rewrite Hcookie. split; [reflexivity|].
  apply processBuffers_deliveries in Ees as [Hall Hlen].
  split; [exact Hall|]. by rewrite length_bufferEntries, Hbufs in Hlen.
Qed.

Lemma X5_completion_recycles_witness :
  requestComplete Sample.completed Sample.orchestrator
  = Ok (Sample.afterCompletion.1.1, Sample.afterCompletion.1.2,
        Sample.afterCompletion.2)
  /\ (if bool_decide (rq_status Sample.completed = RequestCancelled)
      then Sample.afterCompletion.1.1 = Sample.orchestrator
           /\ Sample.afterCompletion.1.2 = Sample.completed
           /\ Sample.afterCompletion.2 = []
      else pendingControls_ Sample.afterCompletion.1.1 = None
           /\ exists deliveries,
                Sample.afterCompletion.2
                = deliveries ++ [Reuse (rq_cookie Sample.completed);
                                 QueueRequest (rq_cookie Sample.completed)]
                /\ Forall isDelivery deliveries
                /\ (length deliveries <= size (rq_buffers Sample.completed))%nat).
Proof.
  split; [vm_compute; reflexivity|].
  apply (X5_completion_recycles Sample.completed Sample.afterCompletion.1.2
           Sample.orchestrator Sample.afterCompletion.1.1
           Sample.afterCompletion.2).
  vm_compute. reflexivity.
Defined.

Lemma applyPending_frame request st st1 request1 :
  applyPending request st = Ok (st1, request1) ->
  frameCallback_ st1 = frameCallback_ st
  /\ jpegEncoder_ st1 = jpegEncoder_ st
  /\ jpegQuality_ st1 = jpegQuality_ st
  /\ rq_timestamp request1 = rq_timestamp request
  /\ rq_sequence request1 = rq_sequence request.
Proof.
  unfold applyPending. intros H.
  destruct (pendingControls_ st) as [controls|].
  - destruct (controlManager_ st) as [cm|]; [|discriminate].
    cbn [deref] in H. rewrite bind_Ok in H.
    destruct (ControlManager.applyControls controls (rq_controls request) cm)
      as [[cm' cl]|]; [|discriminate].
    rewrite bind_Ok in H. by injection H as <- <-.
  - by injection H as <- <-.
Qed.

(** X6. A completed request whose only buffer outside RAW streams
    belongs to an RGB stream and is mapped makes the frame callback fire
    exactly once, whatever controls were pending: with type RGB, the
    mapped pointer and size as a borrowed view (no owner), the request's
    sequence number and its sensor timestamp read as an unsigned 64-bit
    number (0 when the metadata has none); then the request is reused
    and requeued. *)
Theorem X6_rgb_frame_delivery :
  forall (request request1 : Request) (st st1 : Impl)
         (sm : StreamManager.t) (cb : Z)
         (stream buffer : Z) (others : gmap Z Z),
    streamManager_ st = Some sm ->
    is_Some (camera_ st) ->
    frameCallback_ st = Some cb ->
    applyPending request st = Ok (st1, request1) ->
    rq_status request <> RequestCancelled ->
    rq_buffers request = <[stream := buffer]> others ->
    others !! stream = None ->
    (forall s b, others !! s = Some b -> StreamManager.getStreamType sm s = RAW) ->
    StreamManager.getStreamType sm stream = RGB ->
    StreamManager.getMappedData sm buffer <> 0 ->
    requestComplete request st
    = Ok (st1, request1,
          [FrameCallback cb RGB
             {| data_ptr := MappedAddr (StreamManager.getMappedData sm buffer);
                data_len := StreamManager.getMappedSize sm buffer;
                timestamp := match rq_timestamp request with
                             | Some ts => ts mod 2 ^ 64
                             | None => 0
                             end;
                sequence := rq_sequence request;
                owner := None |};
           Reuse (rq_cookie request); QueueRequest (rq_cookie request)]).
Proof.
  intros request request1 st st1 sm cb stream buffer others Hsm Hcam Hcb
    Hpend Hstatus Hbufs Hfresh Hothers Hrgb Hmapped.
  pose proof (applyPending_keeps _ _ _ _ Hpend) as (Hsm1 & _ & _).
  pose proof (applyPending_frame _ _ _ _ Hpend) as (Hcb1 & _ & _ & Hts & Hseq).
  rewrite Hsm in Hsm1. rewrite Hcb in Hcb1.
  eapply (requestComplete_ok request st st1 request1
            [FrameCallback cb RGB _]); try done.
  rewrite Hbufs. apply (processBuffers_single sm); [exact Hsm1|exact Hfresh| |].
  - intros s b Hsb. left. by eapply Hothers.
  - unfold processBuffer. rewrite Hrgb.
    destruct (Z.eqb_spec (StreamManager.getMappedData sm buffer) 0); [done|].
    rewrite Hcb1. unfold rq_sequence_timestamp. cbn [fst snd].
    by rewrite Hts, Hseq.
Qed.

Lemma X6_rgb_frame_delivery_witness :
  requestComplete Sample.completedEarly Sample.orchestrator
  = Ok (Sample.orchestrator, Sample.completedEarly,
        [FrameCallback 1 RGB
           {| data_ptr := MappedAddr
                            (StreamManager.getMappedData Sample.streams 20);
              data_len := StreamManager.getMappedSize Sample.streams 20;
              timestamp := match rq_timestamp Sample.completedEarly with
                           | Some ts => ts mod 2 ^ 64
                           | None => 0
                           end;
              sequence := rq_sequence Sample.completedEarly;
              owner := None |};
         Reuse (rq_cookie Sample.completedEarly);
         QueueRequest (rq_cookie Sample.completedEarly)])
  /\ match rq_timestamp Sample.completedEarly with
     | Some ts => ts mod 2 ^ 64
     | None => 0
     end = 18446744073709551615.
Proof.
  split; [|reflexivity].
  apply (X6_rgb_frame_delivery Sample.completedEarly Sample.completedEarly
           Sample.orchestrator Sample.orchestrator
           Sample.streams 1 2 20 {[ 1 := 10 ]}).
  - reflexivity.
  - by eexists.
  - reflexivity.
  - reflexivity.
  - cbn. discriminate.
  - vm_compute. reflexivity.
  - vm_compute. reflexivity.
  - intros s b Hsb. apply lookup_singleton_Some in Hsb as [<- <-].
    vm_compute. reflexivity.
  - vm_compute. reflexivity.
  - vm_compute. discriminate.
Defined.

(** X7. A jpeg quality handed to [setControls] is used by the very next
    completion: for a request whose only buffer outside RAW streams is a
    mapped buffer of the JPEG stream, the handler submits exactly one
    encode call, with the mapped pointer, the cached JPEG dimensions, that
    quality, the request's sensor timestamp read as an unsigned 64-bit
    number (0 when the metadata has none) and its sequence number, and
    requeues the request. *)
Theorem X7_jpeg_submission_uses_new_quality :
  forall (controls : Controls) (q : Z) (request : Request) (st : Impl)
         (cm : ControlManager.t) (sm : StreamManager.t)
         (stream buffer : Z) (others : gmap Z Z),
    jpegQuality controls = Some q ->
    controlManager_ st = Some cm ->
    streamManager_ st = Some sm ->
    is_Some (camera_ st) ->
    is_Some (jpegEncoder_ st) ->
    rq_status request <> RequestCancelled ->
    fpsDefined (ControlManager.mergePending
                  (ControlManager.pendingControls_ cm) controls) ->
    rq_buffers request = <[stream := buffer]> others ->
    others !! stream = None ->
    (forall s b, others !! s = Some b -> StreamManager.getStreamType sm s = RAW) ->
    StreamManager.getStreamType sm stream = JPEG ->
    StreamManager.getMappedData sm buffer <> 0 ->
    exists st' request',
      requestComplete request (setControls controls st).2
      = Ok (st', request',
            [Encode (StreamManager.getMappedData sm buffer)
               (StreamManager.getJpegWidth sm) (StreamManager.getJpegHeight sm)
               q
               (match rq_timestamp request with
                | Some ts => ts mod 2 ^ 64
                | None => 0
                end)
               (rq_sequence request) (frameCallback_ st);
             Reuse (rq_cookie request); QueueRequest (rq_cookie request)]).
Proof.
  intros controls q request st cm sm stream buffer others Hq Hcm Hsm Hcam
    [enc Henc] Hstatus Hfps Hbufs Hfresh Hothers Hjpeg Hmapped.
  set (st0 := (setControls controls st).2).
  assert (Hst0 : st0 = set_pendingControls (Some controls)
                         (set_jpegQuality_ q st)).
  { unfold st0, setControls. by rewrite Hq. }
  eexists _, _.
  eapply (requestComplete_ok request st0 _ _ [Encode _ _ _ _ _ _ _]).
  - exact Hstatus.
  - unfold applyPending. rewrite Hst0.
    cbn [pendingControls_ controlManager_ set_pendingControls set_jpegQuality_].
    rewrite Hcm. cbn [deref].
    rewrite bind_Ok, applyControls_ok by exact Hfps.
    rewrite bind_Ok. reflexivity.
  - by rewrite Hst0.
  - rewrite Hbufs.
    apply (processBuffers_single sm); [exact Hsm|exact Hfresh| |].
    + intros s b Hsb. left. by eapply Hothers.
    + unfold processBuffer. rewrite Hjpeg.
      destruct (Z.eqb_spec (StreamManager.getMappedData sm buffer) 0); [done|].
      cbn [jpegEncoder_ frameCallback_ jpegQuality_ set_pendingControls
             set_controlManager set_jpegQuality_].
      rewrite Henc. reflexivity.
Qed.

Lemma X7_jpeg_submission_uses_new_quality_witness :
  exists st' request',
    requestComplete Sample.completedJpeg
      (setControls (set_jpegQuality (Some 90) Controls_empty)
         Sample.orchestratorJpeg).2
    = Ok (st', request',
          [Encode (StreamManager.getMappedData Sample.streamsJpeg 30)
             (StreamManager.getJpegWidth Sample.streamsJpeg)
             (StreamManager.getJpegHeight Sample.streamsJpeg)
             90
             (match rq_timestamp Sample.completedJpeg with
              | Some ts => ts mod 2 ^ 64
              | None => 0
              end)
             (rq_sequence Sample.completedJpeg)
             (frameCallback_ Sample.orchestratorJpeg);
           Reuse (rq_cookie Sample.completedJpeg);
           QueueRequest (rq_cookie Sample.completedJpeg)]).
Proof.
  apply (X7_jpeg_submission_uses_new_quality
           (set_jpegQuality (Some 90) Controls_empty) 90 Sample.completedJpeg
           Sample.orchestratorJpeg ControlManager.init Sample.streamsJpeg
           3 30 {[ 1 := 10 ]}).
  - reflexivity.
  - reflexivity.
  - reflexivity.
  - by eexists.
  - by eexists.
  - cbn. discriminate.
  - unfold fpsDefined. cbn. discriminate.
  - vm_compute. reflexivity.
  - vm_compute. reflexivity.
  - intros s b Hsb. apply lookup_singleton_Some in Hsb as [<- <-].
    vm_compute. reflexivity.
  - vm_compute. reflexivity.
  - vm_compute. discriminate.
Defined.

(** X8. Once the stream manager's buffers are freed nothing is mapped, so
    a completion delivers nothing, whatever buffers the request carries,
    but still reuses and requeues the request. *)
Theorem X8_completion_after_freeBuffers :
  forall (request : Request) (st : Impl) (sm : StreamManager.t),
    streamManager_ st = Some (StreamManager.freeBuffers sm) ->
    is_Some (camera_ st) ->
    pendingControls_ st = None ->
    rq_status request <> RequestCancelled ->
    requestComplete request st
    = Ok (st, request,
          [Reuse (rq_cookie request); QueueRequest (rq_cookie request)]).
Proof.
  intros request st sm Hsm Hcam Hpend Hstatus.
  eapply (requestComplete_ok request st st request []); try done.
  - unfold applyPending. by rewrite Hpend.
  - apply (processBuffers_skipped _ _ _ _ _ Hsm).
    apply Forall_forall. intros [s b] _. right. reflexivity.
Qed.

Lemma X8_completion_after_freeBuffers_witness :
  requestComplete Sample.completed
    (set_streamManager (Some (StreamManager.freeBuffers Sample.streams))
       Sample.orchestrator)
  = Ok (set_streamManager (Some (StreamManager.freeBuffers Sample.streams))
          Sample.orchestrator,
        Sample.completed,
        [Reuse (rq_cookie Sample.completed);
         QueueRequest (rq_cookie Sample.completed)]).
Proof.
  apply (X8_completion_after_freeBuffers Sample.completed
           (set_streamManager (Some (StreamManager.freeBuffers Sample.streams))
              Sample.orchestrator) Sample.streams).
  - reflexivity.
  - by eexists.
  - reflexivity.
  - cbn. discriminate.
Defined.

End CompletionMore.

(** ** Stream configuration *)

Section ConfigureFacts.
Import StreamManager.

Lemma userStreams_filter configs :
  userStreams configs
  = (replicate (length (filter (fun cfg => type cfg <> RAW) configs)) StillCapture,
     filter (fun cfg => type cfg <> RAW) configs).
Proof.
  induction configs as [|cfg rest IH]; [reflexivity|].
  cbn [userStreams]. rewrite IH.
  destruct (type cfg) eqn:E.
  - rewrite filter_cons_True by (rewrite E; discriminate). reflexivity.
  - rewrite filter_cons_True by (rewrite E; discriminate). reflexivity.
  - rewrite filter_cons_False by (rewrite E; by intros H). reflexivity.
Qed.

(** X9. [configure] asks for the RAW role first, always exactly once (the
    explicit RAW stream or the 2304 by 1296 default), then one still
    capture role per requested JPEG or RGB stream in the order given;
    RAW entries among the requested streams are dropped. *)
Theorem X9_configure_roles :
  forall (rawStream : option StreamConfig) (configs : list StreamConfig),
    buildRoles rawStream configs
    = (Raw :: replicate
                (length (filter (fun cfg => type cfg <> RAW) configs))
                StillCapture,
       match rawStream with
       | Some cfg => cfg
       | None => {| type := RAW; width := 2304; height := 1296 |}
       end :: filter (fun cfg => type cfg <> RAW) configs).
Proof.
  intros rawStream configs. unfold buildRoles.
  rewrite userStreams_filter. reflexivity.
Qed.

Lemma configureStreams_keeps allConfigs :
  forall i cfg st cfg' st',
    configureStreams allConfigs i cfg st = Ok (cfg', st') ->
    config_ st' = config_ st
    /\ streamTypes_ st' = streamTypes_ st
    /\ length cfg' = length cfg
    /\ forall j, (j < i)%nat -> cfg' !! j = cfg !! j.
Proof.
  induction allConfigs as [|appCfg rest IH]; intros i cfg st cfg' st' H.
  - by injection H as <- <-.
  - cbn [configureStreams] in H.
    destruct (cfg !! i) as [streamCfg|] eqn:E; [|discriminate].
    apply IH in H as (Hc & Ht & Hlen & Hlow).
    rewrite length_insert in Hlen.
    split; [rewrite Hc; by destruct (type appCfg)|].
    split; [rewrite Ht; by destruct (type appCfg)|].
    split; [exact Hlen|].
    intros j Hj. rewrite Hlow by lia. apply list_lookup_insert_ne. lia.
Qed.

(** The dimensions [configureStreams] caches are those of the last JPEG
    entry, taken before the device validates anything. *)
Lemma configureStreams_jpeg pre :
  forall appCfg post i cfg st cfg' st' streamCfg,
    configureStreams (pre ++ appCfg :: post) i cfg st = Ok (cfg', st') ->
    type appCfg = JPEG ->
    Forall (fun c => type c <> JPEG) post ->
    cfg !! (i + length pre)%nat = Some streamCfg ->
    jpegWidth_ st'
    = (if 0 <? width appCfg then width appCfg else sc_width streamCfg)
    /\ jpegHeight_ st'
       = (if 0 <? height appCfg then height appCfg else sc_height streamCfg).
Proof.
  induction pre as [|c pre IH];
    intros appCfg post i cfg st cfg' st' streamCfg H Hjpeg Hpost Hsc.
  - cbn [app configureStreams] in H. cbn [length] in Hsc.
    rewrite Nat.add_0_r in Hsc. rewrite Hsc, Hjpeg in H.
    clear Hsc. revert H.
    generalize (<[i:=configureStream appCfg streamCfg]> cfg).
    generalize (S i).
    assert (Hdims :
      jpegWidth_ (set_jpegDims (sc_width (configureStream appCfg streamCfg))
                    (sc_height (configureStream appCfg streamCfg)) st)
      = (if 0 <? width appCfg then width appCfg else sc_width streamCfg)
      /\ jpegHeight_ (set_jpegDims (sc_width (configureStream appCfg streamCfg))
                        (sc_height (configureStream appCfg streamCfg)) st)
         = (if 0 <? height appCfg then height appCfg else sc_height streamCfg))
      by done.
    revert Hdims.
    generalize (set_jpegDims (sc_width (configureStream appCfg streamCfg))
                  (sc_height (configureStream appCfg streamCfg)) st).
    clear st. induction Hpost as [|c post Hc _ IHpost]; intros st Hdims n l H.
    + by injection H as <- <-.
    + cbn [configureStreams] in H.
      destruct (l !! n); [|discriminate].
      eapply IHpost; [|exact H].
      destruct (type c); [done | exact Hdims | exact Hdims].
  - cbn [app configureStreams] in H.
    destruct (cfg !! i) as [sc0|] eqn:E; [|discriminate].
    eapply IH; [exact H | exact Hjpeg | exact Hpost |].
    cbn [length] in Hsc.
    rewrite list_lookup_insert_ne by lia.
    by replace (S i + length pre)%nat with (i + S (length pre))%nat by lia.
Qed.

Lemma recordTypes_lookup allConfigs :
  forall i cfg types types',
    recordTypes allConfigs i cfg types = Ok types' ->
    NoDup (sc_stream <$> take (length allConfigs) (drop i cfg)) ->
    (forall k appCfg streamCfg,
        allConfigs !! k = Some appCfg ->
        cfg !! (i + k)%nat = Some streamCfg ->
        types' !! sc_stream streamCfg = Some (type appCfg))
    /\ (forall s,
          s ∉ (sc_stream <$> take (length allConfigs) (drop i cfg)) ->
          types' !! s = types !! s).
Proof.
  induction allConfigs as [|appCfg rest IH]; intros i cfg types types' H Hnd.
  - injection H as <-. split; [intros k ? ? Hk; by destruct k | done].
  - cbn [recordTypes] in H.
    destruct (cfg !! i) as [sc0|] eqn:E; [|discriminate].
    assert (Hdrop : drop i cfg = sc0 :: drop (S i) cfg).
    { by apply drop_S. }
    cbn [length] in Hnd |- *. rewrite Hdrop in Hnd |- *.
    cbn [take fmap list_fmap] in Hnd |- *.
    apply NoDup_cons in Hnd as [Hnotin Hnd].
    destruct (IH _ _ _ _ H Hnd) as [Hin Hout].
    split.
    + intros [|k] a sc Ha Hsc.
      * rewrite Nat.add_0_r, E in Hsc. injection Hsc as <-.
        injection Ha as <-.
        rewrite Hout by exact Hnotin. apply lookup_insert_eq.
      * apply (Hin k); [exact Ha|].
        by replace (S i + k)%nat with (i + S k)%nat by lia.
    + intros s Hs. apply not_elem_of_cons in Hs as [Hne Hs].
      rewrite Hout by exact Hs. by apply lookup_insert_ne.
Qed.

(** X10. When [configure] returns false, either the device generated no
    configuration, and then only the configuration pointer was reset (to
    null), or the stream-type map is left empty, so that every stream
    reads back as RAW. *)
Theorem X10_configure_failure :
  forall (dev : Device) (rawStream : option StreamConfig)
         (configs : list StreamConfig) (st st' : StreamManager.t),
    configure dev rawStream configs st = Ok (false, st') ->
    (dev_generateConfiguration dev (buildRoles rawStream configs).1 = None
     /\ st' = set_config None st)
    \/ (is_Some (config_ st')
        /\ streamTypes_ st' = ∅
        /\ forall stream, getStreamType st' stream = RAW).
Proof.
  intros dev rawStream configs st st' H. unfold configure in H.
  destruct (buildRoles rawStream configs) as [roles allConfigs]. cbn [fst].
  destruct (dev_generateConfiguration dev roles) as [cfg0|].
  2:{ injection H as <-. by left. }
  right.
  destruct (configureStreams allConfigs 0 cfg0 _) as [[cfg1 st1]|] eqn:E1;
    [|discriminate].
  rewrite bind_Ok in H.
  apply configureStreams_keeps in E1 as (_ & Ht1 & _). cbn in Ht1.
  destruct (dev_validate dev cfg1) as [status cfg2].
  assert (Hempty : forall cfg, is_Some (config_ (set_config (Some cfg) st1))
            /\ streamTypes_ (set_config (Some cfg) st1) = ∅
            /\ forall stream,
                 getStreamType (set_config (Some cfg) st1) stream = RAW).
  { intros cfg. split; [by eexists|]. split; [exact Ht1|].
    intros stream. unfold getStreamType. cbn. by rewrite Ht1. }
  destruct status.
  - destruct (dev_configure dev cfg2) as [rc cfg3].
    destruct (rc <? 0).
    + injection H as <-. apply Hempty.
    + destruct (recordTypes _ _ _ _); [|discriminate]. discriminate.
  - destruct (dev_configure dev cfg2) as [rc cfg3].
    destruct (rc <? 0).
    + injection H as <-. apply Hempty.
    + destruct (recordTypes _ _ _ _); [|discriminate]. discriminate.
  - injection H as <-. apply Hempty.
Qed.

Lemma X10_configure_failure_witness :
  configure Sample.deviceInvalid None
    [{| type := RGB; width := 4; height := 2 |}] StreamManager.init
  = Ok (false, Sample.misconfigured)
  /\ ((dev_generateConfiguration Sample.deviceInvalid
         (buildRoles None [{| type := RGB; width := 4; height := 2 |}]).1 = None
       /\ Sample.misconfigured = set_config None StreamManager.init)
      \/ (is_Some (config_ Sample.misconfigured)
          /\ streamTypes_ Sample.misconfigured = ∅
          /\ forall stream, getStreamType Sample.misconfigured stream = RAW)).
Proof.
  split; [vm_compute; reflexivity|].
  apply (X10_configure_failure Sample.deviceInvalid None
           [{| type := RGB; width := 4; height := 2 |}] StreamManager.init
           Sample.misconfigured).
  vm_compute. reflexivity.
Defined.

(** X11. After a successful [configure], when the device handed out
    distinct streams, every configured stream reads back with the type of
    the application config at the same position (the RAW entry first), and
    any other stream reads back as RAW. *)
Theorem X11_configure_records_types :
  forall (dev : Device) (rawStream : option StreamConfig)
         (configs : list StreamConfig) (st st' : StreamManager.t),
    configure dev rawStream configs st = Ok (true, st') ->
    exists cfg,
      config_ st' = Some cfg
      /\ let allConfigs := (buildRoles rawStream configs).2 in
         NoDup (sc_stream <$> take (length allConfigs) cfg) ->
         (forall i appCfg streamCfg,
             allConfigs !! i = Some appCfg ->
             cfg !! i = Some streamCfg ->
             getStreamType st' (sc_stream streamCfg) = type appCfg)
         /\ (forall stream,
               stream ∉ (sc_stream <$> take (length allConfigs) cfg) ->
               getStreamType st' stream = RAW).
Proof.
  intros dev rawStream configs st st' H. unfold configure in H.
  destruct (buildRoles rawStream configs) as [roles allConfigs]. cbn [snd].
  destruct (dev_generateConfiguration dev roles) as [cfg0|]; [|discriminate].
  destruct (configureStreams allConfigs 0 cfg0 _) as [[cfg1 st1]|] eqn:E1;
    [|discriminate].
  rewrite bind_Ok in H.
  apply configureStreams_keeps in E1 as (_ & Ht1 & _). cbn in Ht1.
  destruct (dev_validate dev cfg1) as [status cfg2].
  assert (Hmain : forall cfg3 types,
            recordTypes allConfigs 0 cfg3 ∅ = Ok types ->
            NoDup (sc_stream <$> take (length allConfigs) cfg3) ->
            (forall i appCfg streamCfg,
                allConfigs !! i = Some appCfg ->
                cfg3 !! i = Some streamCfg ->
                types !! sc_stream streamCfg = Some (type appCfg))
            /\ (forall stream,
                  stream ∉ (sc_stream <$> take (length allConfigs) cfg3) ->
                  types !! stream = None)).
  { intros cfg3 types Hrec Hnd.
    destruct (recordTypes_lookup allConfigs 0 cfg3 ∅ types Hrec) as [Hin Hout].
    { by rewrite drop_0. }
    split.
    - intros i a sc Ha Hsc. by apply (Hin i).
    - intros s Hs. rewrite Hout; [apply lookup_empty | by rewrite drop_0]. }
  assert (Hgoal : forall cfg3 types,
            recordTypes allConfigs 0 cfg3 ∅ = Ok types ->
            st' = set_streamTypes types (set_config (Some cfg3)
                                           (set_config (Some cfg2) st1)) ->
            exists cfg, config_ st' = Some cfg
              /\ (NoDup (sc_stream <$> take (length allConfigs) cfg) ->
                  (forall i appCfg streamCfg,
                      allConfigs !! i = Some appCfg ->
                      cfg !! i = Some streamCfg ->
                      getStreamType st' (sc_stream streamCfg) = type appCfg)
                  /\ (forall stream,
                        stream ∉ (sc_stream <$> take (length allConfigs) cfg) ->
                        getStreamType st' stream = RAW))).
  { intros cfg3 types Hrec ->. exists cfg3. split; [reflexivity|].
    intros Hnd. destruct (Hmain cfg3 types Hrec Hnd) as [Hin Hout].
    unfold getStreamType. cbn [streamTypes_ set_streamTypes]. split.
    - intros i a sc Ha Hsc. by rewrite (Hin i a sc Ha Hsc).
    - intros s Hs. by rewrite (Hout s Hs). }
  destruct status; try discriminate;
    destruct (dev_configure dev cfg2) as [rc cfg3];
    (destruct (rc <? 0); [discriminate|]);
    cbn [streamTypes_ set_config] in H; rewrite Ht1 in H;
    (destruct (recordTypes allConfigs 0 cfg3 ∅) as [types|] eqn:Hrec;
     [|discriminate]);
    rewrite bind_Ok in H; injection H as <-;
    by apply (Hgoal cfg3 types).
Qed.

Lemma X11_configure_records_types_witness :
  configure Sample.device
    (Some {| type := RAW; width := 2304; height := 1296 |})
    [{| type := RGB; width := 4; height := 2 |}] StreamManager.init
  = Ok (true, Sample.configured)
  /\ exists cfg,
       config_ Sample.configured = Some cfg
       /\ let allConfigs :=
            (buildRoles (Some {| type := RAW; width := 2304; height := 1296 |})
               [{| type := RGB; width := 4; height := 2 |}]).2 in
          NoDup (sc_stream <$> take (length allConfigs) cfg) ->
          (forall i appCfg streamCfg,
              allConfigs !! i = Some appCfg ->
              cfg !! i = Some streamCfg ->
              getStreamType Sample.configured (sc_stream streamCfg)
              = type appCfg)
          /\ (forall stream,
                stream ∉ (sc_stream <$> take (length allConfigs) cfg) ->
                getStreamType Sample.configured stream = RAW).
Proof.
  split; [vm_compute; reflexivity|].
  apply (X11_configure_records_types Sample.device
           (Some {| type := RAW; width := 2304; height := 1296 |})
           [{| type := RGB; width := 4; height := 2 |}] StreamManager.init
           Sample.configured).
  vm_compute. reflexivity.
Defined.

(** X12. The JPEG dimensions handed to the encoder are cached from the
    last JPEG entry before the device validates or applies the
    configuration: the requested width and height when positive, the
    generated defaults otherwise, whatever sizes validation leaves in the
    configuration. *)
Theorem X12_jpeg_dimensions_cached_before_validation :
  forall (dev : Device) (rawStream : option StreamConfig)
         (configs : list StreamConfig) (st st' : StreamManager.t) (ok : bool)
         (cfg0 : list StreamConfiguration) (pre post : list StreamConfig)
         (appCfg : StreamConfig) (streamCfg : StreamConfiguration),
    configure dev rawStream configs st = Ok (ok, st') ->
    dev_generateConfiguration dev (buildRoles rawStream configs).1 = Some cfg0 ->
    (buildRoles rawStream configs).2 = pre ++ appCfg :: post ->
    type appCfg = JPEG ->
    Forall (fun c => type c <> JPEG) post ->
    cfg0 !! length pre = Some streamCfg ->
    getJpegWidth st'
    = (if 0 <? width appCfg then width appCfg else sc_width streamCfg)
    /\ getJpegHeight st'
       = (if 0 <? height appCfg then height appCfg else sc_height streamCfg).
Proof.
  intros dev rawStream configs st st' ok cfg0 pre post appCfg streamCfg
    H Hgen Hall Hjpeg Hpost Hsc.
  unfold configure in H.
  destruct (buildRoles rawStream configs) as [roles allConfigs].
  cbn [fst snd] in Hgen, Hall. rewrite Hgen in H. subst allConfigs.
  destruct (configureStreams (pre ++ appCfg :: post) 0 cfg0 _)
    as [[cfg1 st1]|] eqn:E1; [|discriminate].
  rewrite bind_Ok in H.
  eapply configureStreams_jpeg in E1; [|exact Hjpeg|exact Hpost|exact Hsc].
  destruct (dev_validate dev cfg1) as [status cfg2].
  unfold getJpegWidth, getJpegHeight.
  assert (Hdims : forall cfg types,
            jpegWidth_ (set_streamTypes types (set_config cfg st1))
            = jpegWidth_ st1
            /\ jpegHeight_ (set_streamTypes types (set_config cfg st1))
               = jpegHeight_ st1) by done.
  destruct status;
    try (injection H as <- <-; exact E1);
    destruct (dev_configure dev cfg2) as [rc cfg3];
    (destruct (rc <? 0); [injection H as <- <-; exact E1|]);
    (destruct (recordTypes _ _ _ _) as [types|]; [|discriminate]);
    rewrite bind_Ok in H; injection H as <- <-; exact E1.
Qed.

Lemma X12_jpeg_dimensions_cached_before_validation_witness :
  configure Sample.deviceAdjusting None
    [{| type := JPEG; width := 4; height := 2 |}] StreamManager.init
  = Ok (true, Sample.adjusted)
  /\ (sc_width <$> (config_ Sample.adjusted ≫= (.!! 1%nat))) = Some 8
  /\ getJpegWidth Sample.adjusted
     = (if 0 <? width {| type := JPEG; width := 4; height := 2 |}
        then width {| type := JPEG; width := 4; height := 2 |}
        else sc_width {| sc_stream := 2; sc_width := 640; sc_height := 480;
                         sc_bufferCount := 4;
                         sc_pixelFormat := DeviceFormat 0 |})
  /\ getJpegHeight Sample.adjusted
     = (if 0 <? height {| type := JPEG; width := 4; height := 2 |}
        then height {| type := JPEG; width := 4; height := 2 |}
        else sc_height {| sc_stream := 2; sc_width := 640; sc_height := 480;
                          sc_bufferCount := 4;
                          sc_pixelFormat := DeviceFormat 0 |}).
Proof.
  split; [vm_compute; reflexivity|]. split; [vm_compute; reflexivity|].
  apply (X12_jpeg_dimensions_cached_before_validation Sample.deviceAdjusting
           None [{| type := JPEG; width := 4; height := 2 |}]
           StreamManager.init Sample.adjusted true
           [{| sc_stream := 1; sc_width := 640; sc_height := 480;
               sc_bufferCount := 4; sc_pixelFormat := DeviceFormat 0 |};
            {| sc_stream := 2; sc_width := 640; sc_height := 480;
               sc_bufferCount := 4; sc_pixelFormat := DeviceFormat 0 |}]
           [{| type := RAW; width := 2304; height := 1296 |}] []
           {| type := JPEG; width := 4; height := 2 |}).
  - vm_compute. reflexivity.
  - vm_compute. reflexivity.
  - reflexivity.
  - reflexivity.
  - constructor.
  - reflexivity.
Defined.

End ConfigureFacts.

(** ** Buffer allocation *)

Section AllocationFacts.
Import StreamManager.
Variable dev : Device.

Lemma size_in_range width height :
  0 <= width -> 0 <= height -> width * height * 3 < 2 ^ 32 ->
  bgr888Size width height = width * height * 3
  /\ yuv420Size width height = width * height * 3 / 2.
Proof.
  intros Hw Hh Hrange. unfold bgr888Size, yuv420Size, mul32, wrap32.
  assert (0 <= width * height) by nia.
  rewrite (Z.mod_small (width * height)) by lia.
  rewrite Z.mod_small by lia. done.
Qed.

(** X13. Mapping a buffer of an RGB or JPEG stream either fails and
    leaves the manager untouched, or records for that buffer the pointer
    [mmap] returned for the first plane and the packed frame size
    (width * height * 3 for RGB, width * height * 3 / 2 for JPEG when the
    product fits 32 bits), without touching the mapping of any other
    buffer. *)
Theorem X13_mapBuffer_records_mapping :
  forall (buffer : Z) (ty : StreamType) (width height : Z)
         (st st' : StreamManager.t) (ok : bool),
    mapBuffer dev buffer ty width height st = (ok, st') ->
    ty <> RAW ->
    0 <= width -> 0 <= height -> width * height * 3 < 2 ^ 32 ->
    if ok then
      getMappedSize st' buffer
      = (if decide (ty = JPEG) then width * height * 3 / 2
         else width * height * 3)
      /\ (exists plane0 planes,
            dev_planes dev buffer = plane0 :: planes
            /\ dev_mmap dev (getMappedSize st' buffer) (plane_fd plane0)
                 (plane_offset plane0)
               = Some (getMappedData st' buffer))
      /\ (forall other, other <> buffer ->
            mappedBuffers_ st' !! other = mappedBuffers_ st !! other)
    else st' = st.
Proof.
  intros buffer ty width height st st' ok H Hty Hw Hh Hrange.
  destruct (size_in_range width height Hw Hh Hrange) as [Hrgb Hjpeg].
  unfold mapBuffer in H.
  destruct ty; [| |done];
    (destruct (dev_planes dev buffer) as [|plane0 planes];
     [by injection H as <- <-|]);
    rewrite ?Hrgb, ?Hjpeg in H;
    (destruct (dev_mmap dev _ _ _) as [ptr|] eqn:Emap;
     [|by injection H as <- <-]);
    injection H as <- <-;
    unfold getMappedSize, getMappedData; cbn [mappedBuffers_ set_mappedBuffers];
    rewrite lookup_insert_eq; cbn [size data];
    (split; [by case_decide|]);
    (split; [by exists plane0, planes|]);
    intros other Hne; by apply lookup_insert_ne.
Qed.

Lemma mapBuffer_cases buffer ty width height st ok st' :
  mapBuffer dev buffer ty width height st = (ok, st') ->
  (st' = st /\ (ok = true -> ty = RAW))
  \/ (ok = true /\ ty <> RAW
      /\ exists m, st' = set_mappedBuffers (<[buffer := m]> (mappedBuffers_ st)) st).
Proof.
  unfold mapBuffer. intros H.
  destruct ty; try (injection H as <- <-; by left);
    (destruct (dev_planes dev buffer) as [|plane0 planes];
     [injection H as <- <-; left; by split|]);
    (destruct (dev_mmap dev _ _ _) as [ptr|];
     [|injection H as <- <-; left; by split]);
    injection H as <- <-; right; (split; [done|]); (split; [done|]);
    by eexists.
Qed.

Lemma mapBuffer_frame buffer ty width height st ok st' :
  mapBuffer dev buffer ty width height st = (ok, st') ->
  sameSetup st st'
  /\ streamBuffers_ st' = streamBuffers_ st
  /\ requests_ st' = requests_ st
  /\ (forall fb, is_Some (mappedBuffers_ st !! fb) ->
        is_Some (mappedBuffers_ st' !! fb))
  /\ (ok = true -> ty <> RAW -> is_Some (mappedBuffers_ st' !! buffer)).
Proof.
  intros H. apply mapBuffer_cases in H as [[-> Hraw]|(-> & Hty & m & ->)].
  - unfold sameSetup. repeat split; try done.
    intros Hok Hne. by specialize (Hraw Hok).
  - unfold sameSetup. cbn. repeat split; try done.
    + intros fb Hfb. destruct (decide (buffer = fb)) as [->|Hne].
      * rewrite lookup_insert_eq. by eexists.
      * by rewrite lookup_insert_ne.
    + intros _ _. rewrite lookup_insert_eq. by eexists.
Qed.

Lemma streamTypes_index_frame stream st ty st' :
  streamTypes_index stream st = (ty, st') ->
  sameSetup st st'
  /\ streamBuffers_ st' = streamBuffers_ st
  /\ requests_ st' = requests_ st
  /\ (is_Some (streamTypes_ st !! stream) -> streamTypes_ st' = streamTypes_ st).
Proof.
  unfold streamTypes_index, sameSetup. intros H.
  destruct (streamTypes_ st !! stream) eqn:E; injection H as <- <-;
    repeat split; try done.
Qed.

Lemma mapStreamBuffers_frame stream width height buffers :
  forall bufferPtrs st r st',
    mapStreamBuffers dev stream width height buffers bufferPtrs st = (r, st') ->
    sameSetup st st'
    /\ streamBuffers_ st' = streamBuffers_ st
    /\ requests_ st' = requests_ st
    /\ (is_Some (streamTypes_ st !! stream) -> streamTypes_ st' = streamTypes_ st)
    /\ (forall fb, is_Some (mappedBuffers_ st !! fb) ->
          is_Some (mappedBuffers_ st' !! fb))
    /\ (forall ptrs, r = Some ptrs ->
          ptrs = bufferPtrs ++ buffers
          /\ forall fb ty, fb ∈ buffers ->
               streamTypes_ st' !! stream = Some ty -> ty <> RAW ->
               is_Some (mappedBuffers_ st' !! fb)).
Proof.
  induction buffers as [|b rest IH]; intros bufferPtrs st r st' H.
  - injection H as <- <-.
    split; [done|]. split; [done|]. split; [done|]. split; [done|].
    split; [done|].
    intros ptrs [= <-]. split; [by rewrite app_nil_r|].
    intros fb ty Hin. by apply elem_of_nil in Hin.
  - cbn [mapStreamBuffers] in H.
    destruct (streamTypes_index stream st) as [ty st1] eqn:E1.
    destruct (mapBuffer dev b ty width height st1) as [ok st2] eqn:E2.
    pose proof (streamTypes_index_frame _ _ _ _ E1) as (S1 & B1 & R1 & T1).
    pose proof (streamTypes_index_spec _ _ _ _ E1) as (Hty1 & Hsub1 & M1).
    pose proof (mapBuffer_frame _ _ _ _ _ _ _ E2) as (S2 & B2 & R2 & Mono2 & Map2).
    pose proof (mapBuffer_spec dev _ _ _ _ _ _ _ E2) as (T2 & _).
    assert (Hsetup12 : sameSetup st st2).
    { unfold sameSetup in *. destruct S1 as (? & ? & ?), S2 as (? & ? & ?).
      repeat split; congruence. }
    destruct ok.
    + apply IH in H as (S3 & B3 & R3 & T3 & Mono3 & Res3).
      assert (Hty2 : streamTypes_ st2 !! stream = Some ty) by by rewrite T2.
      split.
      { unfold sameSetup in *.
        destruct Hsetup12 as (? & ? & ?), S3 as (? & ? & ?).
        repeat split; congruence. }
      split; [congruence|]. split; [congruence|]. split.
      { intros Hsome. rewrite T3 by (by eexists). rewrite T2. by apply T1. }
      split.
      { intros fb Hfb. apply Mono3, Mono2. by rewrite M1. }
      intros ptrs ->. destruct (Res3 _ eq_refl) as [-> Hmapped].
      split; [by rewrite <- app_assoc|].
      intros fb ty' Hin Hty' Hraw.
      apply elem_of_cons in Hin as [->|Hin]; [|by eapply Hmapped].
      apply Mono3, Map2; [done|].
      rewrite T3 in Hty' by (by eexists). congruence.
    + injection H as <- <-.
      split; [exact Hsetup12|]. split; [congruence|]. split; [congruence|].
      split.
      { intros Hsome. rewrite T2. by apply T1. }
      split.
      { intros fb Hfb. apply Mono2. by rewrite M1. }
      intros ptrs [=].
Qed.

Lemma allocateStreams_frame cfg :
  forall st ok st',
    allocateStreams dev cfg st = (ok, st') ->
    sameSetup st st'
    /\ requests_ st' = requests_ st
    /\ ((forall streamCfg, streamCfg ∈ cfg ->
           is_Some (streamTypes_ st !! sc_stream streamCfg)) ->
        streamTypes_ st' = streamTypes_ st)
    /\ (forall fb, is_Some (mappedBuffers_ st !! fb) ->
          is_Some (mappedBuffers_ st' !! fb))
    /\ (ok = true ->
        (forall stream,
            streamBuffers_ st' !! stream
            = if decide (stream ∈ (sc_stream <$> cfg))
              then Some (dev_buffers dev stream)
              else streamBuffers_ st !! stream)
        /\ forall streamCfg fb,
             streamCfg ∈ cfg ->
             fb ∈ dev_buffers dev (sc_stream streamCfg) ->
             getStreamType st' (sc_stream streamCfg) <> RAW ->
             is_Some (mappedBuffers_ st' !! fb)).
Proof.
  induction cfg as [|streamCfg rest IH]; intros st ok st' H.
  - injection H as <- <-.
    split; [done|]. split; [done|]. split; [done|]. split; [done|].
    intros _. split; [done|].
    intros sc fb Hin. by apply elem_of_nil in Hin.
  - cbn [allocateStreams] in H.
    destruct (dev_allocate dev (sc_stream streamCfg) <? 0).
    { injection H as <- <-.
      split; [done|]. split; [done|]. split; [done|]. split; [done|].
      discriminate. }
    destruct (mapStreamBuffers dev (sc_stream streamCfg) (sc_width streamCfg)
                (sc_height streamCfg) (dev_buffers dev (sc_stream streamCfg))
                [] _) as [[bufferPtrs|] st1] eqn:E.
    + pose proof (mapStreamBuffers_frame _ _ _ _ _ _ _ _ E)
        as (S1 & B1 & R1 & T1 & Mono1 & Res1).
      pose proof (mapStreamBuffers_spec dev _ _ _ _ _ _ _ _ E) as (Hsub1 & _).
      unfold sameSetup in S1.
      cbn [config_ jpegWidth_ jpegHeight_ streamTypes_ streamBuffers_
             mappedBuffers_ requests_ set_allocator]
        in S1, B1, R1, T1, Mono1, Res1, Hsub1.
      destruct (Res1 _ eq_refl) as [-> Hmapped1]. cbn [app] in H.
      pose proof (allocateStreams_spec dev rest _ _ _ H) as [Hsub2 _].
      cbn in Hsub2.
      apply IH in H as (S2 & R2 & T2 & Mono2 & Res2).
      pose proof S2 as S2'. unfold sameSetup in S2' |- *.
      cbn in S2', R2, T2, Mono2, Res2.
      destruct S1 as (? & ? & ?), S2' as (? & ? & ?).
      split; [repeat split; congruence|]. split; [congruence|].
      split.
      { intros Hall. rewrite T2.
        - apply T1. apply Hall. by left.
        - intros sc Hsc. rewrite T1 by (apply Hall; by left).
          apply Hall. by right. }
      split; [intros fb Hfb; by apply Mono2, Mono1|].
      intros ->. destruct (Res2 eq_refl) as [Hbufs Hmapped2]. split.
      * intros stream. rewrite Hbufs. cbn [fmap list_fmap].
        destruct (decide (stream ∈ (sc_stream <$> rest))) as [Hin|Hnotin].
        { rewrite decide_True; [reflexivity | by right]. }
        destruct (decide (stream = sc_stream streamCfg)) as [->|Hne].
        { rewrite decide_True by (by left). apply lookup_insert_eq. }
        rewrite decide_False.
        { rewrite lookup_insert_ne by done. by rewrite B1. }
        intros Hcons. apply elem_of_cons in Hcons as [?|?]; done.
      * intros sc fb Hsc Hfb Hraw.
        apply elem_of_cons in Hsc as [->|Hsc]; [|by eapply Hmapped2].
        apply Mono2. unfold getStreamType in Hraw.
        destruct (streamTypes_ st' !! sc_stream streamCfg) as [ty|] eqn:Ety;
          [|done].
        destruct (streamTypes_ st1 !! sc_stream streamCfg) as [ty1|] eqn:Ety1.
        -- eapply (Hmapped1 fb ty1); [exact Hfb | reflexivity |].
           assert (streamTypes_ st' !! sc_stream streamCfg = Some ty1)
             by by eapply lookup_weaken.
           congruence.
        -- destruct (dev_buffers dev (sc_stream streamCfg)) as [|b bs] eqn:Eb;
             [by apply elem_of_nil in Hfb|].
           cbn [mapStreamBuffers] in E.
           destruct (streamTypes_index (sc_stream streamCfg) _)
             as [ty0 st0] eqn:E0.
           destruct (mapBuffer dev b ty0 _ _ st0) as [ok0 st2] eqn:Em.
           apply streamTypes_index_spec in E0 as (Hty0 & _ & _).
           apply mapBuffer_spec in Em as (Ht2 & _).
           destruct ok0; [|discriminate].
           apply mapStreamBuffers_spec in E as (Hsub3 & _).
           assert (streamTypes_ st1 !! sc_stream streamCfg = Some ty0).
           { eapply lookup_weaken; [|exact Hsub3]. by rewrite Ht2. }
           congruence.
    + injection H as <- <-.
      pose proof (mapStreamBuffers_frame _ _ _ _ _ _ _ _ E)
        as (S1 & B1 & R1 & T1 & Mono1 & _).
      cbn [streamTypes_ streamBuffers_ mappedBuffers_ requests_
             set_allocator] in B1, R1, T1, Mono1.
      split; [exact S1|]. split; [exact R1|]. split.
      { intros Hall. apply T1. apply Hall. by left. }
      split; [exact Mono1 | discriminate].
Qed.

Lemma addBuffer_fields stream buffer request :
  rq_cookie (addBuffer stream buffer request) = rq_cookie request
  /\ rq_status (addBuffer stream buffer request) = rq_status request
  /\ rq_controls (addBuffer stream buffer request) = rq_controls request
  /\ forall s, rq_buffers (addBuffer stream buffer request) !! s
               = match rq_buffers request !! s with
                 | Some fb => Some fb
                 | None => if decide (s = stream) then Some buffer else None
                 end.
Proof.
  unfold addBuffer.
  destruct (rq_buffers request !! stream) as [old|] eqn:E; cbn.
  - split; [done|]. split; [done|]. split; [done|]. intros s.
    destruct (rq_buffers request !! s) eqn:Es; [done|].
    destruct (decide (s = stream)) as [->|]; [congruence | done].
  - split; [done|]. split; [done|]. split; [done|]. intros s.
    destruct (decide (s = stream)) as [->|Hne].
    + by rewrite lookup_insert_eq, E.
    + rewrite lookup_insert_ne by done. by destruct (rq_buffers request !! s).
Qed.

(** [attachBuffers] touches [streamBuffers_] only. *)
Lemma attachBuffers_setup cfg i :
  forall request st request' st',
    attachBuffers cfg i request st = (request', st') ->
    sameSetup st st' /\ requests_ st' = requests_ st.
Proof.
  induction cfg as [|streamCfg rest IH]; intros request st request' st' H.
  - by injection H as <- <-.
  - cbn [attachBuffers] in H. unfold streamBuffers_index in H.
    destruct (streamBuffers_ st !! sc_stream streamCfg);
      apply IH in H as [S R]; done.
Qed.

Lemma createRequests_setup cfg n :
  forall i st ok st',
    createRequests dev cfg n i st = (ok, st') -> sameSetup st st'.
Proof.
  induction n as [|n IH]; intros i st ok st' H.
  - by injection H as <- <-.
  - cbn [createRequests] in H.
    destruct (dev_createRequest dev i); [|by injection H as <- <-].
    destruct (attachBuffers cfg i (newRequest z) st) as [request st1] eqn:E.
    apply attachBuffers_setup in E as [S1 _].
    apply IH in H. unfold sameSetup in *. cbn in H.
    destruct S1 as (? & ? & ?), H as (? & ? & ?).
    repeat split; congruence.
Qed.

(** With a buffer list recorded for every configured stream,
    [attachBuffers] leaves the manager alone and gives a request the
    buffer at position [i] of each stream that has none yet. *)
Lemma attachBuffers_known (bufs : Z -> list Z) cfg i :
  forall request st,
    (forall streamCfg, streamCfg ∈ cfg ->
       streamBuffers_ st !! sc_stream streamCfg
       = Some (bufs (sc_stream streamCfg))) ->
    exists request',
      attachBuffers cfg i request st = (request', st)
      /\ rq_cookie request' = rq_cookie request
      /\ rq_status request' = rq_status request
      /\ rq_controls request' = rq_controls request
      /\ forall s, rq_buffers request' !! s
                   = match rq_buffers request !! s with
                     | Some fb => Some fb
                     | None => if decide (s ∈ (sc_stream <$> cfg))
                               then bufs s !! i else None
                     end.
Proof.
  induction cfg as [|streamCfg rest IH]; intros request st Hknown.
  - exists request. split; [done|]. split; [done|]. split; [done|].
    split; [done|]. intros s. destruct (rq_buffers request !! s); [done|].
    rewrite decide_False; [done|]. cbn. apply not_elem_of_nil.
  - cbn [attachBuffers]. unfold streamBuffers_index.
    rewrite (Hknown streamCfg) by (apply elem_of_cons; by left).
    set (request1 := match bufs (sc_stream streamCfg) !! i with
                     | Some fb => addBuffer (sc_stream streamCfg) fb request
                     | None => request
                     end).
    destruct (IH request1 st) as (request' & E & Hc & Hs & Hl & Hb).
    { intros sc Hsc. apply Hknown. apply elem_of_cons. by right. }
    exists request'. split; [exact E|].
    assert (H1 : rq_cookie request1 = rq_cookie request
                 /\ rq_status request1 = rq_status request
                 /\ rq_controls request1 = rq_controls request
                 /\ forall s, rq_buffers request1 !! s
                              = match rq_buffers request !! s with
                                | Some fb => Some fb
                                | None => if decide (s = sc_stream streamCfg)
                                          then bufs s !! i else None
                                end).
    { unfold request1.
      destruct (bufs (sc_stream streamCfg) !! i) as [fb|] eqn:Efb.
      - destruct (addBuffer_fields (sc_stream streamCfg) fb request)
          as (? & ? & ? & Hadd).
        split; [done|]. split; [done|]. split; [done|]. intros s.
        rewrite Hadd. destruct (rq_buffers request !! s); [done|].
        destruct (decide (s = sc_stream streamCfg)) as [->|]; done.
      - split; [done|]. split; [done|]. split; [done|]. intros s.
        destruct (rq_buffers request !! s); [done|].
        destruct (decide (s = sc_stream streamCfg)) as [->|]; done. }
    destruct H1 as (Hc1 & Hs1 & Hl1 & Hb1).
    split; [congruence|]. split; [congruence|]. split; [congruence|].
    intros s. rewrite Hb, Hb1. cbn [fmap list_fmap].
    destruct (rq_buffers request !! s) as [fb|]; [done|].
    destruct (decide (s = sc_stream streamCfg)) as [->|Hne].
    + rewrite (decide_True (P := _ ∈ _ :: _))
        by (apply elem_of_cons; by left).
      destruct (bufs (sc_stream streamCfg) !! i) eqn:Efb; [done|].
      by destruct (decide _).
    + destruct (decide (s ∈ (sc_stream <$> rest))) as [Hin|Hnotin].
      * rewrite decide_True by (apply elem_of_cons; by right). done.
      * rewrite decide_False; [done|].
        intros Hcons. apply elem_of_cons in Hcons as [?|?]; done.
Qed.

(** [createRequests] over known buffer lists: the requests it appends, in
    order, and where it gives up. *)
Lemma createRequests_known (bufs : Z -> list Z) cfg n :
  forall i st ok st',
    (forall streamCfg, streamCfg ∈ cfg ->
       streamBuffers_ st !! sc_stream streamCfg
       = Some (bufs (sc_stream streamCfg))) ->
    createRequests dev cfg n i st = (ok, st') ->
    streamBuffers_ st' = streamBuffers_ st
    /\ exists reqs,
         requests_ st' = requests_ st ++ reqs
         /\ (forall k r, reqs !! k = Some r ->
               dev_createRequest dev (i + k) = Some (rq_cookie r)
               /\ rq_status r = RequestPending
               /\ rq_controls r = []
               /\ forall s, rq_buffers r !! s
                            = if decide (s ∈ (sc_stream <$> cfg))
                              then bufs s !! (i + k)%nat else None)
         /\ (if ok then length reqs = n
             else (length reqs < n)%nat
                  /\ dev_createRequest dev (i + length reqs) = None).
Proof.
  induction n as [|n IH]; intros i st ok st' Hknown H.
  - injection H as <- <-. split; [done|]. exists [].
    split; [by rewrite app_nil_r|]. split; [|done].
    intros k r Hk. by rewrite lookup_nil in Hk.
  - cbn [createRequests] in H.
    destruct (dev_createRequest dev i) as [cookie|] eqn:Ecookie.
    + destruct (attachBuffers_known bufs cfg i (newRequest cookie) st Hknown)
        as (request & E & Hc & Hs & Hl & Hb).
      rewrite E in H.
      apply IH in H as (B & reqs & R & Hreqs & Hlen); [|exact Hknown].
      cbn in B, R. split; [exact B|]. exists (request :: reqs).
      split; [by rewrite R, <- app_assoc|]. split.
      * intros [|k] r Hk.
        -- injection Hk as <-. rewrite Nat.add_0_r.
           split; [by rewrite Hc|]. split; [by rewrite Hs|].
           split; [by rewrite Hl|]. intros s. rewrite Hb.
           cbn. by rewrite lookup_empty.
        -- cbn in Hk. replace (i + S k)%nat with (S i + k)%nat by lia.
           by apply Hreqs.
      * destruct ok; cbn [length].
        -- by rewrite Hlen.
        -- destruct Hlen as [Hlt Hnone]. split; [lia|].
           by replace (i + S (length reqs))%nat
             with (S i + length reqs)%nat by lia.
    + injection H as <- <-. split; [done|]. exists [].
      split; [by rewrite app_nil_r|]. split.
      * intros k r Hk. by rewrite lookup_nil in Hk.
      * cbn [length]. split; [lia|]. by rewrite Nat.add_0_r.
Qed.

(** What [allocateBuffers] does on a configured manager, in one place. *)
Lemma allocateBuffers_cases st cfg r st' :
  config_ st = Some cfg ->
  allocateBuffers dev st = Ok (r, st') ->
  exists ok1 st1,
    allocateStreams dev cfg st = (ok1, st1)
    /\ if ok1 then createRequests dev cfg numRequests 0 st1 = (r, st')
       else r = false /\ st' = st1.
Proof.
  unfold allocateBuffers. intros Hcfg H. rewrite Hcfg in H.
  cbn [deref] in H. rewrite bind_Ok in H.
  destruct (allocateStreams dev cfg st) as [ok1 st1] eqn:E1.
  exists ok1, st1. split; [done|]. destruct ok1.
  - unfold mret, result_ret in H. congruence.
  - unfold mret, result_ret in H. split; congruence.
Qed.

(** X14. When [allocateBuffers] returns true, [getBuffer] answers with
    the device's buffers for every configured stream (null past the end
    of the list), and every buffer of a configured stream whose type is
    not RAW has a mapping. *)
Theorem X14_allocateBuffers_buffers :
  forall (st st' : StreamManager.t) (cfg : list StreamConfiguration),
    config_ st = Some cfg ->
    allocateBuffers dev st = Ok (true, st') ->
    (forall stream index,
        stream ∈ (sc_stream <$> cfg) ->
        getBuffer st' stream index
        = match dev_buffers dev stream !! index with
          | Some fb => fb
          | None => 0
          end)
    /\ (forall streamCfg fb,
          streamCfg ∈ cfg ->
          fb ∈ dev_buffers dev (sc_stream streamCfg) ->
          getStreamType st' (sc_stream streamCfg) <> RAW ->
          is_Some (mappedBuffers_ st' !! fb)).
Proof.
  intros st st' cfg Hcfg H.
  destruct (allocateBuffers_cases _ _ _ _ Hcfg H) as (ok1 & st1 & E1 & E2).
  destruct ok1; [|by destruct E2].
  apply allocateStreams_frame in E1 as (_ & _ & _ & _ & Hok).
  destruct (Hok eq_refl) as [Hbufs Hmapped].
  assert (Hknown : forall streamCfg, streamCfg ∈ cfg ->
            streamBuffers_ st1 !! sc_stream streamCfg
            = Some (dev_buffers dev (sc_stream streamCfg))).
  { intros sc Hsc. rewrite Hbufs. rewrite decide_True; [done|].
    by apply list_elem_of_fmap_2. }
  pose proof (createRequests_spec dev _ _ _ _ _ _ E2) as [T2 M2].
  apply (createRequests_known (dev_buffers dev)) in E2 as (B2 & _);
    [|exact Hknown].
  split.
  - intros stream index Hin. unfold getBuffer. rewrite B2, Hbufs.
    by rewrite decide_True.
  - intros sc fb Hsc Hfb Hraw. rewrite M2. apply (Hmapped sc); [done|done|].
    unfold getStreamType in *. by rewrite <- T2.
Qed.

(** X15. When [allocateBuffers] returns true it has appended exactly six
    requests to [requests_]; the k-th comes from the device's k-th
    [createRequest], is pending with an empty control list, and carries
    for each configured stream that stream's k-th buffer (none when the
    stream has fewer buffers) and nothing for any other stream. *)
Theorem X15_allocateBuffers_requests :
  forall (st st' : StreamManager.t) (cfg : list StreamConfiguration),
    config_ st = Some cfg ->
    allocateBuffers dev st = Ok (true, st') ->
    exists reqs,
      requests_ st' = requests_ st ++ reqs
      /\ length reqs = 6%nat
      /\ forall k r,
           reqs !! k = Some r ->
           dev_createRequest dev k = Some (rq_cookie r)
           /\ rq_status r = RequestPending
           /\ rq_controls r = []
           /\ forall stream,
                rq_buffers r !! stream
                = if decide (stream ∈ (sc_stream <$> cfg))
                  then dev_buffers dev stream !! k else None.
Proof.
  intros st st' cfg Hcfg H.
  destruct (allocateBuffers_cases _ _ _ _ Hcfg H) as (ok1 & st1 & E1 & E2).
  destruct ok1; [|by destruct E2].
  apply allocateStreams_frame in E1 as (_ & R1 & _ & _ & Hok).
  destruct (Hok eq_refl) as [Hbufs _].
  apply (createRequests_known (dev_buffers dev)) in E2
    as (_ & reqs & R2 & Hreqs & Hlen).
  - exists reqs. split; [by rewrite R2, R1|]. split; [exact Hlen|].
    intros k r Hk. by apply (Hreqs k r).
  - intros sc Hsc. rewrite Hbufs. rewrite decide_True; [done|].
    by apply list_elem_of_fmap_2.
Qed.

(** X16. When every stream was allocated and mapped and
    [allocateBuffers] still returns false, a request creation failed:
    fewer than six requests were appended, the device refused the next
    one, and the requests, mappings and buffer lists made so far stay in
    the manager. *)
Theorem X16_allocateBuffers_request_failure :
  forall (st st1 st' : StreamManager.t) (cfg : list StreamConfiguration),
    config_ st = Some cfg ->
    allocateStreams dev cfg st = (true, st1) ->
    allocateBuffers dev st = Ok (false, st') ->
    exists reqs,
      requests_ st' = requests_ st ++ reqs
      /\ (length reqs < 6)%nat
      /\ dev_createRequest dev (length reqs) = None
      /\ mappedBuffers_ st' = mappedBuffers_ st1
      /\ streamBuffers_ st' = streamBuffers_ st1.
Proof.
  intros st st1 st' cfg Hcfg E1 H.
  destruct (allocateBuffers_cases _ _ _ _ Hcfg H) as (ok1 & st1' & E1' & E2).
  rewrite E1 in E1'. injection E1' as <- <-.
  pose proof (createRequests_spec dev _ _ _ _ _ _ E2) as [_ M2].
  apply allocateStreams_frame in E1 as (_ & R1 & _ & _ & Hok).
  destruct (Hok eq_refl) as [Hbufs _].
  apply (createRequests_known (dev_buffers dev)) in E2
    as (B2 & reqs & R2 & _ & Hlt & Hnone).
  - exists reqs. split; [by rewrite R2, R1|]. split; [exact Hlt|].
    split; [exact Hnone|]. split; [exact M2 | exact B2].
  - intros sc Hsc. rewrite Hbufs. rewrite decide_True; [done|].
    by apply list_elem_of_fmap_2.
Qed.

Lemma mapBuffer_allocator buffer ty width height st ok st' :
  mapBuffer dev buffer ty width height st = (ok, st') ->
  allocator_ st' = allocator_ st.
Proof.
  intros H. apply mapBuffer_cases in H as [[-> _]|(_ & _ & m & ->)]; done.
Qed.

Lemma mapStreamBuffers_allocator stream width height buffers :
  forall bufferPtrs st r st',
    mapStreamBuffers dev stream width height buffers bufferPtrs st = (r, st') ->
    allocator_ st' = allocator_ st.
Proof.
  induction buffers as [|b rest IH]; intros bufferPtrs st r st' H.
  - by injection H as <- <-.
  - cbn [mapStreamBuffers] in H. unfold streamTypes_index in H.
    destruct (streamTypes_ st !! stream);
      (destruct (mapBuffer dev b _ width height _) as [ok st2] eqn:E2;
       apply mapBuffer_allocator in E2; cbn in E2;
       destruct ok; [apply IH in H | injection H as <- <-]; congruence).
Qed.

(** What [allocateStreams] leaves in the allocator: every stream it
    went through without an allocation failure. *)
Lemma allocateStreams_allocator cfg :
  forall st ok st',
    allocateStreams dev cfg st = (ok, st') ->
    ok = true ->
    allocator_ st' = list_to_set (sc_stream <$> cfg) ∪ allocator_ st.
Proof.
  induction cfg as [|streamCfg rest IH]; intros st ok st' H Hok.
  - injection H as <- <-. cbn. by rewrite (left_id_L ∅ (∪)).
  - cbn [allocateStreams] in H.
    destruct (dev_allocate dev (sc_stream streamCfg) <? 0);
      [injection H as <- <-; discriminate|].
    destruct (mapStreamBuffers dev (sc_stream streamCfg) (sc_width streamCfg)
                (sc_height streamCfg) (dev_buffers dev (sc_stream streamCfg))
                [] _) as [[bufferPtrs|] st1] eqn:E;
      [|injection H as <- <-; discriminate].
    apply mapStreamBuffers_allocator in E. cbn in E.
    apply IH in H; [|exact Hok]. cbn in H. rewrite H, E.
    cbn [fmap list_fmap list_to_set]. apply set_eq. intros x.
    rewrite !elem_of_union. tauto.
Qed.

(** A mapping failure leaves the stream being mapped allocated but
    unrecorded. *)
Lemma allocateStreams_leak cfg :
  forall st st',
    NoDup (sc_stream <$> cfg) ->
    (forall streamCfg, streamCfg ∈ cfg ->
        0 <= dev_allocate dev (sc_stream streamCfg)) ->
    (forall streamCfg, streamCfg ∈ cfg ->
        streamBuffers_ st !! sc_stream streamCfg = None) ->
    allocateStreams dev cfg st = (false, st') ->
    exists streamCfg,
      streamCfg ∈ cfg
      /\ sc_stream streamCfg ∈ allocator_ st'
      /\ streamBuffers_ st' !! sc_stream streamCfg = None.
Proof.
  induction cfg as [|streamCfg rest IH]; intros st st' Hnd Halloc Hfresh H.
  - discriminate.
  - cbn [allocateStreams] in H. cbn [fmap list_fmap] in Hnd.
    apply NoDup_cons in Hnd as [Hnotin Hnd].
    destruct (Z.ltb_spec (dev_allocate dev (sc_stream streamCfg)) 0) as [Hneg|_].
    { specialize (Halloc streamCfg ltac:(apply elem_of_cons; by left)). lia. }
    destruct (mapStreamBuffers dev (sc_stream streamCfg) (sc_width streamCfg)
                (sc_height streamCfg) (dev_buffers dev (sc_stream streamCfg))
                [] _) as [[bufferPtrs|] st1] eqn:E.
    + pose proof (mapStreamBuffers_allocator _ _ _ _ _ _ _ _ E) as A1.
      pose proof (mapStreamBuffers_frame _ _ _ _ _ _ _ _ E)
        as (_ & B1 & _).
      cbn [streamBuffers_ allocator_ set_allocator] in A1, B1.
      apply IH in H as (sc & Hsc & Hin & Hnone).
      * exists sc. split; [apply elem_of_cons; by right | done].
      * exact Hnd.
      * intros sc Hsc. apply Halloc. apply elem_of_cons. by right.
      * intros sc Hsc. cbn [streamBuffers_ set_streamBuffers].
        rewrite lookup_insert_ne.
        -- rewrite B1. apply Hfresh. apply elem_of_cons. by right.
        -- intros Heq. apply Hnotin. rewrite Heq.
           by apply list_elem_of_fmap_2.
    + injection H as <-.
      pose proof (mapStreamBuffers_allocator _ _ _ _ _ _ _ _ E) as A1.
      pose proof (mapStreamBuffers_frame _ _ _ _ _ _ _ _ E)
        as (_ & B1 & _).
      cbn [streamBuffers_ allocator_ set_allocator] in A1, B1.
      exists streamCfg. split; [apply elem_of_cons; by left|].
      split; [rewrite A1; apply elem_of_union; left;
              by apply elem_of_singleton|].
      rewrite B1. apply Hfresh. apply elem_of_cons. by left.
Qed.

Lemma attachBuffers_allocator cfg i :
  forall request st request' st',
    attachBuffers cfg i request st = (request', st') ->
    allocator_ st' = allocator_ st.
Proof.
  induction cfg as [|streamCfg rest IH]; intros request st request' st' H.
  - by injection H as <- <-.
  - cbn [attachBuffers] in H. unfold streamBuffers_index in H.
    destruct (streamBuffers_ st !! sc_stream streamCfg);
      apply IH in H; done.
Qed.

Lemma createRequests_allocator cfg n :
  forall i st ok st',
    createRequests dev cfg n i st = (ok, st') ->
    allocator_ st' = allocator_ st.
Proof.
  induction n as [|n IH]; intros i st ok st' H.
  - by injection H as <- <-.
  - cbn [createRequests] in H.
    destruct (dev_createRequest dev i); [|by injection H as <- <-].
    destruct (attachBuffers cfg i (newRequest z) st) as [request st1] eqn:E.
    apply attachBuffers_allocator in E. apply IH in H. cbn in H. congruence.
Qed.

Lemma freeBuffers_eq st st' :
  sameSetup st st' ->
  streamTypes_ st' = streamTypes_ st ->
  allocator_ st' ∖ dom (streamBuffers_ st')
  = allocator_ st ∖ dom (streamBuffers_ st) ->
  freeBuffers st' = freeBuffers st.
Proof.
  intros (Hc & Hw & Hh) Ht Ha.
  unfold freeBuffers, set_requests, set_streamBuffers, set_mappedBuffers,
    set_allocator.
  cbn. by rewrite Hc, Hw, Hh, Ht, Ha.
Qed.

(** X17. On a manager whose allocations are all recorded in
    [streamBuffers_] and whose configured streams all have a recorded
    type: whatever [allocateBuffers] returns, [freeBuffers] afterwards
    restores everything but the allocator to what [freeBuffers] gives
    before the call.  When every stream was allocated and mapped it
    restores the allocator too; when a mapping failed, the stream being
    mapped was allocated but never recorded, and [freeBuffers] leaves
    its buffers allocated. *)
Theorem X17_freeBuffers_after_allocateBuffers :
  forall (st st1 st' : StreamManager.t) (cfg : list StreamConfiguration)
         (ok1 r : bool),
    config_ st = Some cfg ->
    (forall streamCfg, streamCfg ∈ cfg ->
        is_Some (streamTypes_ st !! sc_stream streamCfg)) ->
    allocator_ st ⊆ dom (streamBuffers_ st) ->
    allocateStreams dev cfg st = (ok1, st1) ->
    allocateBuffers dev st = Ok (r, st') ->
    set_allocator ∅ (freeBuffers st') = set_allocator ∅ (freeBuffers st)
    /\ if ok1 then freeBuffers st' = freeBuffers st
       else
         r = false
         /\ (NoDup (sc_stream <$> cfg) ->
             (forall streamCfg, streamCfg ∈ cfg ->
                 0 <= dev_allocate dev (sc_stream streamCfg)) ->
             (forall streamCfg, streamCfg ∈ cfg ->
                 streamBuffers_ st !! sc_stream streamCfg = None) ->
             exists streamCfg,
               streamCfg ∈ cfg
               /\ sc_stream streamCfg ∈ allocator_ (freeBuffers st')).
Proof.
  intros st st1 st' cfg ok1 r Hcfg Htyped Hrec E1 H.
  destruct (allocateBuffers_cases _ _ _ _ Hcfg H) as (ok1' & st1' & E1' & E2).
  rewrite E1 in E1'. injection E1' as <- <-.
  pose proof (allocateStreams_frame _ _ _ _ E1) as (S1 & _ & T1 & _ & Hok).
  specialize (T1 Htyped).
  assert (Hsame : sameSetup st st' /\ streamTypes_ st' = streamTypes_ st).
  { destruct ok1.
    - pose proof (createRequests_setup _ _ _ _ _ _ E2) as S2.
      pose proof (createRequests_spec dev _ _ _ _ _ _ E2) as [T2 _].
      unfold sameSetup in *. destruct S1 as (? & ? & ?), S2 as (? & ? & ?).
      split; [repeat split; congruence | congruence].
    - destruct E2 as [_ ->]. done. }
  destruct Hsame as [Hsetup Ht]. split.
  { destruct Hsetup as (Hc & Hw & Hh).
    unfold freeBuffers, set_requests, set_streamBuffers, set_mappedBuffers,
      set_allocator.
    cbn. by rewrite Hc, Hw, Hh, Ht. }
  destruct ok1.
  - apply freeBuffers_eq; [exact Hsetup | exact Ht |].
    destruct (Hok eq_refl) as [Hbufs _].
    pose proof (allocateStreams_allocator _ _ _ _ E1 eq_refl) as A1.
    pose proof (createRequests_allocator _ _ _ _ _ _ E2) as A2.
    apply (createRequests_known (dev_buffers dev)) in E2 as (B2 & _).
    2:{ intros sc Hsc. rewrite Hbufs. rewrite decide_True; [done|].
        by apply list_elem_of_fmap_2. }
    rewrite A2, A1, B2. apply set_eq. intros s.
    rewrite !elem_of_difference, elem_of_union, elem_of_list_to_set,
      !elem_of_dom, Hbufs.
    destruct (decide (s ∈ (sc_stream <$> cfg))) as [Hin|Hnotin].
    + split; [intros [_ Hno]; destruct Hno; by eexists|].
      intros [Hs Hno]. destruct Hno. apply elem_of_dom. by apply Hrec.
    + split; [intros [[?|?] ?]; done | intros [? ?]; by split; [right|]].
  - destruct E2 as [-> ->]. split; [reflexivity|].
    intros Hnd Halloc Hfresh.
    destruct (allocateStreams_leak _ _ _ Hnd Halloc Hfresh E1)
      as (sc & Hsc & Hin & Hnone).
    exists sc. split; [exact Hsc|].
    unfold freeBuffers. cbn. apply elem_of_difference. split; [exact Hin|].
    by apply not_elem_of_dom.
Qed.

End AllocationFacts.

Lemma X13_mapBuffer_records_mapping_witness :
  StreamManager.mapBuffer Sample.device 20 RGB 4 2 Sample.configured
  = (true, Sample.mappedOne)
  /\ (if true then
        StreamManager.getMappedSize Sample.mappedOne 20
        = (if decide (RGB = JPEG) then 4 * 2 * 3 / 2 else 4 * 2 * 3)
        /\ (exists plane0 planes,
              dev_planes Sample.device 20 = plane0 :: planes
              /\ dev_mmap Sample.device (StreamManager.getMappedSize Sample.mappedOne 20)
                   (plane_fd plane0) (plane_offset plane0)
                 = Some (StreamManager.getMappedData Sample.mappedOne 20))
        /\ (forall other, other <> 20 ->
              StreamManager.mappedBuffers_ Sample.mappedOne !! other
              = StreamManager.mappedBuffers_ Sample.configured !! other)
      else Sample.mappedOne = Sample.configured).
Proof.
  split; [vm_compute; reflexivity|].
  apply (X13_mapBuffer_records_mapping Sample.device 20 RGB 4 2
           Sample.configured Sample.mappedOne true).
  - vm_compute. reflexivity.
  - discriminate.
  - lia.
  - lia.
  - lia.
Defined.

Lemma X14_allocateBuffers_buffers_witness :
  exists cfg st',
    StreamManager.config_ Sample.configured = Some cfg
    /\ StreamManager.allocateBuffers Sample.device Sample.configured
       = Ok (true, st')
    /\ (forall stream index,
          stream ∈ (sc_stream <$> cfg) ->
          StreamManager.getBuffer st' stream index
          = match dev_buffers Sample.device stream !! index with
            | Some fb => fb
            | None => 0
            end)
    /\ (forall streamCfg fb,
          streamCfg ∈ cfg ->
          fb ∈ dev_buffers Sample.device (sc_stream streamCfg) ->
          StreamManager.getStreamType st' (sc_stream streamCfg) <> RAW ->
          is_Some (StreamManager.mappedBuffers_ st' !! fb)).
Proof.
  eexists _, _. split; [vm_compute; reflexivity|].
  split; [vm_compute; reflexivity|].
  apply (X14_allocateBuffers_buffers Sample.device Sample.configured).
  - vm_compute. reflexivity.
  - vm_compute. reflexivity.
Defined.

Lemma X15_allocateBuffers_requests_witness :
  exists cfg st',
    StreamManager.config_ Sample.configured = Some cfg
    /\ StreamManager.allocateBuffers Sample.device Sample.configured
       = Ok (true, st')
    /\ exists reqs,
         StreamManager.requests_ st'
         = StreamManager.requests_ Sample.configured ++ reqs
         /\ length reqs = 6%nat
         /\ forall k r,
              reqs !! k = Some r ->
              dev_createRequest Sample.device k = Some (rq_cookie r)
              /\ rq_status r = RequestPending
              /\ rq_controls r = []
              /\ forall stream,
                   rq_buffers r !! stream
                   = if decide (stream ∈ (sc_stream <$> cfg))
                     then dev_buffers Sample.device stream !! k else None.
Proof.
  eexists _, _. split; [vm_compute; reflexivity|].
  split; [vm_compute; reflexivity|].
  apply (X15_allocateBuffers_requests Sample.device Sample.configured).
  - vm_compute. reflexivity.
  - vm_compute. reflexivity.
Defined.

Lemma X16_allocateBuffers_request_failure_witness :
  exists cfg st1 st',
    StreamManager.config_ Sample.configured = Some cfg
    /\ StreamManager.allocateStreams Sample.deviceFewRequests cfg
         Sample.configured = (true, st1)
    /\ StreamManager.allocateBuffers Sample.deviceFewRequests
         Sample.configured = Ok (false, st')
    /\ exists reqs,
         StreamManager.requests_ st'
         = StreamManager.requests_ Sample.configured ++ reqs
         /\ (length reqs < 6)%nat
         /\ dev_createRequest Sample.deviceFewRequests (length reqs) = None
         /\ StreamManager.mappedBuffers_ st' = StreamManager.mappedBuffers_ st1
         /\ StreamManager.streamBuffers_ st' = StreamManager.streamBuffers_ st1.
Proof.
  eexists _, _, _. split; [vm_compute; reflexivity|].
  split; [vm_compute; reflexivity|]. split; [vm_compute; reflexivity|].
  eapply (X16_allocateBuffers_request_failure Sample.deviceFewRequests
            Sample.configured).
  - vm_compute. reflexivity.
  - vm_compute. reflexivity.
  - vm_compute. reflexivity.
Defined.

Lemma X17_freeBuffers_after_allocateBuffers_witness :
  exists cfg st1 st',
    StreamManager.config_ Sample.configured = Some cfg
    /\ StreamManager.allocateStreams Sample.deviceFailingMap cfg
         Sample.configured = (false, st1)
    /\ StreamManager.allocateBuffers Sample.deviceFailingMap
         Sample.configured = Ok (false, st')
    /\ StreamManager.set_allocator ∅ (StreamManager.freeBuffers st')
       = StreamManager.set_allocator ∅
           (StreamManager.freeBuffers Sample.configured)
    /\ false = false
    /\ (NoDup (sc_stream <$> cfg) ->
        (forall streamCfg, streamCfg ∈ cfg ->
            0 <= dev_allocate Sample.deviceFailingMap (sc_stream streamCfg)) ->
        (forall streamCfg, streamCfg ∈ cfg ->
            StreamManager.streamBuffers_ Sample.configured
              !! sc_stream streamCfg = None) ->
        exists streamCfg,
          streamCfg ∈ cfg
          /\ sc_stream streamCfg
             ∈ StreamManager.allocator_ (StreamManager.freeBuffers st')).
Proof.
  eexists _, _, _. split; [vm_compute; reflexivity|].
  split; [vm_compute; reflexivity|]. split; [vm_compute; reflexivity|].
  eapply (X17_freeBuffers_after_allocateBuffers Sample.deviceFailingMap
            Sample.configured _ _ _ false false).
  - vm_compute. reflexivity.
  - intros sc Hsc.
    apply elem_of_cons in Hsc as [->|Hsc]; [eexists; vm_compute; reflexivity|].
    apply elem_of_cons in Hsc as [->|Hsc]; [eexists; vm_compute; reflexivity|].
    by apply elem_of_nil in Hsc.
  - assert (E : StreamManager.allocator_ Sample.configured = ∅)
      by (vm_compute; reflexivity).
    rewrite E. apply empty_subseteq.
  - vm_compute. reflexivity.
  - vm_compute. reflexivity.
Defined.

(** ** The encoder's queue and worker *)

Section QueueFacts.
Import JpegEncoder.

Lemma set_queue_same st : set_queue (queue_ st) st = st.
Proof. by destruct st. Qed.

Lemma enqueueAll_queued tasks :
  forall st,
    running_ st = true ->
    Z.of_nat (length (queue_ st) + length tasks) <= maxQueueSize_ st ->
    enqueueAll tasks st
    = (replicate (length tasks) Queued, set_queue (queue_ st ++ tasks) st).
Proof.
  induction tasks as [|task rest IH]; intros st Hrun Hroom.
  - cbn. by rewrite app_nil_r, set_queue_same.
  - cbn [enqueueAll length replicate] in *. unfold enqueue, canEnter.
    rewrite Hrun. cbn [negb orb].
    destruct (Z.ltb_spec (Z.of_nat (length (queue_ st))) (maxQueueSize_ st));
      [|lia].
    cbn [orb]. rewrite IH.
    + cbn [queue_ set_queue]. rewrite <- app_assoc. reflexivity.
    + exact Hrun.
    + cbn [queue_ set_queue maxQueueSize_]. rewrite length_app. cbn. lia.
Qed.

Lemma dequeueN_all q :
  forall st,
    running_ st = true ->
    dequeueN (length q) (set_queue q st) = (q, set_queue [] st).
Proof.
  induction q as [|task rest IH]; intros st Hrun; [reflexivity|].
  cbn [dequeueN length]. unfold dequeue. cbn [running_ queue_ set_queue].
  rewrite Hrun.
  change (set_queue rest (set_queue (task :: rest) st))
    with (set_queue rest st).
  by rewrite IH.
Qed.

(** X18. The queue is first in, first out: while the encoder runs and
    there is room, every submitted task is queued, and the worker then
    receives what was queued before followed by the new tasks, in
    submission order, and finds the queue empty afterwards. *)
Theorem X18_encoder_queue_fifo :
  forall (tasks : list Task) (st : JpegEncoder.t),
    running_ st = true ->
    Z.of_nat (length (queue_ st) + length tasks) <= maxQueueSize_ st ->
    exists st1,
      enqueueAll tasks st = (replicate (length tasks) Queued, st1)
      /\ dequeueN (length (queue_ st) + length tasks) st1
         = (queue_ st ++ tasks, set_queue [] st)
      /\ dequeue (set_queue [] st) = None
      /\ buffer_ st1 = buffer_ st.
Proof.
  intros tasks st Hrun Hroom. exists (set_queue (queue_ st ++ tasks) st).
  split; [by apply enqueueAll_queued|]. split.
  - rewrite <- length_app. by apply dequeueN_all.
  - split; [|reflexivity]. unfold dequeue. cbn. by rewrite Hrun.
Qed.

(** X19. A stopped encoder: [encode] returns without queueing and never
    sleeps, whatever the queue holds; the worker takes nothing; the tasks
    still queued are neither delivered nor dropped, and after [start] the
    worker resumes with the oldest of them. *)
Theorem X19_stopped_encoder :
  forall (st : JpegEncoder.t) (task : Task) (codec : Codec) (heap : Heap),
    running_ (stop st) = false
    /\ enqueue task (stop st) = (NotRunning, stop st)
    /\ dequeue (stop st) = None
    /\ workerTurn codec heap (stop st) = None
    /\ queue_ (stop st) = queue_ st
    /\ stop (stop st) = stop st
    /\ dequeue (start (stop st))
       = match queue_ st with
         | oldest :: rest => Some (oldest, set_queue rest (start st))
         | [] => None
         end.
Proof.
  intros st task codec heap.
  assert (Hrun : running_ (stop st) = false).
  { unfold stop. by destruct (running_ st) eqn:E. }
  assert (Hq : queue_ (stop st) = queue_ st).
  { unfold stop. by destruct (running_ st). }
  assert (Hdq : dequeue (stop st) = None).
  { unfold dequeue. by rewrite Hrun. }
  split; [exact Hrun|]. split.
  { unfold enqueue, canEnter. rewrite Hrun. cbn [negb].
    by rewrite orb_true_r. }
  split; [exact Hdq|]. split; [unfold workerTurn; by rewrite Hdq|].
  split; [exact Hq|]. split.
  { unfold stop at 1. by rewrite Hrun. }
  unfold dequeue, start. cbn [running_ queue_ set_running]. rewrite Hq.
  destruct (queue_ st) as [|oldest rest]; [reflexivity|].
  do 2 f_equal. unfold stop. by destruct (running_ st) eqn:E, st.
Qed.

Lemma ensureBuffer_length maxSize buffer :
  length (ensureBuffer maxSize buffer)
  = Nat.max (length buffer) (Z.to_nat maxSize).
Proof.
  unfold ensureBuffer.
  destruct (Z.ltb_spec (Z.of_nat (length buffer)) maxSize).
  - rewrite length_app, length_replicate. lia.
  - lia.
Qed.

(** X20. Whenever the worker's processing of a task returns, the queue,
    the running flag and the queue bound are as before, the reusable
    buffer has grown to the bound the codec gives for the task's width
    and height as it receives them, converted to [int], and never
    shrinks.  The codec compresses the task's block with the plane
    offsets 0, w*h and w*h + w*h/4 (in 32 bits) and the width, height
    and strides converted to [int]: when it fails nothing is delivered
    and no block is made; when it succeeds exactly one JPEG frame goes to
    the task's callback, its data a new block holding the output, tagged
    with the task's timestamp and sequence. *)
Theorem X20_process_outcome :
  forall (codec : Codec) (task : Task) (heap heap' : Heap)
         (st st' : JpegEncoder.t) (ds : list Delivery),
    process codec task heap st = Ok (ds, heap', st') ->
    queue_ st' = queue_ st
    /\ running_ st' = running_ st
    /\ maxQueueSize_ st' = maxQueueSize_ st
    /\ length (buffer_ st')
       = Nat.max (length (buffer_ st))
           (Z.to_nat (tj_bufSizeYUV2 codec (int32 (task_width task))
                        (int32 (task_height task))))
    /\ exists src,
         heap !! task_data task = Some src
         /\ match tj_compressFromYUVPlanes codec src
                  (0, mul32 (task_width task) (task_height task),
                   mul32 (task_width task) (task_height task)
                   + mul32 (task_width task) (task_height task) / 4)
                  (int32 (task_width task))
                  (int32 (task_width task), int32 (task_width task / 2),
                   int32 (task_width task / 2))
                  (int32 (task_height task)) (task_quality task) with
            | None => ds = [] /\ heap' = heap
            | Some out =>
                exists cb,
                  task_callback task = Some cb
                  /\ heap' = heap ++ [out]
                  /\ ds = [{| dl_callback := cb; dl_type := JPEG;
                              dl_frame :=
                                {| data_ptr := HeapBlock (length heap);
                                   data_len := Z.of_nat (length out);
                                   timestamp := task_timestamp task;
                                   sequence := task_sequence task;
                                   owner := Some (length heap) |} |}]
            end.
Proof.
  intros codec task heap heap' st st' ds H. unfold process in H.
  destruct (heap !! task_data task) as [src|] eqn:Esrc; [|discriminate].
  cbv zeta in H.
  set (maxSize := tj_bufSizeYUV2 codec (int32 (task_width task))
                    (int32 (task_height task))) in *.
  pose proof (ensureBuffer_length maxSize (buffer_ st)) as Hlen.
  destruct (tj_compressFromYUVPlanes _ _ _ _ _ _ _) as [out|] eqn:Ec.
  - destruct (Nat.ltb_spec (length (ensureBuffer maxSize (buffer_ st)))
                (length out)) as [|Hfits]; [discriminate|].
    assert (Htake : take (length out)
                      (out ++ drop (length out)
                                (ensureBuffer maxSize (buffer_ st)))
                    = out).
    { rewrite take_app_le by lia. by rewrite take_ge by lia. }
    unfold make_shared in H. rewrite Htake in H.
    assert (Hnew : (heap ++ [out]) !! length heap = Some out).
    { rewrite lookup_app_r by lia. by rewrite Nat.sub_diag. }
    rewrite Hnew in H.
    destruct (task_callback task) as [cb|]; [|discriminate].
    cbn [call] in H. rewrite bind_Ok in H.
    unfold mret, result_ret in H. injection H as <- <- <-.
    cbn [queue_ running_ maxQueueSize_ buffer_ set_buffer].
    split; [done|]. split; [done|]. split; [done|]. split.
    + rewrite length_app, length_drop. lia.
    + exists src. split; [done|]. rewrite Ec. by exists cb.
  - unfold mret, result_ret in H. injection H as <- <- <-.
    cbn [queue_ running_ maxQueueSize_ buffer_ set_buffer].
    split; [done|]. split; [done|]. split; [done|]. split; [exact Hlen|].
    exists src. split; [done|]. by rewrite Ec.
Qed.

End QueueFacts.

Lemma X18_encoder_queue_fifo_witness :
  exists st1,
    enqueueAll [Sample.task 1; Sample.task 2] Sample.encoder
    = (replicate (length [Sample.task 1; Sample.task 2]) JpegEncoder.Queued,
       st1)
    /\ dequeueN (length (JpegEncoder.queue_ Sample.encoder)
                 + length [Sample.task 1; Sample.task 2]) st1
       = (JpegEncoder.queue_ Sample.encoder
          ++ [Sample.task 1; Sample.task 2],
          JpegEncoder.set_queue [] Sample.encoder)
    /\ JpegEncoder.dequeue (JpegEncoder.set_queue [] Sample.encoder) = None
    /\ JpegEncoder.buffer_ st1 = JpegEncoder.buffer_ Sample.encoder.
Proof.
  apply (X18_encoder_queue_fifo [Sample.task 1; Sample.task 2]
           Sample.encoder).
  - reflexivity.
  - vm_compute. discriminate.
Defined.

Lemma X20_process_outcome_witness :
  exists ds heap' st',
    JpegEncoder.process Sample.codec (Sample.task 1) [Sample.yuvFrame]
      Sample.encoder
    = Ok (ds, heap', st')
    /\ JpegEncoder.queue_ st' = JpegEncoder.queue_ Sample.encoder
    /\ JpegEncoder.running_ st' = JpegEncoder.running_ Sample.encoder
    /\ JpegEncoder.maxQueueSize_ st' = JpegEncoder.maxQueueSize_ Sample.encoder
    /\ length (JpegEncoder.buffer_ st')
       = Nat.max (length (JpegEncoder.buffer_ Sample.encoder))
           (Z.to_nat (tj_bufSizeYUV2 Sample.codec
                        (int32 (JpegEncoder.task_width (Sample.task 1)))
                        (int32 (JpegEncoder.task_height (Sample.task 1)))))
    /\ exists src,
         [Sample.yuvFrame] !! JpegEncoder.task_data (Sample.task 1) = Some src
         /\ match tj_compressFromYUVPlanes Sample.codec src
                  (0,
                   mul32 (JpegEncoder.task_width (Sample.task 1))
                     (JpegEncoder.task_height (Sample.task 1)),
                   mul32 (JpegEncoder.task_width (Sample.task 1))
                     (JpegEncoder.task_height (Sample.task 1))
                   + mul32 (JpegEncoder.task_width (Sample.task 1))
                       (JpegEncoder.task_height (Sample.task 1)) / 4)
                  (int32 (JpegEncoder.task_width (Sample.task 1)))
                  (int32 (JpegEncoder.task_width (Sample.task 1)),
                   int32 (JpegEncoder.task_width (Sample.task 1) / 2),
                   int32 (JpegEncoder.task_width (Sample.task 1) / 2))
                  (int32 (JpegEncoder.task_height (Sample.task 1)))
                  (JpegEncoder.task_quality (Sample.task 1)) with
            | None => ds = [] /\ heap' = [Sample.yuvFrame]
            | Some out =>
                exists cb,
                  JpegEncoder.task_callback (Sample.task 1) = Some cb
                  /\ heap' = [Sample.yuvFrame] ++ [out]
                  /\ ds = [{| JpegEncoder.dl_callback := cb;
                              JpegEncoder.dl_type := JPEG;
                              JpegEncoder.dl_frame :=
                                {| data_ptr :=
                                     HeapBlock (length [Sample.yuvFrame]);
                                   data_len := Z.of_nat (length out);
                                   timestamp :=
                                     JpegEncoder.task_timestamp (Sample.task 1);
                                   sequence :=
                                     JpegEncoder.task_sequence (Sample.task 1);
                                   owner :=
                                     Some (length [Sample.yuvFrame]) |} |}]
            end.
Proof.
  eexists _, _, _. split; [vm_compute; reflexivity|].
  apply (X20_process_outcome Sample.codec (Sample.task 1) [Sample.yuvFrame]).
  vm_compute. reflexivity.
Defined.

(** ** Bringing the orchestrator up and down *)

Section OrchestratorFacts.
Import CameraManager.

Lemma withDefaults_fields c :
  targetFps (withDefaults c)
  = Some (match targetFps c with Some fps => fps | None => 30 end)
  /\ jpegQuality (withDefaults c)
     = Some (match jpegQuality c with Some q => q | None => 85 end).
Proof.
  unfold withDefaults.
  destruct (targetFps c) eqn:E1, (jpegQuality c) eqn:E2; cbn;
    rewrite ?E1, ?E2; done.
Qed.

Lemma mergePending_again p c :
  afTrigger p = None ->
  ControlManager.mergePending
    (set_afTrigger None (ControlManager.mergePending p c)) c
  = ControlManager.mergePending p c.
Proof.
  intros Haf. apply Controls_ext; cbn; rewrite ?Haf;
    match goal with
    | |- assignIfSet _ ?y = _ => by destruct y
    end.
Qed.

Lemma promoted_twice p c : promoted p (promoted p c) = promoted p c.
Proof.
  apply Controls_ext; cbn; try reflexivity;
    match goal with
    | |- assignIfSet _ ?y = _ => by destruct y
    end.
Qed.

Lemma applyToRequests_cons controls request rest controlManager :
  applyToRequests controls (request :: rest) controlManager
  = (cm ← deref controlManager;
     '(cm, cl) ← ControlManager.applyControls controls (rq_controls request) cm;
     '(controlManager, rest) ← applyToRequests controls rest (Some cm);
     mret (controlManager, set_rq_controls cl request :: rest)).
Proof. reflexivity. Qed.

(** The loop over the pre-built requests in closed form: with no
    af-trigger pending, every request receives the same writes. *)
Lemma applyToRequests_closed controls :
  forall requests cm controlManager' requests',
    afTrigger (ControlManager.pendingControls_ cm) = None ->
    applyToRequests controls requests (Some cm)
    = Ok (controlManager', requests') ->
    let p := ControlManager.mergePending
               (ControlManager.pendingControls_ cm) controls in
    requests'
    = map (fun r => set_rq_controls
                      (rq_controls r ++ deviceWrites p ++ fpsWrites p) r)
        requests
    /\ controlManager'
       = Some (match requests with
               | [] => cm
               | _ :: _ =>
                   {| ControlManager.currentControls_ :=
                        promoted p (ControlManager.currentControls_ cm);
                      ControlManager.pendingControls_ :=
                        set_afTrigger None p |}
               end)
    /\ (requests <> [] -> targetFps p <> Some 0).
Proof.
  induction requests as [|request rest IH];
    intros cm controlManager' requests' Haf H p.
  - injection H as <- <-. done.
  - rewrite applyToRequests_cons in H. cbn [deref] in H.
    rewrite bind_Ok in H. rewrite applyControls_total in H. fold p in H.
    assert (Hfps : targetFps p <> Some 0).
    { intros E. rewrite E in H. discriminate. }
    assert (Hok : match targetFps p with
                  | Some 0 => Fault DivByZero
                  | _ => Ok ({| ControlManager.currentControls_ :=
                                  promoted p (ControlManager.currentControls_ cm);
                                ControlManager.pendingControls_ :=
                                  set_afTrigger None p |},
                             rq_controls request ++ deviceWrites p
                             ++ fpsWrites p)
                  end
                  = Ok ({| ControlManager.currentControls_ :=
                             promoted p (ControlManager.currentControls_ cm);
                           ControlManager.pendingControls_ :=
                             set_afTrigger None p |},
                        rq_controls request ++ deviceWrites p ++ fpsWrites p)).
    { destruct (targetFps p) as [[| |]|]; done. }
    rewrite Hok in H. clear Hok. rewrite bind_Ok in H.
    destruct (applyToRequests controls rest _) as [[cm2 rest']|] eqn:E;
      [|discriminate].
    rewrite bind_Ok in H. unfold mret, result_ret in H.
    injection H as <- <-.
    apply IH in E; [|reflexivity].
    cbn [ControlManager.pendingControls_ ControlManager.currentControls_] in E.
    unfold p in E. rewrite (mergePending_again _ _ Haf) in E. fold p in E.
    destruct E as (-> & -> & _).
    split; [reflexivity|]. split; [|done].
    f_equal. destruct rest; [reflexivity|].
    by rewrite promoted_twice.
Qed.

(** What a [start] that returned true has done. *)
Lemma start_true dev f e st st' effects :
  start dev f e st = Ok (true, st', effects) ->
  exists sm sm1 enc cam cm' requests,
    streamManager_ st = Some sm
    /\ StreamManager.allocateBuffers dev sm = Ok (true, sm1)
    /\ jpegEncoder_ st = Some enc
    /\ camera_ st = Some cam
    /\ applyToRequests (withDefaults (initialControls_ st))
         (StreamManager.requests_ sm1) (controlManager_ st)
       = Ok (cm', requests)
    /\ effects = map (fun r => QueueRequest (rq_cookie r)) requests
    /\ camera_ st' = Some {| cam_connected := true; cam_started := true |}
    /\ streamManager_ st' = Some (StreamManager.set_requests requests sm1)
    /\ jpegEncoder_ st' = Some (JpegEncoder.start enc)
    /\ controlManager_ st' = cm'
    /\ frameCallback_ st' = f
    /\ errorCallback_ st' = e
    /\ initialControls_ st' = withDefaults (initialControls_ st)
    /\ pendingControls_ st' = pendingControls_ st
    /\ jpegQuality_ st'
       = match jpegQuality (withDefaults (initialControls_ st)) with
         | Some q => q
         | None => 85
         end
    /\ running_ st' = true.
Proof.
  unfold start. intros H.
  cbn [streamManager_ jpegEncoder_ camera_ errorCallback_ set_callbacks] in H.
  destruct (streamManager_ st) as [sm|] eqn:Esm; [|discriminate].
  cbn [deref] in H. rewrite bind_Ok in H.
  destruct (StreamManager.allocateBuffers dev sm) as [[ok1 sm1]|] eqn:Ealloc;
    [|discriminate].
  rewrite bind_Ok in H. destruct ok1; cbn [negb] in H.
  - cbn [streamManager_ jpegEncoder_ camera_ errorCallback_ controlManager_
           initialControls_ set_streamManager set_callbacks set_jpegEncoder
           set_camera set_initialControls] in H.
    destruct (jpegEncoder_ st) as [enc|] eqn:Eenc; [|discriminate].
    cbn [deref] in H. rewrite bind_Ok in H.
    destruct (camera_ st) as [cam|] eqn:Ecam; [|discriminate].
    cbn [deref] in H. rewrite bind_Ok in H.
    destruct (dev_start dev <? 0).
    + destruct e; [|discriminate]. cbn in H. discriminate.
    + destruct (applyToRequests _ _ _) as [[cm requests]|] eqn:Eapply;
        [|discriminate].
      rewrite bind_Ok in H. unfold mret, result_ret in H.
      injection H as <- <-.
      exists sm, sm1, enc, cam, cm, requests.
      split; [done|]. split; [done|]. split; [done|]. split; [done|].
      split; [exact Eapply|]. split; [done|].
      cbn. repeat (split; [reflexivity|]). reflexivity.
  - destruct e; [|discriminate]. cbn in H. discriminate.
Qed.

(** X21. A [start] that returns true leaves the orchestrator running
    with both callbacks stored, the camera started and connected to the
    completion handler and the encoder running; missing initial values
    are filled in (30 frames per second, quality 85), the cached encoder
    quality is the initial one, and every request of the stream manager
    has been queued on the camera, in order. *)
Theorem X21_start_success :
  forall (dev : Device) (f e : option Z) (st st' : Impl)
         (effects : list Effect),
    start dev f e st = Ok (true, st', effects) ->
    running_ st' = true
    /\ frameCallback_ st' = f
    /\ errorCallback_ st' = e
    /\ camera_ st' = Some {| cam_connected := true; cam_started := true |}
    /\ (exists enc,
          jpegEncoder_ st' = Some enc /\ JpegEncoder.running_ enc = true)
    /\ targetFps (initialControls_ st')
       = Some (match targetFps (initialControls_ st) with
               | Some fps => fps
               | None => 30
               end)
    /\ jpegQuality (initialControls_ st') = Some (jpegQuality_ st')
    /\ jpegQuality_ st'
       = match jpegQuality (initialControls_ st) with
         | Some q => q
         | None => 85
         end
    /\ exists sm',
         streamManager_ st' = Some sm'
         /\ effects
            = map (fun r => QueueRequest (rq_cookie r))
                (StreamManager.requests_ sm').
Proof.
  intros dev f e st st' effects H.
  apply start_true in H
    as (sm & sm1 & enc & cam & cm' & requests & Hsm & Halloc & Henc & Hcam
        & Happly & -> & Hcam' & Hsm' & Henc' & Hcm' & Hf & He & Hinit & Hpend
        & Hq & Hrun).
  destruct (withDefaults_fields (initialControls_ st)) as [Hfps Hquality].
  rewrite Hquality in Hq.
  split; [done|]. split; [done|]. split; [done|]. split; [done|].
  split; [by exists (JpegEncoder.start enc)|].
  split; [by rewrite Hinit|]. split; [by rewrite Hinit, Hq|].
  split; [done|]. by eexists.
Qed.

(** X22. On a [start] that returns true, with no af-trigger pending in
    the control manager, every request built by [allocateBuffers] gets
    the same writes appended to its control list: those of the initial
    controls with the defaults filled in, merged over the manager's
    pending set.  A frame duration is always among them, and from the
    first request on [getControls] reports the current set with every
    field present in the merged set promoted. *)
Theorem X22_start_applies_initial_controls :
  forall (dev : Device) (f e : option Z) (st st' : Impl)
         (effects : list Effect) (cm : ControlManager.t)
         (sm : StreamManager.t),
    start dev f e st = Ok (true, st', effects) ->
    controlManager_ st = Some cm ->
    streamManager_ st = Some sm ->
    afTrigger (ControlManager.pendingControls_ cm) = None ->
    let p := ControlManager.mergePending (ControlManager.pendingControls_ cm)
               (withDefaults (initialControls_ st)) in
    exists sm1,
      StreamManager.allocateBuffers dev sm = Ok (true, sm1)
      /\ streamManager_ st'
         = Some (StreamManager.set_requests
                   (map (fun r => set_rq_controls
                                    (rq_controls r ++ deviceWrites p
                                     ++ fpsWrites p) r)
                      (StreamManager.requests_ sm1)) sm1)
      /\ is_Some (targetFps p)
      /\ (StreamManager.requests_ sm1 <> [] ->
          targetFps p <> Some 0
          /\ getControls st'
             = Ok (promoted p (ControlManager.currentControls_ cm))).
Proof.
  intros dev f e st st' effects cm sm H Hcm Hsm Haf p.
  apply start_true in H
    as (sm0 & sm1 & enc & cam & cm' & requests & Hsm0 & Halloc & Henc & Hcam
        & Happly & -> & Hcam' & Hsm' & Henc' & Hcm' & Hf & He & Hinit & Hpend
        & Hq & Hrun).
  rewrite Hsm in Hsm0. injection Hsm0 as <-. rewrite Hcm in Happly.
  apply applyToRequests_closed in Happly as (-> & Hcm2 & Hfps); [|exact Haf].
  fold p in Hsm', Hcm2, Hfps.
  exists sm1. split; [exact Halloc|]. split; [exact Hsm'|]. split.
  - destruct (withDefaults_fields (initialControls_ st)) as [E _].
    unfold p. cbn. rewrite E. by eexists.
  - intros Hne. split; [by apply Hfps|].
    unfold getControls. rewrite Hcm', Hcm2. cbn [deref]. rewrite bind_Ok.
    destruct (StreamManager.requests_ sm1); [done|]. reflexivity.
Qed.

(** X23. A [start] that returns false has told the error callback why,
    once, and has not set the running flag.  When it was the camera that
    failed to start, the buffers stay allocated, the encoder stays
    running and the completion handler stays connected, and a later
    [stop] changes nothing. *)
Theorem X23_start_failure :
  forall (dev : Device) (f e : option Z) (st st' : Impl)
         (effects : list Effect),
    start dev f e st = Ok (false, st', effects) ->
    running_ st' = running_ st
    /\ exists cb msg,
         e = Some cb
         /\ effects = [ErrorCallback cb msg]
         /\ ((msg = MsgAllocate
              /\ jpegEncoder_ st' = jpegEncoder_ st
              /\ camera_ st' = camera_ st
              /\ initialControls_ st' = initialControls_ st)
             \/ (msg = MsgCameraStart
                 /\ dev_start dev < 0
                 /\ (exists sm sm1,
                       streamManager_ st = Some sm
                       /\ StreamManager.allocateBuffers dev sm = Ok (true, sm1)
                       /\ streamManager_ st' = Some sm1)
                 /\ (exists enc,
                       jpegEncoder_ st' = Some enc
                       /\ JpegEncoder.running_ enc = true)
                 /\ (exists cam,
                       camera_ st' = Some cam /\ cam_connected cam = true)
                 /\ (running_ st = false -> stop st' = Ok st'))).
Proof.
  unfold start. intros dev f e st st' effects H.
  cbn [streamManager_ jpegEncoder_ camera_ errorCallback_ set_callbacks] in H.
  destruct (streamManager_ st) as [sm|] eqn:Esm; [|discriminate].
  cbn [deref] in H. rewrite bind_Ok in H.
  destruct (StreamManager.allocateBuffers dev sm) as [[ok1 sm1]|] eqn:Ealloc;
    [|discriminate].
  rewrite bind_Ok in H. destruct ok1; cbn [negb] in H.
  - cbn [streamManager_ jpegEncoder_ camera_ errorCallback_ controlManager_
           initialControls_ set_streamManager set_callbacks set_jpegEncoder
           set_camera set_initialControls] in H.
    destruct (jpegEncoder_ st) as [enc|] eqn:Eenc; [|discriminate].
    cbn [deref] in H. rewrite bind_Ok in H.
    destruct (camera_ st) as [cam|] eqn:Ecam; [|discriminate].
    cbn [deref] in H. rewrite bind_Ok in H.
    destruct (Z.ltb_spec (dev_start dev) 0) as [Hneg|].
    + destruct e as [cb|]; [|discriminate].
      cbn in H. injection H as <- <-.
      split; [reflexivity|]. exists cb, MsgCameraStart.
      split; [reflexivity|]. split; [reflexivity|]. right.
      split; [reflexivity|]. split; [exact Hneg|].
      split; [by exists sm, sm1|].
      split; [by exists (JpegEncoder.start enc)|].
      split; [by eexists|].
      intros Hrun. apply stop_not_running. exact Hrun.
    + destruct (applyToRequests _ _ _) as [[cm requests]|]; [|discriminate].
      rewrite bind_Ok in H. discriminate.
  - destruct e as [cb|]; [|discriminate].
    cbn in H. injection H as <- <-.
    split; [reflexivity|]. exists cb, MsgAllocate.
    split; [reflexivity|]. split; [reflexivity|]. by left.
Qed.

(** X24. [stop] on a running orchestrator stops the encoder, frees the
    stream manager's buffers and gives up the camera; since the camera
    pointer is reset, no later [start] returns true. *)
Theorem X24_no_restart_after_stop :
  forall (st st' : Impl),
    running_ st = true ->
    stop st = Ok st' ->
    running_ st' = false
    /\ camera_ st' = None
    /\ (exists enc,
          jpegEncoder_ st = Some enc
          /\ jpegEncoder_ st' = Some (JpegEncoder.stop enc))
    /\ (exists sm,
          streamManager_ st = Some sm
          /\ streamManager_ st' = Some (StreamManager.freeBuffers sm))
    /\ forall dev f e st'' effects,
         start dev f e st' <> Ok (true, st'', effects).
Proof.
  intros st st' Hrun H. unfold stop in H. rewrite Hrun in H. cbn in H.
  cbn [camera_ jpegEncoder_ streamManager_ set_running] in H.
  destruct (camera_ st) as [cam|]; [|discriminate].
  destruct (jpegEncoder_ st) as [enc|] eqn:Eenc; [|discriminate].
  destruct (streamManager_ st) as [sm|] eqn:Esm; [|discriminate].
  cbn in H. injection H as <-.
  split; [reflexivity|]. split; [reflexivity|].
  split; [by exists enc|]. split; [by exists sm|].
  intros dev f e st'' effects Hstart.
  apply start_true in Hstart as (? & ? & ? & ? & ? & ? & _ & _ & _ & Hcam & _).
  discriminate.
Qed.

(** X25. [initialize] either returns true with the camera acquired, the
    streams configured, a fresh control manager, an encoder with the
    configured queue bound and the initial controls stored, or returns
    false with an error message recorded and neither control manager nor
    encoder created, so that on an orchestrator without an encoder no
    later [start] returns true.  It never touches the running flag. *)
Theorem X25_initialize_outcome :
  forall (dev : Device) (codec : Codec) (config : CameraConfig)
         (st st' : Impl) (ok : bool),
    initialize dev codec config st = Ok (ok, st') ->
    running_ st' = running_ st
    /\ if ok then
         camera_ st' = Some {| cam_connected := false; cam_started := false |}
         /\ (exists sm,
               StreamManager.configure dev (rawStream config) (streams config)
                 StreamManager.init = Ok (true, sm)
               /\ streamManager_ st' = Some sm)
         /\ controlManager_ st' = Some ControlManager.init
         /\ jpegEncoder_ st'
            = Some {| JpegEncoder.queue_ := [];
                      JpegEncoder.running_ := false;
                      JpegEncoder.buffer_ := [];
                      JpegEncoder.maxQueueSize_ :=
                        jpegEncoderQueueSize config |}
         /\ initialControls_ st' = initialControls config
         /\ lastError_ st' = lastError_ st
       else
         is_Some (lastError_ st')
         /\ controlManager_ st' = controlManager_ st
         /\ jpegEncoder_ st' = jpegEncoder_ st
         /\ initialControls_ st' = initialControls_ st
         /\ (jpegEncoder_ st = None ->
             forall dev' f e st'' effects,
               start dev' f e st' <> Ok (true, st'', effects)).
Proof.
  unfold initialize. intros dev codec config st st' ok H.
  assert (Hfail : forall msg (st0 : Impl),
            running_ st0 = running_ st ->
            controlManager_ st0 = controlManager_ st ->
            jpegEncoder_ st0 = jpegEncoder_ st ->
            initialControls_ st0 = initialControls_ st ->
            running_ (set_lastError msg st0) = running_ st
            /\ is_Some (lastError_ (set_lastError msg st0))
            /\ controlManager_ (set_lastError msg st0) = controlManager_ st
            /\ jpegEncoder_ (set_lastError msg st0) = jpegEncoder_ st
            /\ initialControls_ (set_lastError msg st0) = initialControls_ st
            /\ (jpegEncoder_ st = None ->
                forall dev' f e st'' effects,
                  start dev' f e (set_lastError msg st0)
                  <> Ok (true, st'', effects))).
  { intros msg st0 Hr Hc He Hi. cbn.
    split; [done|]. split; [by eexists|]. split; [done|]. split; [done|].
    split; [done|]. intros Hnone dev' f e st'' effects Hstart.
    apply start_true in Hstart
      as (? & ? & ? & ? & ? & ? & _ & _ & Henc & _).
    cbn in Henc. congruence. }
  destruct (dev_managerStart dev <? 0).
  { injection H as <- <-. by apply Hfail. }
  destruct (dev_cameras dev).
  { injection H as <- <-. by apply Hfail. }
  destruct (negb (dev_acquire dev =? 0)).
  { injection H as <- <-. by apply Hfail. }
  destruct (StreamManager.configure dev (rawStream config) (streams config)
              StreamManager.init) as [[ok1 sm]|] eqn:Econf; [|discriminate].
  rewrite bind_Ok in H. destruct ok1; cbn [negb] in H.
  - unfold JpegEncoder.create in H.
    destruct (tj_initCompress codec); [|discriminate].
    unfold mret at 1, result_ret at 1 in H. rewrite bind_Ok in H.
    unfold mret, result_ret in H. injection H as <- <-.
    split; [reflexivity|]. split; [reflexivity|].
    split; [by exists sm|]. done.
  - unfold mret, result_ret in H. injection H as <- <-. by apply Hfail.
Qed.

End OrchestratorFacts.

Lemma X21_start_success_witness :
  exists st' effects,
    CameraManager.start Sample.device (Some 1) (Some 2) Sample.initialized.2
    = Ok (true, st', effects)
    /\ CameraManager.running_ st' = true
    /\ CameraManager.frameCallback_ st' = Some 1
    /\ CameraManager.errorCallback_ st' = Some 2
    /\ CameraManager.camera_ st'
       = Some {| CameraManager.cam_connected := true;
                 CameraManager.cam_started := true |}
    /\ (exists enc,
          CameraManager.jpegEncoder_ st' = Some enc
          /\ JpegEncoder.running_ enc = true)
    /\ targetFps (CameraManager.initialControls_ st')
       = Some (match targetFps (CameraManager.initialControls_
                                  Sample.initialized.2) with
               | Some fps => fps
               | None => 30
               end)
    /\ jpegQuality (CameraManager.initialControls_ st')
       = Some (CameraManager.jpegQuality_ st')
    /\ CameraManager.jpegQuality_ st'
       = match jpegQuality (CameraManager.initialControls_
                              Sample.initialized.2) with
         | Some q => q
         | None => 85
         end
    /\ exists sm',
         CameraManager.streamManager_ st' = Some sm'
         /\ effects
            = map (fun r => CameraManager.QueueRequest (rq_cookie r))
                (StreamManager.requests_ sm').
Proof.
  eexists _, _. split; [vm_compute; reflexivity|].
  apply (X21_start_success Sample.device (Some 1) (Some 2)
           Sample.initialized.2).
  vm_compute. reflexivity.
Defined.

Lemma X22_start_applies_initial_controls_witness :
  exists st' effects cm sm,
    CameraManager.start Sample.device (Some 1) (Some 2) Sample.initialized.2
    = Ok (true, st', effects)
    /\ CameraManager.controlManager_ Sample.initialized.2 = Some cm
    /\ CameraManager.streamManager_ Sample.initialized.2 = Some sm
    /\ afTrigger (ControlManager.pendingControls_ cm) = None
    /\ exists sm1,
         StreamManager.allocateBuffers Sample.device sm = Ok (true, sm1)
         /\ CameraManager.streamManager_ st'
            = Some (StreamManager.set_requests
                      (map (fun r =>
                              set_rq_controls
                                (rq_controls r
                                 ++ deviceWrites
                                      (ControlManager.mergePending
                                         (ControlManager.pendingControls_ cm)
                                         (CameraManager.withDefaults
                                            (CameraManager.initialControls_
                                               Sample.initialized.2)))
                                 ++ fpsWrites
                                      (ControlManager.mergePending
                                         (ControlManager.pendingControls_ cm)
                                         (CameraManager.withDefaults
                                            (CameraManager.initialControls_
                                               Sample.initialized.2)))) r)
                         (StreamManager.requests_ sm1)) sm1)
         /\ is_Some (targetFps
                       (ControlManager.mergePending
                          (ControlManager.pendingControls_ cm)
                          (CameraManager.withDefaults
                             (CameraManager.initialControls_
                                Sample.initialized.2))))
         /\ (StreamManager.requests_ sm1 <> [] ->
             targetFps
               (ControlManager.mergePending
                  (ControlManager.pendingControls_ cm)
                  (CameraManager.withDefaults
                     (CameraManager.initialControls_ Sample.initialized.2)))
             <> Some 0
             /\ CameraManager.getControls st'
                = Ok (promoted
                        (ControlManager.mergePending
                           (ControlManager.pendingControls_ cm)
                           (CameraManager.withDefaults
                              (CameraManager.initialControls_
                                 Sample.initialized.2)))
                        (ControlManager.currentControls_ cm))).
Proof.
  eexists _, _, _, _. split; [vm_compute; reflexivity|].
  split; [vm_compute; reflexivity|]. split; [vm_compute; reflexivity|].
  split; [reflexivity|].
  eapply (X22_start_applies_initial_controls Sample.device (Some 1) (Some 2)
            Sample.initialized.2).
  - vm_compute. reflexivity.
  - vm_compute. reflexivity.
  - vm_compute. reflexivity.
  - reflexivity.
Defined.

Lemma X23_start_failure_witness :
  exists st' effects,
    CameraManager.start Sample.deviceFailingMap (Some 1) (Some 2)
      Sample.initialized.2
    = Ok (false, st', effects)
    /\ CameraManager.running_ st'
       = CameraManager.running_ Sample.initialized.2
    /\ exists cb msg,
         Some 2 = Some cb
         /\ effects = [CameraManager.ErrorCallback cb msg]
         /\ ((msg = CameraManager.MsgAllocate
              /\ CameraManager.jpegEncoder_ st'
                 = CameraManager.jpegEncoder_ Sample.initialized.2
              /\ CameraManager.camera_ st'
                 = CameraManager.camera_ Sample.initialized.2
              /\ CameraManager.initialControls_ st'
                 = CameraManager.initialControls_ Sample.initialized.2)
             \/ (msg = CameraManager.MsgCameraStart
                 /\ dev_start Sample.deviceFailingMap < 0
                 /\ (exists sm sm1,
                       CameraManager.streamManager_ Sample.initialized.2
                       = Some sm
                       /\ StreamManager.allocateBuffers
                            Sample.deviceFailingMap sm = Ok (true, sm1)
                       /\ CameraManager.streamManager_ st' = Some sm1)
                 /\ (exists enc,
                       CameraManager.jpegEncoder_ st' = Some enc
                       /\ JpegEncoder.running_ enc = true)
                 /\ (exists cam,
                       CameraManager.camera_ st' = Some cam
                       /\ CameraManager.cam_connected cam = true)
                 /\ (CameraManager.running_ Sample.initialized.2 = false ->
                     CameraManager.stop st' = Ok st'))).
Proof.
  eexists _, _. split; [vm_compute; reflexivity|].
  apply (X23_start_failure Sample.deviceFailingMap (Some 1) (Some 2)
           Sample.initialized.2).
  vm_compute. reflexivity.
Defined.

Lemma X24_no_restart_after_stop_witness :
  exists st',
    CameraManager.running_ Sample.started.1.2 = true
    /\ CameraManager.stop Sample.started.1.2 = Ok st'
    /\ CameraManager.running_ st' = false
    /\ CameraManager.camera_ st' = None
    /\ (exists enc,
          CameraManager.jpegEncoder_ Sample.started.1.2 = Some enc
          /\ CameraManager.jpegEncoder_ st' = Some (JpegEncoder.stop enc))
    /\ (exists sm,
          CameraManager.streamManager_ Sample.started.1.2 = Some sm
          /\ CameraManager.streamManager_ st'
             = Some (StreamManager.freeBuffers sm))
    /\ forall dev f e st'' effects,
         CameraManager.start dev f e st' <> Ok (true, st'', effects).
Proof.
  eexists. split; [vm_compute; reflexivity|].
  split; [vm_compute; reflexivity|].
  apply (X24_no_restart_after_stop Sample.started.1.2).
  - vm_compute. reflexivity.
  - vm_compute. reflexivity.
Defined.

Lemma X25_initialize_outcome_witness :
  exists st',
    CameraManager.initialize Sample.device Sample.codec Sample.config
      CameraManager.init
    = Ok (true, st')
    /\ CameraManager.running_ st' = CameraManager.running_ CameraManager.init
    /\ CameraManager.camera_ st'
       = Some {| CameraManager.cam_connected := false;
                 CameraManager.cam_started := false |}
    /\ (exists sm,
          StreamManager.configure Sample.device
            (CameraManager.rawStream Sample.config)
            (CameraManager.streams Sample.config) StreamManager.init
          = Ok (true, sm)
          /\ CameraManager.streamManager_ st' = Some sm)
    /\ CameraManager.controlManager_ st' = Some ControlManager.init
    /\ CameraManager.jpegEncoder_ st'
       = Some {| JpegEncoder.queue_ := [];
                 JpegEncoder.running_ := false;
                 JpegEncoder.buffer_ := [];
                 JpegEncoder.maxQueueSize_ :=
                   CameraManager.jpegEncoderQueueSize Sample.config |}
    /\ CameraManager.initialControls_ st'
       = CameraManager.initialControls Sample.config
    /\ CameraManager.lastError_ st'
       = CameraManager.lastError_ CameraManager.init.
Proof.
  eexists. split; [vm_compute; reflexivity|].
  apply (X25_initialize_outcome Sample.device Sample.codec Sample.config
           CameraManager.init _ true).
  vm_compute. reflexivity.
Defined.
